(** * Scheduling API: conflict detection, status transitions, recurrence

    A shallow embedding of the scheduling core of the Go program
    (packages [models], [repository] and [handlers]) together with the
    properties its specification states about it.

    Conventions.  Go's [int] and [uint] values are carried as [Z]; the only
    arithmetic performed on them ([/], [%], [+1] below a bound) cannot wrap.
    Go strings are [string]s.  [gorm]'s queries over the [appointments] table
    are list operations over the rows of that table. *)

From Stdlib Require Import ZArith List String Ascii Bool Lia.
From Stdlib Require Import Sorted.
Import ListNotations.
Open Scope string_scope.
Open Scope list_scope.
Open Scope Z_scope.

(** ** The part of Go's [time] package the program calls *)

Module GoTime.

(** A [time.Time]: the instant in nanoseconds since 0001-01-01T00:00:00Z
    (the instant for which [IsZero] holds) and the offset of its
    [Location] in seconds east of UTC.  Locations are fixed-offset zones
    ([time.UTC], a [time.FixedZone], what parsing a numeric offset gives):
    a [Location] with daylight-saving transitions, in which a calendar day
    can last 23 or 25 hours and a wall-clock time can be missing, is not
    represented. *)
Record Time : Type := mkTime { instant : Z; zone : Z }.

Definition Duration : Type := Z.

Definition Nanosecond : Duration := 1.
Definition Second : Duration := 1000000000 * Nanosecond.
Definition Minute : Duration := 60 * Second.
Definition Hour : Duration := 60 * Minute.

Definition minDuration : Duration := - 2 ^ 63.
Definition maxDuration : Duration := 2 ^ 63 - 1.

Definition secondsPerDay : Z := 86400.
Definition nsPerDay : Z := secondsPerDay * Second.

Definition Before (t u : Time) : bool := instant t <? instant u.
Definition After (t u : Time) : bool := instant u <? instant t.
Definition Equal (t u : Time) : bool := instant t =? instant u.
Definition IsZero (t : Time) : bool := instant t =? 0.

(** [t.Sub(u)]: the difference, saturated to the range of [Duration]. *)
Definition Sub (t u : Time) : Duration :=
  let d := instant t - instant u in
  if d <? minDuration then minDuration
  else if maxDuration <? d then maxDuration
  else d.

Definition Add (t : Time) (d : Duration) : Time :=
  mkTime (instant t + d) (zone t).

(** [t.Truncate(d)]: round down to a multiple of [d] since the zero time. *)
Definition Truncate (t : Time) (d : Duration) : Time :=
  if d <=? 0 then t else mkTime (instant t - instant t mod d) (zone t).

(** *** Calendar computations (proleptic Gregorian) *)

Definition isLeap (year : Z) : bool :=
  (year mod 4 =? 0) && (negb (year mod 100 =? 0) || (year mod 400 =? 0)).

(** Days from 0001-01-01 to January 1st of [year]. *)
Definition daysSinceEpoch (year : Z) : Z :=
  let y := year - 1 in
  365 * y + y / 4 - y / 100 + y / 400.

(** [daysBefore m]: days of a non-leap year before month [m+1]. *)
Definition daysBefore (m : Z) : Z :=
  match m with
  | 0 => 0 | 1 => 31 | 2 => 59 | 3 => 90 | 4 => 120 | 5 => 151 | 6 => 181
  | 7 => 212 | 8 => 243 | 9 => 273 | 10 => 304 | 11 => 334 | _ => 365
  end.

(** [norm hi lo base]: carry [lo] into [hi] so that [0 <= lo < base]. *)
Definition norm (hi lo base : Z) : Z * Z := (hi + lo / base, lo mod base).

Definition civilDays (year month day : Z) : Z :=
  daysSinceEpoch year + daysBefore (month - 1)
  + (if isLeap year && (3 <=? month) then 1 else 0)
  + (day - 1).

(** [time.Date]: out-of-range fields are normalised by carrying. *)
Definition Date (year month day hour min sec nsec : Z) (loc : Z) : Time :=
  let '(year, m) := norm year (month - 1) 12 in
  let month := m + 1 in
  let '(sec, nsec) := norm sec nsec 1000000000 in
  let '(min, sec) := norm min sec 60 in
  let '(hour, min) := norm hour min 60 in
  let '(day, hour) := norm day hour 24 in
  let d := civilDays year month day in
  let abs := d * secondsPerDay + hour * 3600 + min * 60 + sec in
  mkTime ((abs - loc) * 1000000000 + nsec) loc.

(** Seconds since the epoch on the wall clock of the time's location. *)
Definition localSeconds (t : Time) : Z := instant t / 1000000000 + zone t.
Definition localDays (t : Time) : Z := localSeconds t / secondsPerDay.
Definition secondOfDay (t : Time) : Z := localSeconds t mod secondsPerDay.
Definition nsecOf (t : Time) : Z := instant t mod 1000000000.

(** Year and day within the year (from 0) of a day number. *)
Definition absDate (d : Z) : Z * Z :=
  let n400 := d / 146097 in
  let d := d - 146097 * n400 in
  let n100 := d / 36524 in
  let n100 := n100 - n100 / 4 in
  let d := d - 36524 * n100 in
  let n4 := d / 1461 in
  let d := d - 1461 * n4 in
  let n := d / 365 in
  let n := n - n / 4 in
  let d := d - 365 * n in
  (400 * n400 + 100 * n100 + 4 * n4 + n + 1, d).

(** Month (1..12) and day of the month of day [yday] of [year]. *)
Definition monthDay (year yday : Z) : Z * Z :=
  let leapDay := isLeap year && (yday =? 31 + 29 - 1) in
  if leapDay then (2, 29)
  else
    let day :=
      if isLeap year && (31 + 29 - 1 <? yday) then yday - 1 else yday in
    let month := day / 31 in
    let endd := daysBefore (month + 1) in
    let '(month, begin) :=
      if endd <=? day then (month + 1, endd) else (month, daysBefore month) in
    (month + 1, day - begin + 1).

Definition civil (d : Z) : Z * Z * Z :=
  let '(year, yday) := absDate d in
  let '(month, day) := monthDay year yday in
  (year, month, day).

Definition Year (t : Time) : Z := fst (fst (civil (localDays t))).
Definition Month (t : Time) : Z := snd (fst (civil (localDays t))).
Definition Day (t : Time) : Z := snd (civil (localDays t)).

Definition HourOf (t : Time) : Z := secondOfDay t / 3600.
Definition MinuteOf (t : Time) : Z := (secondOfDay t mod 3600) / 60.
Definition SecondOf (t : Time) : Z := secondOfDay t mod 60.

(** [Weekday]: Sunday is 0; 0001-01-01 was a Monday. *)
Definition Weekday (t : Time) : Z := (localDays t + 1) mod 7.

Definition AddDate (t : Time) (years months days : Z) : Time :=
  Date (Year t + years) (Month t + months) (Day t + days)
       (HourOf t) (MinuteOf t) (SecondOf t) (nsecOf t) (zone t).

End GoTime.

Import GoTime.

(** ** Package [models] *)

Module models.

(** Go's [error]: [nil], or a value made by [errors.New]. *)
Definition error : Type := string.

Definition AppointmentStatus : Type := string.

Definition StatusPending : AppointmentStatus := "pending".
Definition StatusConfirmed : AppointmentStatus := "confirmed".
Definition StatusCancelled : AppointmentStatus := "cancelled".
Definition StatusCompleted : AppointmentStatus := "completed".
Definition StatusRescheduled : AppointmentStatus := "rescheduled".

(** [User], with the fields of [BaseModel] and [User] the core reads. *)
Record User : Type := mkUser {
  UserID : Z;
  Email : string;
  Role : string;
  Active : bool
}.

(** [Appointment]: [BaseModel] first, then the columns of the row.  The
    preloaded associations ([Supplier], [Employee], ...) are other tables'
    rows and are left out. *)
Record Appointment : Type := mkAppointment {
  ID : Z;
  CreatedAt : Time;
  UpdatedAt : Time;
  DeletedAt : option Time;
  SupplierID : Z;
  EmployeeID : Z;
  OperationID : Z;
  ProductID : Z;
  ScheduledStart : Time;
  ScheduledEnd : Time;
  Status : AppointmentStatus;
  Notes : string;
  QuantityToDeliver : Z;
  ConfirmedAt : option Time;
  CancelledAt : option Time;
  CompletedAt : option Time;
  CancellationReason : string
}.

Definition errSupplierRequired : error := "supplier is required".
Definition errEmployeeRequired : error := "employee is required".
Definition errOperationRequired : error := "operation is required".
Definition errProductRequired : error := "product is required".
Definition errStartRequired : error := "scheduled start time is required".
Definition errEndRequired : error := "scheduled end time is required".
Definition errInvalidRange : error :=
  "scheduled start time must be before scheduled end time".
Definition errQuantity : error :=
  "quantity to deliver must be greater than zero".
Definition errInvalidDuration : error :=
  "appointment must be at least 1 hour long".

(** [Appointment.Validate]; [None] is the [nil] error. *)
Definition Validate (a : Appointment) : option error :=
  if SupplierID a =? 0 then Some errSupplierRequired
  else if EmployeeID a =? 0 then Some errEmployeeRequired
  else if OperationID a =? 0 then Some errOperationRequired
  else if ProductID a =? 0 then Some errProductRequired
  else if IsZero (ScheduledStart a) then Some errStartRequired
  else if IsZero (ScheduledEnd a) then Some errEndRequired
  else if After (ScheduledStart a) (ScheduledEnd a) then Some errInvalidRange
  else if QuantityToDeliver a <=? 0 then Some errQuantity
  else if Sub (ScheduledEnd a) (ScheduledStart a) <? Hour
       then Some errInvalidDuration
  else None.

(** Field assignments [a.F = v]. *)
Definition setID (a : Appointment) (v : Z) : Appointment :=
  mkAppointment v (CreatedAt a) (UpdatedAt a) (DeletedAt a) (SupplierID a)
    (EmployeeID a) (OperationID a) (ProductID a) (ScheduledStart a)
    (ScheduledEnd a) (Status a) (Notes a) (QuantityToDeliver a)
    (ConfirmedAt a) (CancelledAt a) (CompletedAt a) (CancellationReason a).

Definition setCreatedAt (a : Appointment) (v : Time) : Appointment :=
  mkAppointment (ID a) v (UpdatedAt a) (DeletedAt a) (SupplierID a)
    (EmployeeID a) (OperationID a) (ProductID a) (ScheduledStart a)
    (ScheduledEnd a) (Status a) (Notes a) (QuantityToDeliver a)
    (ConfirmedAt a) (CancelledAt a) (CompletedAt a) (CancellationReason a).

Definition setUpdatedAt (a : Appointment) (v : Time) : Appointment :=
  mkAppointment (ID a) (CreatedAt a) v (DeletedAt a) (SupplierID a)
    (EmployeeID a) (OperationID a) (ProductID a) (ScheduledStart a)
    (ScheduledEnd a) (Status a) (Notes a) (QuantityToDeliver a)
    (ConfirmedAt a) (CancelledAt a) (CompletedAt a) (CancellationReason a).

Definition setStatus (a : Appointment) (v : AppointmentStatus) : Appointment :=
  mkAppointment (ID a) (CreatedAt a) (UpdatedAt a) (DeletedAt a) (SupplierID a)
    (EmployeeID a) (OperationID a) (ProductID a) (ScheduledStart a)
    (ScheduledEnd a) v (Notes a) (QuantityToDeliver a)
    (ConfirmedAt a) (CancelledAt a) (CompletedAt a) (CancellationReason a).

Definition setConfirmedAt (a : Appointment) (v : option Time) : Appointment :=
  mkAppointment (ID a) (CreatedAt a) (UpdatedAt a) (DeletedAt a) (SupplierID a)
    (EmployeeID a) (OperationID a) (ProductID a) (ScheduledStart a)
    (ScheduledEnd a) (Status a) (Notes a) (QuantityToDeliver a)
    v (CancelledAt a) (CompletedAt a) (CancellationReason a).

Definition setCancelledAt (a : Appointment) (v : option Time) : Appointment :=
  mkAppointment (ID a) (CreatedAt a) (UpdatedAt a) (DeletedAt a) (SupplierID a)
    (EmployeeID a) (OperationID a) (ProductID a) (ScheduledStart a)
    (ScheduledEnd a) (Status a) (Notes a) (QuantityToDeliver a)
    (ConfirmedAt a) v (CompletedAt a) (CancellationReason a).

Definition setCompletedAt (a : Appointment) (v : option Time) : Appointment :=
  mkAppointment (ID a) (CreatedAt a) (UpdatedAt a) (DeletedAt a) (SupplierID a)
    (EmployeeID a) (OperationID a) (ProductID a) (ScheduledStart a)
    (ScheduledEnd a) (Status a) (Notes a) (QuantityToDeliver a)
    (ConfirmedAt a) (CancelledAt a) v (CancellationReason a).

Definition setCancellationReason (a : Appointment) (v : string) : Appointment :=
  mkAppointment (ID a) (CreatedAt a) (UpdatedAt a) (DeletedAt a) (SupplierID a)
    (EmployeeID a) (OperationID a) (ProductID a) (ScheduledStart a)
    (ScheduledEnd a) (Status a) (Notes a) (QuantityToDeliver a)
    (ConfirmedAt a) (CancelledAt a) (CompletedAt a) v.

End models.

Import models.

(** ** Package [repository]: the appointment repository over [gorm] *)

Module repository.

(** The [appointments] table.  Rows keep their primary key [ID]; a row
    whose [DeletedAt] is set is soft-deleted and invisible to every query
    made through [gorm]'s default scope. *)
Definition DB : Type := list Appointment.

Definition live (r : Appointment) : bool :=
  match DeletedAt r with None => true | Some _ => false end.

(** The three OR'd range conditions of the [Where] clause, for a row with
    columns [scheduled_start] and [scheduled_end] and the query arguments
    [aStart] and [aEnd] (the candidate's times). *)
Definition rangeConditions (aStart aEnd scheduled_start scheduled_end : Z)
  : bool :=
  ((scheduled_start <? aEnd) && (scheduled_end >? aStart))
  || ((scheduled_start >=? aStart) && (scheduled_start <? aEnd))
  || ((scheduled_end >? aStart) && (scheduled_end <=? aEnd)).

Definition overlapWhere (a r : Appointment) : bool :=
  rangeConditions (instant (ScheduledStart a)) (instant (ScheduledEnd a))
    (instant (ScheduledStart r)) (instant (ScheduledEnd r)).

(** The row count of the employee query: the chained [Where]s are
    joined by AND, each one in parentheses. *)
Definition employeeConflicts (a : Appointment) (db : DB) : Z :=
  Z.of_nat (List.length (filter (fun r =>
    live r
    && ((EmployeeID r =? EmployeeID a) && negb (ID r =? ID a))
    && negb (String.eqb (Status r) StatusCancelled)
    && overlapWhere a r) db)).

Definition supplierConflicts (a : Appointment) (db : DB) : Z :=
  Z.of_nat (List.length (filter (fun r =>
    live r
    && ((SupplierID r =? SupplierID a) && negb (ID r =? ID a))
    && negb (String.eqb (Status r) StatusCancelled)
    && overlapWhere a r) db)).

(** [HasConflict]: the queries themselves do not fail here. *)
Definition HasConflict (a : Appointment) (db : DB) : bool :=
  if employeeConflicts a db >? 0 then true
  else supplierConflicts a db >? 0.

Definition errNotFound : error := "appointment not found".
Definition errConflict : error :=
  "appointment conflicts with an existing appointment".
Definition errUpdateConflict : error :=
  "updated appointment conflicts with an existing appointment".
Definition errDuplicateKey : error :=
  "duplicate key value violates unique constraint".

(** [FindByID]: [First(&appointment, id)]. *)
Definition FindByID (id : Z) (db : DB) : error + Appointment :=
  match find (fun r => live r && (ID r =? id)) db with
  | Some r => inr r
  | None => inl errNotFound
  end.

(** The key the table's sequence hands out next.  A sequence hands out
    some positive key; it is taken here as one more than the largest key of
    the table, which no row has. *)
Definition nextID (db : DB) : Z :=
  1 + fold_right (fun r m => Z.max (ID r) m) 0 db.

(** [tx.Create(appointment)]: INSERT, the key taken from the sequence when
    the model's [ID] is zero; an empty [Status] is written, and set on the
    model, as the column's default (the tag [default:'pending']); the
    creation timestamps are filled in when they are zero. *)
Definition gormCreate (now : Time) (a : Appointment) (db : DB)
  : option error * DB :=
  let a := if ID a =? 0 then setID a (nextID db) else a in
  if existsb (fun r => ID r =? ID a) db then (Some errDuplicateKey, db)
  else
    let a :=
      if String.eqb (Status a) EmptyString then setStatus a StatusPending
      else a in
    let a := if IsZero (CreatedAt a) then setCreatedAt a now else a in
    let a := if IsZero (UpdatedAt a) then setUpdatedAt a now else a in
    (None, db ++ [a]).

(** [db.Save(appointment)] for a model with a primary key: UPDATE of all
    columns of the row with that key, an upsert when there is none. *)
Definition gormSave (now : Time) (a : Appointment) (db : DB)
  : option error * DB :=
  let a := setUpdatedAt a now in
  if existsb (fun r => ID r =? ID a) db
  then (None, map (fun r => if ID r =? ID a then a else r) db)
  else (None, db ++ [a]).

(** [Create]: validate, check for conflicts, insert. *)
Definition Create (now : Time) (a : Appointment) (db : DB)
  : option error * DB :=
  match Validate a with
  | Some err => (Some err, db)
  | None =>
      if HasConflict a db then (Some errConflict, db)
      else gormCreate now a db
  end.

(** [Update]: validate, re-check conflicts when the times changed, save. *)
Definition Update (now : Time) (a : Appointment) (db : DB)
  : option error * DB :=
  match Validate a with
  | Some err => (Some err, db)
  | None =>
      match FindByID (ID a) db with
      | inl err => (Some err, db)
      | inr existingAppointment =>
          if negb (Equal (ScheduledStart existingAppointment)
                     (ScheduledStart a))
             || negb (Equal (ScheduledEnd existingAppointment)
                        (ScheduledEnd a))
          then
            if HasConflict a db then (Some errUpdateConflict, db)
            else gormSave now a db
          else gormSave now a db
      end
  end.

(** [UpdateStatus]: load, set the status and the fields that go with it,
    save.  [now] is the reading of [time.Now()]. *)
Definition UpdateStatus (now : Time) (id : Z) (status : AppointmentStatus)
    (reason : string) (db : DB) : option error * DB :=
  match FindByID id db with
  | inl err => (Some err, db)
  | inr appointment =>
      let appointment := setStatus appointment status in
      let appointment :=
        if String.eqb status StatusConfirmed
        then setConfirmedAt appointment (Some now)
        else if String.eqb status StatusCancelled
        then setCancellationReason
               (setCancelledAt appointment (Some now)) reason
        else if String.eqb status StatusCompleted
        then setCompletedAt appointment (Some now)
        else appointment in
      gormSave now appointment db
  end.

End repository.

Import repository.

(** ** Package [handlers]: the status-change endpoint *)

Module handlers.

(** [hasStatusChangePermission]. *)
Definition hasStatusChangePermission (user : User) (appointment : Appointment)
    (newStatus : AppointmentStatus) : bool :=
  if String.eqb (Role user) "admin" then true
  else if String.eqb (Status appointment) StatusPending then
    if String.eqb newStatus StatusConfirmed && String.eqb (Role user) "employee"
    then true
    else if String.eqb newStatus StatusCancelled
            && String.eqb (Role user) "supplier"
    then UserID user =? SupplierID appointment
    else false
  else if String.eqb (Status appointment) StatusConfirmed then
    if String.eqb newStatus StatusCompleted && String.eqb (Role user) "employee"
    then UserID user =? EmployeeID appointment
    else if (String.eqb newStatus StatusCancelled
             || String.eqb newStatus StatusRescheduled)
            && String.eqb (Role user) "supplier"
    then UserID user =? SupplierID appointment
    else false
  else if String.eqb (Status appointment) StatusCancelled then false
  else if String.eqb (Status appointment) StatusCompleted then false
  else if String.eqb (Status appointment) StatusRescheduled then
    if String.eqb newStatus StatusPending && String.eqb (Role user) "supplier"
    then UserID user =? SupplierID appointment
    else false
  else false.

(** HTTP status codes the endpoint answers with. *)
Definition StatusOK : Z := 200.
Definition StatusBadRequest : Z := 400.
Definition StatusForbidden : Z := 403.
Definition StatusNotFound : Z := 404.
Definition StatusInternalServerError : Z := 500.

(** The request body of the endpoint; [Reason] carries no [required]
    binding. *)
Record UpdateStatusRequest : Type := mkUpdateStatusRequest {
  ReqStatus : AppointmentStatus;
  Reason : string
}.

Section UpdateStatusEndpoint.

(** [AppointmentService.UpdateStatus]: the handler reaches it through the
    service interface; it is a parameter of the endpoint. *)
Variable serviceUpdateStatus :
  Z -> AppointmentStatus -> string -> DB -> option error * DB.

(** [AppointmentHandler.UpdateStatus] for an authenticated [user], a
    well-formed id and a request body that binds: the HTTP status and the
    table afterwards.  [GetByID] of the service is the repository's
    [FindByID]. *)
Definition UpdateStatus (user : User) (id : Z) (req : UpdateStatusRequest)
    (db : DB) : Z * DB :=
  match FindByID id db with
  | inl _ => (StatusNotFound, db)
  | inr existingAppointment =>
      if negb (hasStatusChangePermission user existingAppointment
                 (ReqStatus req))
      then (StatusForbidden, db)
      else
        match serviceUpdateStatus id (ReqStatus req) (Reason req) db with
        | (Some _, db') => (StatusBadRequest, db')
        | (None, db') =>
            match FindByID id db' with
            | inl _ => (StatusInternalServerError, db')
            | inr _ => (StatusOK, db')
            end
        end
  end.

End UpdateStatusEndpoint.

End handlers.

Import handlers.

(** ** Go strings as UTF-8 byte sequences *)

Module GoString.

Definition RuneError : Z := 0xFFFD.

(** Conversion of an [int] to [rune] (an [int32]): the low 32 bits. *)
Definition runeOfInt (n : Z) : Z := (n + 2 ^ 31) mod 2 ^ 32 - 2 ^ 31.

Definition byte (b : Z) : ascii := ascii_of_N (Z.to_N b).

Definition stringOfBytes (bs : list Z) : string :=
  string_of_list_ascii (map byte bs).

Definition bytesOf (s : string) : list Z :=
  map (fun c => Z.of_N (N_of_ascii c)) (list_ascii_of_string s).

(** [string(r)] for a rune [r]: its UTF-8 encoding, that of U+FFFD when
    [r] is not a valid code point. *)
Definition encodeRune (r : Z) : list Z :=
  if (r <? 0) || (0x10FFFF <? r) || ((0xD800 <=? r) && (r <=? 0xDFFF))
  then [0xEF; 0xBF; 0xBD]
  else if r <? 0x80 then [r]
  else if r <? 0x800
  then [Z.lor 0xC0 (Z.shiftr r 6); Z.lor 0x80 (Z.land r 0x3F)]
  else if r <? 0x10000
  then [Z.lor 0xE0 (Z.shiftr r 12);
        Z.lor 0x80 (Z.land (Z.shiftr r 6) 0x3F);
        Z.lor 0x80 (Z.land r 0x3F)]
  else [Z.lor 0xF0 (Z.shiftr r 18);
        Z.lor 0x80 (Z.land (Z.shiftr r 12) 0x3F);
        Z.lor 0x80 (Z.land (Z.shiftr r 6) 0x3F);
        Z.lor 0x80 (Z.land r 0x3F)].

Definition stringOfRune (r : Z) : string := stringOfBytes (encodeRune r).

Definition within (lo hi b : Z) : bool := (lo <=? b) && (b <=? hi).
Definition cont (b : Z) : bool := within 0x80 0xBF b.

Definition valid2 (b0 b1 : Z) : bool := within 0xC2 0xDF b0 && cont b1.

Definition valid3 (b0 b1 b2 : Z) : bool :=
  (((b0 =? 0xE0) && within 0xA0 0xBF b1)
   || ((within 0xE1 0xEC b0 || within 0xEE 0xEF b0) && cont b1)
   || ((b0 =? 0xED) && within 0x80 0x9F b1))
  && cont b2.

Definition valid4 (b0 b1 b2 b3 : Z) : bool :=
  (((b0 =? 0xF0) && within 0x90 0xBF b1)
   || (within 0xF1 0xF3 b0 && cont b1)
   || ((b0 =? 0xF4) && within 0x80 0x8F b1))
  && cont b2 && cont b3.

Definition low6 (b : Z) : Z := Z.land b 0x3F.

(** The runes a [for _, c := range s] loop yields: UTF-8 decoding, one
    U+FFFD per byte that starts no valid encoding. *)
Fixpoint decodeRunes (bs : list Z) : list Z :=
  match bs with
  | [] => []
  | b0 :: rest =>
      if b0 <? 0x80 then b0 :: decodeRunes rest
      else
        match rest with
        | [] => RuneError :: decodeRunes rest
        | b1 :: rest1 =>
            if valid2 b0 b1
            then Z.lor (Z.shiftl (Z.land b0 0x1F) 6) (low6 b1)
                 :: decodeRunes rest1
            else
              match rest1 with
              | [] => RuneError :: decodeRunes rest
              | b2 :: rest2 =>
                  if valid3 b0 b1 b2
                  then Z.lor (Z.shiftl (Z.land b0 0x0F) 12)
                         (Z.lor (Z.shiftl (low6 b1) 6) (low6 b2))
                       :: decodeRunes rest2
                  else
                    match rest2 with
                    | [] => RuneError :: decodeRunes rest
                    | b3 :: rest3 =>
                        if valid4 b0 b1 b2 b3
                        then Z.lor (Z.shiftl (Z.land b0 0x07) 18)
                               (Z.lor (Z.shiftl (low6 b1) 12)
                                  (Z.lor (Z.shiftl (low6 b2) 6) (low6 b3)))
                             :: decodeRunes rest3
                        else RuneError :: decodeRunes rest
                    end
              end
        end
  end.

Definition runes (s : string) : list Z := decodeRunes (bytesOf s).

End GoString.

Import GoString.

(** ** Package [models]: recurring appointments *)

Module recurring.

Definition RecurrencePattern : Type := string.

Definition RecurrenceDaily : RecurrencePattern := "daily".
Definition RecurrenceWeekly : RecurrencePattern := "weekly".
Definition RecurrenceMonthly : RecurrencePattern := "monthly".
Definition RecurrenceBiweekly : RecurrencePattern := "biweekly".

(** [WeekDay] is an [int]; the named constants run from [Sunday] = 0. *)
Definition WeekDay : Type := Z.

Definition Sunday : WeekDay := 0.
Definition Monday : WeekDay := 1.
Definition Tuesday : WeekDay := 2.
Definition Wednesday : WeekDay := 3.
Definition Thursday : WeekDay := 4.
Definition Friday : WeekDay := 5.
Definition Saturday : WeekDay := 6.

(** [RecurringAppointment], without the preloaded associations. *)
Record RecurringAppointment : Type := mkRecurringAppointment {
  RID : Z;
  RSupplierID : Z;
  REmployeeID : Z;
  ROperationID : Z;
  RProductID : Z;
  RQuantityToDeliver : Z;
  RNotes : string;
  Pattern : RecurrencePattern;
  StartDate : Time;
  EndDate : option Time;
  MaxOccurrences : option Z;
  StartTimeMinutes : Z;
  DurationMinutes : Z;
  WeekDays : list WeekDay;
  WeekDaysString : string;
  MonthDay : option Z;
  ExclusionDates : list Time;
  ExclusionJSON : string
}.

Definition setWeekDays (ra : RecurringAppointment) (v : list WeekDay) :=
  mkRecurringAppointment (RID ra) (RSupplierID ra) (REmployeeID ra)
    (ROperationID ra) (RProductID ra) (RQuantityToDeliver ra) (RNotes ra)
    (Pattern ra) (StartDate ra) (EndDate ra) (MaxOccurrences ra)
    (StartTimeMinutes ra) (DurationMinutes ra) v (WeekDaysString ra)
    (MonthDay ra) (ExclusionDates ra) (ExclusionJSON ra).

Definition setWeekDaysString (ra : RecurringAppointment) (v : string) :=
  mkRecurringAppointment (RID ra) (RSupplierID ra) (REmployeeID ra)
    (ROperationID ra) (RProductID ra) (RQuantityToDeliver ra) (RNotes ra)
    (Pattern ra) (StartDate ra) (EndDate ra) (MaxOccurrences ra)
    (StartTimeMinutes ra) (DurationMinutes ra) (WeekDays ra) v
    (MonthDay ra) (ExclusionDates ra) (ExclusionJSON ra).

Definition setExclusionDates (ra : RecurringAppointment) (v : list Time) :=
  mkRecurringAppointment (RID ra) (RSupplierID ra) (REmployeeID ra)
    (ROperationID ra) (RProductID ra) (RQuantityToDeliver ra) (RNotes ra)
    (Pattern ra) (StartDate ra) (EndDate ra) (MaxOccurrences ra)
    (StartTimeMinutes ra) (DurationMinutes ra) (WeekDays ra)
    (WeekDaysString ra) (MonthDay ra) v (ExclusionJSON ra).

Definition setExclusionJSON (ra : RecurringAppointment) (v : string) :=
  mkRecurringAppointment (RID ra) (RSupplierID ra) (REmployeeID ra)
    (ROperationID ra) (RProductID ra) (RQuantityToDeliver ra) (RNotes ra)
    (Pattern ra) (StartDate ra) (EndDate ra) (MaxOccurrences ra)
    (StartTimeMinutes ra) (DurationMinutes ra) (WeekDays ra)
    (WeekDaysString ra) (MonthDay ra) (ExclusionDates ra) v.

(** [RecurringAppointment.Validate]; [now] is the reading of [time.Now()]. *)
Definition Validate (now : Time) (ra : RecurringAppointment) : option error :=
  if RSupplierID ra =? 0 then Some "supplier is required"
  else if REmployeeID ra =? 0 then Some "employee is required"
  else if ROperationID ra =? 0 then Some "operation is required"
  else if RProductID ra =? 0 then Some "product is required"
  else if RQuantityToDeliver ra <=? 0
  then Some "quantity to deliver must be greater than zero"
  else if negb (String.eqb (Pattern ra) RecurrenceDaily
                || String.eqb (Pattern ra) RecurrenceWeekly
                || String.eqb (Pattern ra) RecurrenceBiweekly
                || String.eqb (Pattern ra) RecurrenceMonthly)
  then Some "invalid recurrence pattern"
  else if Before (StartDate ra) (Truncate now (24 * Hour))
  then Some "start date cannot be in the past"
  else if match EndDate ra with
          | Some e => Before e (StartDate ra)
          | None => false
          end
  then Some "end date must be after start date"
  else if match EndDate ra, MaxOccurrences ra with
          | None, None => true
          | _, _ => false
          end
  then Some "either end date or maximum occurrences must be specified"
  else if match MaxOccurrences ra with Some m => m <=? 0 | None => false end
  then Some "maximum occurrences must be greater than zero"
  else if DurationMinutes ra <? 30
  then Some "appointment duration must be at least 30 minutes"
  else if 480 <? DurationMinutes ra
  then Some "appointment duration cannot exceed 8 hours"
  else if (StartTimeMinutes ra <? 0) || (1439 <? StartTimeMinutes ra)
  then Some "start time must be between 0 and 1439 minutes"
  else if String.eqb (Pattern ra) RecurrenceWeekly
          || String.eqb (Pattern ra) RecurrenceBiweekly
  then
    match WeekDays ra with
    | [] =>
        Some "at least one weekday must be selected for weekly/biweekly patterns"
    | _ :: _ => None
    end
  else if String.eqb (Pattern ra) RecurrenceMonthly
  then
    match MonthDay ra with
    | None => Some "day of month must be specified for monthly pattern"
    | Some d =>
        if (d <? 1) || (31 <? d)
        then Some "day of month must be between 1 and 31"
        else None
    end
  else None.

(** The loop of [BeforeSave] over [ra.WeekDays]: index and string so far. *)
Definition weekDaysStep (st : Z * string) (day : WeekDay) : Z * string :=
  let '(i, weekDaysStr) := st in
  let weekDaysStr :=
    if 0 <? i then String.append weekDaysStr "," else weekDaysStr in
  (i + 1, String.append weekDaysStr (stringOfRune (runeOfInt (48 + day)))).

Definition encodeWeekDays (days : list WeekDay) : string :=
  snd (fold_left weekDaysStep days (0, EmptyString)).

(** The loop of [AfterFind] over the runes of [ra.WeekDaysString]. *)
Definition weekDaysOfRune (acc : list WeekDay) (c : Z) : list WeekDay :=
  if negb (c =? 44) then acc ++ [c - 48] else acc.

Definition decodeWeekDays (acc : list WeekDay) (s : string) : list WeekDay :=
  fold_left weekDaysOfRune (runes s) acc.

Section Codec.

(** [date.Format(time.RFC3339)] and [time.Parse(time.RFC3339, s)] of the
    standard library ([None] when parsing fails). *)
Variable formatRFC3339 : Time -> string.
Variable parseRFC3339 : string -> option Time.

Definition exclusionStep (st : Z * string) (date : Time) : Z * string :=
  let '(i, str) := st in
  let str := if 0 <? i then String.append str "," else str in
  (i + 1,
   String.append str
     (String (ascii_of_nat 34)
        (String.append (formatRFC3339 date)
           (String (ascii_of_nat 34) EmptyString)))).

Definition encodeExclusions (dates : list Time) : string :=
  String.append (snd (fold_left exclusionStep dates (0, "["))) "]".

(** [BeforeSave]: the receiver as the hook leaves it, and the error it
    returns. *)
Definition BeforeSave (now : Time) (ra : RecurringAppointment)
  : option error * RecurringAppointment :=
  let ra :=
    match WeekDays ra with
    | [] => ra
    | _ :: _ => setWeekDaysString ra (encodeWeekDays (WeekDays ra))
    end in
  let ra :=
    match ExclusionDates ra with
    | [] => ra
    | _ :: _ => setExclusionJSON ra (encodeExclusions (ExclusionDates ra))
    end in
  (Validate now ra, ra).

(** State of the scan of [ra.ExclusionJSON]: [dateStr], [inQuotes] and
    the dates parsed so far. *)
Definition exclusionScan (st : string * bool * list Time) (c : Z)
  : string * bool * list Time :=
  let '(dateStr, inQuotes, dates) := st in
  if c =? 34 then
    if inQuotes then
      match parseRFC3339 dateStr with
      | Some date => (EmptyString, negb inQuotes, dates ++ [date])
      | None => (EmptyString, negb inQuotes, dates)
      end
    else (EmptyString, negb inQuotes, dates)
  else if inQuotes
  then (String.append dateStr (stringOfRune c), inQuotes, dates)
  else st.

Definition decodeExclusions (s : string) : list Time :=
  snd (fold_left exclusionScan (runes s) (EmptyString, false, [])).

(** [AfterFind]: appends the decoded weekdays to [ra.WeekDays]; replaces
    [ra.ExclusionDates]. *)
Definition AfterFind (ra : RecurringAppointment)
  : option error * RecurringAppointment :=
  let ra :=
    if negb (String.eqb (WeekDaysString ra) EmptyString)
    then setWeekDays ra (decodeWeekDays (WeekDays ra) (WeekDaysString ra))
    else ra in
  let ra :=
    if negb (String.eqb (ExclusionJSON ra) EmptyString)
    then setExclusionDates ra (decodeExclusions (ExclusionJSON ra))
    else ra in
  (None, ra).

End Codec.

Section Occurrences.

(** [int(d.Hours() / 24 / 7)] for a duration [d]: a [float64]
    computation followed by truncation, kept abstract. *)
Variable weeksOf : Duration -> Z.

Variable ra : RecurringAppointment.
Variable endDate : Time.
Variable maxOccurrences : Z.

(** The variables of the [for] loop. *)
Record loopState : Type := mkLoopState {
  currentDate : Time;
  occurrenceCount : Z;
  occurrences : list Time
}.

Definition hasWeekDay (weekday : WeekDay) : bool :=
  existsb (fun day => day =? weekday) (WeekDays ra).

(** [includeDate] after the [switch] on the pattern. *)
Definition patternIncludes (current : Time) : bool :=
  if String.eqb (Pattern ra) RecurrenceDaily then true
  else if String.eqb (Pattern ra) RecurrenceWeekly
  then hasWeekDay (Weekday current)
  else if String.eqb (Pattern ra) RecurrenceBiweekly
  then
    let weeksSinceStart := weeksOf (Sub current (StartDate ra)) in
    if Z.rem weeksSinceStart 2 =? 0 then hasWeekDay (Weekday current)
    else false
  else if String.eqb (Pattern ra) RecurrenceMonthly
  then
    match MonthDay ra with
    | Some d => Day current =? d
    | None => false
    end
  else false.

Definition sameCalendarDate (current exclusionDate : Time) : bool :=
  (Year current =? Year exclusionDate)
  && (Month current =? Month exclusionDate)
  && (Day current =? Day exclusionDate).

Definition excluded (current : Time) : bool :=
  existsb (sameCalendarDate current) (ExclusionDates ra).

Definition includeDate (current : Time) : bool :=
  if excluded current then false else patternIncludes current.

Definition loopCond (st : loopState) : bool :=
  Before (currentDate st) endDate && (occurrenceCount st <? maxOccurrences).

Definition loopBody (st : loopState) : loopState :=
  let st :=
    if includeDate (currentDate st)
    then mkLoopState (currentDate st) (occurrenceCount st + 1)
           (occurrences st ++ [currentDate st])
    else st in
  mkLoopState (AddDate (currentDate st) 0 0 1) (occurrenceCount st)
    (occurrences st).

(** The loop, run for at most [fuel] iterations: [None] when the
    condition still holds after them. *)
Fixpoint loop (fuel : nat) (st : loopState) : option (list Time) :=
  if loopCond st then
    match fuel with
    | O => None
    | S fuel => loop fuel (loopBody st)
    end
  else Some (occurrences st).

End Occurrences.

(** A number of iterations after which a day-by-day walk from [start] has
    passed [endDate]. *)
Definition iterationBound (start endDate : Time) : nat :=
  Z.to_nat ((instant endDate - instant start) / nsPerDay + 1).

(** [GenerateOccurrences]; [now] is the reading of [time.Now()]. *)
Definition GenerateOccurrences (weeksOf : Duration -> Z) (now : Time)
    (ra : RecurringAppointment) : option (list Time) :=
  let endDate :=
    match EndDate ra with
    | Some e => e
    | None => AddDate now 10 0 0
    end in
  let startMinutesFromMidnight := StartTimeMinutes ra in
  let startHour := Z.quot startMinutesFromMidnight 60 in
  let startMinute := Z.rem startMinutesFromMidnight 60 in
  let currentDate := StartDate ra in
  let currentDate :=
    Date (Year currentDate) (Month currentDate) (Day currentDate)
      startHour startMinute 0 0 (zone currentDate) in
  let maxOccurrences :=
    match MaxOccurrences ra with
    | Some m => m
    | None => 1000
    end in
  loop weeksOf ra endDate maxOccurrences
    (iterationBound currentDate endDate)
    (mkLoopState currentDate 0 []).

End recurring.

Import recurring.

(** ** Package [models]: suppliers and employees *)

Module accounts.

(** [Supplier] and [Employee]: rows of tables of their own.  Each has its
    own key ([ID] of its [BaseModel]) and, in [UserID], the key of the user
    it belongs to. *)
Record Supplier : Type := mkSupplier {
  SupplierRowID : Z;
  SupplierUserID : Z
}.

Record Employee : Type := mkEmployee {
  EmployeeRowID : Z;
  EmployeeUserID : Z
}.

(** The suppliers and employees tables. *)
Record Directory : Type := mkDirectory {
  suppliers : list Supplier;
  employees : list Employee
}.

End accounts.

Import accounts.

(** ** The specification's reference definitions *)

Module Spec.

(** The half-open overlap test of two intervals [[s1,e1)] and [[s2,e2)]. *)
Definition halfOpenOverlap (s1 e1 s2 e2 : Z) : bool :=
  (s1 <? e2) && (s2 <? e1).

(** The extra condition of a row of the permission matrix. *)
Inductive Ownership : Type :=
| NoCondition
| ActorIsSupplier
| ActorIsEmployee.

Record MatrixRow : Type := mkRow {
  rowFrom : AppointmentStatus;
  rowTo : AppointmentStatus;
  rowRole : string;
  rowCondition : Ownership
}.

(** The permission matrix for the non-admin roles, row by row. *)
Definition permissionMatrix : list MatrixRow :=
  [ mkRow StatusPending StatusConfirmed "employee" NoCondition;
    mkRow StatusPending StatusCancelled "supplier" ActorIsSupplier;
    mkRow StatusConfirmed StatusCompleted "employee" ActorIsEmployee;
    mkRow StatusConfirmed StatusCancelled "supplier" ActorIsSupplier;
    mkRow StatusConfirmed StatusRescheduled "supplier" ActorIsSupplier;
    mkRow StatusRescheduled StatusPending "supplier" ActorIsSupplier ].

(** The test the permission check makes where a row has a condition: the
    user's key against the key of the supplier, or of the employee, the
    appointment refers to. *)
Definition keyMatches (c : Ownership) (user : User) (a : Appointment)
  : Prop :=
  match c with
  | NoCondition => True
  | ActorIsSupplier => UserID user = SupplierID a
  | ActorIsEmployee => UserID user = EmployeeID a
  end.

(** The row passes the change of [a] to [newStatus] by [user] under the
    permission check's test. *)
Definition rowGrants (row : MatrixRow) (user : User) (a : Appointment)
    (newStatus : AppointmentStatus) : Prop :=
  Status a = rowFrom row /\ newStatus = rowTo row
  /\ Role user = rowRole row /\ keyMatches (rowCondition row) user a.

(** The actor is the appointment's supplier: the supplier the appointment
    refers to is a supplier row of the user. *)
Definition actorIsSupplier (dir : Directory) (user : User)
    (a : Appointment) : Prop :=
  exists s, In s (suppliers dir)
            /\ SupplierRowID s = SupplierID a
            /\ SupplierUserID s = UserID user.

(** The actor is the appointment's employee. *)
Definition actorIsEmployee (dir : Directory) (user : User)
    (a : Appointment) : Prop :=
  exists e, In e (employees dir)
            /\ EmployeeRowID e = EmployeeID a
            /\ EmployeeUserID e = UserID user.

(** The extra condition of a row, as the matrix words it. *)
Definition conditionHolds (dir : Directory) (c : Ownership) (user : User)
    (a : Appointment) : Prop :=
  match c with
  | NoCondition => True
  | ActorIsSupplier => actorIsSupplier dir user a
  | ActorIsEmployee => actorIsEmployee dir user a
  end.

(** The matrix allows the change of [a] to [newStatus] by [user]: the user
    is an admin, or a row covers the change and its condition holds. *)
Definition matrixAllows (dir : Directory) (user : User) (a : Appointment)
    (newStatus : AppointmentStatus) : Prop :=
  Role user = "admin"
  \/ exists row,
       In row permissionMatrix
       /\ Status a = rowFrom row /\ newStatus = rowTo row
       /\ Role user = rowRole row
       /\ conditionHolds dir (rowCondition row) user a.

(** The fields [Validate] asks for before it looks at the time range. *)
Definition requiredFields (a : Appointment) : Prop :=
  SupplierID a <> 0 /\ EmployeeID a <> 0 /\ OperationID a <> 0
  /\ ProductID a <> 0
  /\ instant (ScheduledStart a) <> 0 /\ instant (ScheduledEnd a) <> 0.

(** The time range the data model asks for: [start < end] and a duration
    of at least one hour. *)
Definition validRange (a : Appointment) : Prop :=
  instant (ScheduledStart a) < instant (ScheduledEnd a)
  /\ 3600000000000 <= instant (ScheduledEnd a) - instant (ScheduledStart a).

(** The cap on the number of occurrences: [MaxOccurrences], 1000 when it
    is not set. *)
Definition occurrenceCap (ra : RecurringAppointment) : Z :=
  match MaxOccurrences ra with
  | Some m => m
  | None => 1000
  end.

(** The start-datetime on 2025-06-[day] at the time of day given by the
    template's [StartTimeMinutes], in the location of its [StartDate]. *)
Definition juneDay (ra : RecurringAppointment) (day : Z) : Time :=
  Date 2025 6 day (Z.quot (StartTimeMinutes ra) 60)
    (Z.rem (StartTimeMinutes ra) 60) 0 0 (zone (StartDate ra)).

(** The store keeps the data model's invariant [start < end] on every
    row. *)
Definition validIntervals (db : DB) : Prop :=
  forall r, In r db ->
    instant (ScheduledStart r) < instant (ScheduledEnd r).

End Spec.

Import Spec.

(** ** Example data *)

Module Examples.

Definition exampleTime (h : Z) : Time := Date 2025 6 1 h 0 0 0 0.

(** A stored appointment: supplier 1, employee 2, on 2025-06-01 from 10:00
    to 11:00 UTC. *)
Definition exampleRow (id : Z) (status : AppointmentStatus) : Appointment :=
  mkAppointment id (exampleTime 8) (exampleTime 8) None 1 2 1 1
    (exampleTime 10) (exampleTime 11) status "" 5 None None None "".

Definition adminUser : User := mkUser 7 "admin@example.com" "admin" true.
Definition supplierUser : User := mkUser 1 "s@example.com" "supplier" true.

Definition exampleNow : Time := Date 2025 5 20 9 0 0 0 0.

(** The example appointment with start and end moved to the given hours. *)
Definition exampleSlot (id : Z) (fromHour toHour : Z) : Appointment :=
  mkAppointment id (exampleTime 8) (exampleTime 8) None 1 2 1 1
    (exampleTime fromHour) (exampleTime toHour) StatusPending "" 5
    None None None "".

(** Weeks in a duration, computed exactly; stands in for the [float64]
    computation where an example needs a concrete function. *)
Definition exactWeeks (d : Duration) : Z := Z.quot d (7 * 24 * Hour).

(** Weekly on Monday and Wednesday from Sunday 2025-06-01, at 10:30, at
    most four occurrences, no end date. *)
Definition weeklyTemplate : RecurringAppointment :=
  mkRecurringAppointment 1 1 2 1 1 5 "" RecurrenceWeekly
    (Date 2025 6 1 0 0 0 0 0) None (Some 4) 630 60 [Monday; Wednesday]
    "" None [] "".

(** Daily at 10:00 from 2035-05-28, at most thirty occurrences, no end
    date. *)
Definition horizonTemplate : RecurringAppointment :=
  mkRecurringAppointment 2 1 2 1 1 5 "" RecurrenceDaily
    (Date 2035 5 28 0 0 0 0 0) None (Some 30) 600 60 [] "" None [] "".

(** The weekly template with an end date. *)
Definition boundedTemplate : RecurringAppointment :=
  mkRecurringAppointment 3 1 2 1 1 5 "" RecurrenceWeekly
    (Date 2025 6 1 0 0 0 0 0) (Some (Date 2025 6 10 0 0 0 0 0)) None 630 60
    [Monday; Wednesday] "" None [] "".

Definition at1030 (day : Z) : Time := Date 2025 6 day 10 30 0 0 0.

End Examples.

Import Examples.

(** ** A checker for the month table *)

Module CalendarCheck.

(** [monthDay year yday] names day [yday] of [year]: month and day of the
    month are in range and lead back to [yday]. *)
Definition monthDayOK (year yday : Z) : bool :=
  let '(m, dd) := monthDay year yday in
  (1 <=? m) && (m <=? 12) && (1 <=? dd) && (dd <=? 31)
  && (daysBefore (m - 1) + (if isLeap year && (3 <=? m) then 1 else 0)
      + (dd - 1) =? yday).

Fixpoint monthDayOKFrom (year : Z) (n : nat) (yday : Z) : bool :=
  match n with
  | O => true
  | S k => monthDayOK year yday && monthDayOKFrom year k (yday + 1)
  end.

End CalendarCheck.

Import CalendarCheck.

(** ** Package [models]: generated appointments and availability slots *)

Module generated.

(** Conversion to [int64]: the low 64 bits. *)
Definition wrap64 (n : Z) : Z := (n + 2 ^ 63) mod 2 ^ 64 - 2 ^ 63.

(** The zero [time.Time]. *)
Definition zeroTime : Time := mkTime 0 0.

Definition setMaxOccurrences (ra : RecurringAppointment) (v : option Z) :=
  mkRecurringAppointment (RID ra) (RSupplierID ra) (REmployeeID ra)
    (ROperationID ra) (RProductID ra) (RQuantityToDeliver ra) (RNotes ra)
    (Pattern ra) (StartDate ra) (EndDate ra) v
    (StartTimeMinutes ra) (DurationMinutes ra) (WeekDays ra)
    (WeekDaysString ra) (MonthDay ra) (ExclusionDates ra) (ExclusionJSON ra).

Definition setPattern (ra : RecurringAppointment) (v : RecurrencePattern) :=
  mkRecurringAppointment (RID ra) (RSupplierID ra) (REmployeeID ra)
    (ROperationID ra) (RProductID ra) (RQuantityToDeliver ra) (RNotes ra)
    v (StartDate ra) (EndDate ra) (MaxOccurrences ra)
    (StartTimeMinutes ra) (DurationMinutes ra) (WeekDays ra)
    (WeekDaysString ra) (MonthDay ra) (ExclusionDates ra) (ExclusionJSON ra).

(** The first date the loop of [GenerateOccurrences] looks at: the day of
    [StartDate] at the time of day [StartTimeMinutes]. *)
Definition firstCandidate (ra : RecurringAppointment) : Time :=
  Date (Year (StartDate ra)) (Month (StartDate ra)) (Day (StartDate ra))
    (Z.quot (StartTimeMinutes ra) 60) (Z.rem (StartTimeMinutes ra) 60) 0 0
    (zone (StartDate ra)).

(** The end of the expansion: [EndDate], ten years after the call when it
    is not set. *)
Definition expansionEnd (now : Time) (ra : RecurringAppointment) : Time :=
  match EndDate ra with
  | Some e => e
  | None => AddDate now 10 0 0
  end.

(** The appointment [GenerateAppointments] builds for one occurrence,
    with the template id its [RecurringAppointmentID] points to. *)
Definition appointmentAt (ra : RecurringAppointment) (occurrence : Time)
  : Appointment * Z :=
  let startTime := occurrence in
  let endTime :=
    Add occurrence (wrap64 (wrap64 (DurationMinutes ra) * Minute)) in
  (mkAppointment 0 zeroTime zeroTime None (RSupplierID ra) (REmployeeID ra)
     (ROperationID ra) (RProductID ra) startTime endTime StatusPending
     (RNotes ra) (RQuantityToDeliver ra) None None None "",
   RID ra).

(** [GenerateAppointments]: one appointment per occurrence, in order. *)
Definition GenerateAppointments (weeksOf : Duration -> Z) (now : Time)
    (ra : RecurringAppointment) : option (list (Appointment * Z)) :=
  match GenerateOccurrences weeksOf now ra with
  | Some occurrences => Some (map (appointmentAt ra) occurrences)
  | None => None
  end.

End generated.

Import generated.

Module slots.

(** Go's [<=] and [>=] on strings: byte-wise lexicographic order. *)
Definition stringLe (s t : string) : bool :=
  match String.compare s t with
  | Gt => false
  | _ => true
  end.

Definition stringGe (s t : string) : bool :=
  match String.compare s t with
  | Lt => false
  | _ => true
  end.

(** [AvailabilitySlot], without the preloaded associations. *)
Record AvailabilitySlot : Type := mkAvailabilitySlot {
  SlotID : Z;
  SlotEmployeeID : Z;
  SlotOperationID : Z;
  DayOfWeek : Z;
  StartTime : string;
  EndTime : string;
  IsRecurring : bool;
  SpecificDate : option Time;
  SlotActive : bool
}.

(** [AvailabilitySlot.Validate]. *)
Definition Validate (a : AvailabilitySlot) : option error :=
  if SlotEmployeeID a =? 0 then Some "employee is required"
  else if SlotOperationID a =? 0 then Some "operation is required"
  else if (DayOfWeek a <? 0) || (6 <? DayOfWeek a)
  then Some "day of week must be between 0 and 6"
  else if String.eqb (StartTime a) EmptyString
  then Some "start time is required"
  else if String.eqb (EndTime a) EmptyString
  then Some "end time is required"
  else if negb (IsRecurring a)
          && match SpecificDate a with None => true | Some _ => false end
  then Some "specific date is required for non-recurring slots"
  else None.

(** [AvailabilitySlot.OverlapsWith]. *)
Definition OverlapsWith (a other : AvailabilitySlot) : bool :=
  if negb (DayOfWeek a =? DayOfWeek other) then false
  else
    let differentDates :=
      negb (IsRecurring a) && negb (IsRecurring other)
      && match SpecificDate a, SpecificDate other with
         | Some d, Some d' => negb (Equal d d')
         | _, _ => false
         end in
    if differentDates then false
    else negb (stringLe (EndTime a) (StartTime other)
               || stringGe (StartTime a) (EndTime other)).

(** A time of day written ["HH:MM"], zero-padded. *)
Definition digit (n : Z) : ascii := ascii_of_N (Z.to_N (48 + n)).

Definition clock (h m : Z) : string :=
  String (digit (h / 10)) (String (digit (h mod 10)) (String ":"
    (String (digit (m / 10)) (String (digit (m mod 10)) EmptyString)))).

End slots.

(** ** Package [repository]: soft deletion *)

Module deletion.

Definition setDeletedAt (a : Appointment) (v : option Time) : Appointment :=
  mkAppointment (ID a) (CreatedAt a) (UpdatedAt a) v (SupplierID a)
    (EmployeeID a) (OperationID a) (ProductID a) (ScheduledStart a)
    (ScheduledEnd a) (Status a) (Notes a) (QuantityToDeliver a)
    (ConfirmedAt a) (CancelledAt a) (CompletedAt a) (CancellationReason a).

(** [Delete]: [db.Delete(&models.Appointment{}, id)] on a model with a
    [DeletedAt] column sets that column on the live row with the key; it
    reports no error when there is none. *)
Definition Delete (now : Time) (id : Z) (db : DB) : option error * DB :=
  (None,
   map (fun r => if live r && (ID r =? id) then setDeletedAt r (Some now)
                 else r) db).

End deletion.

Import deletion.

(** ** Package [service]: creating an appointment *)

Module service.

(** [Operation], with the fields the service reads. *)
Record Operation : Type := mkOperation {
  OpID : Z;
  OpName : string;
  OpActive : bool;
  OpeningHour : Time;
  ClosingHour : Time
}.

(** [time.Date(2000, 1, 1, t.Hour(), t.Minute(), 0, 0, t.Location())];
    the offset of a fixed-offset location on that day is the time's own. *)
Definition timeOfDay (t : Time) : Time :=
  Date 2000 1 1 (HourOf t) (MinuteOf t) 0 0 (zone t).

Definition errOutsideHours : error :=
  "appointment must be within operation hours".

Definition setStatusIfEmpty (a : Appointment) : Appointment :=
  if String.eqb (Status a) EmptyString then setStatus a StatusPending else a.

(** The comparison of times of day against the operation's hours. *)
Definition outsideHours (operation : Operation) (appointment : Appointment)
  : bool :=
  let startTimeOfDay := timeOfDay (ScheduledStart appointment) in
  let endTimeOfDay := timeOfDay (ScheduledEnd appointment) in
  let operationOpen := timeOfDay (OpeningHour operation) in
  let operationClose := timeOfDay (ClosingHour operation) in
  Before startTimeOfDay operationOpen || After endTimeOfDay operationClose.

(** Seconds from midnight UTC of the wall-clock hour and minute of [t]. *)
Definition clockOffset (t : Time) : Z :=
  HourOf t * 3600 + MinuteOf t * 60 - zone t.

(** The wall-clock hour and minute of [t], in minutes from midnight. *)
Definition minuteOfDay (t : Time) : Z := HourOf t * 60 + MinuteOf t.

Section AppointmentService.

(** [FindByID] of the supplier, employee, operation and product
    repositories: the error each returns ([None] when the row exists), and
    the operation found. *)
Variable supplierFindByID : Z -> option error.
Variable employeeFindByID : Z -> option error.
Variable operationFindByID : Z -> error + Operation.
Variable productFindByID : Z -> option error.

(** [appointmentService.Create]. *)
Definition Create (now : Time) (appointment : Appointment) (db : DB)
  : option error * DB :=
  match supplierFindByID (SupplierID appointment) with
  | Some err => (Some (String.append "invalid supplier: " err), db)
  | None =>
  match employeeFindByID (EmployeeID appointment) with
  | Some err => (Some (String.append "invalid employee: " err), db)
  | None =>
  match operationFindByID (OperationID appointment) with
  | inl err => (Some (String.append "invalid operation: " err), db)
  | inr operation =>
  match productFindByID (ProductID appointment) with
  | Some err => (Some (String.append "invalid product: " err), db)
  | None =>
      if outsideHours operation appointment
      then (Some errOutsideHours, db)
      else repository.Create now (setStatusIfEmpty appointment) db
  end end end end.

End AppointmentService.

End service.

(** ** Invariants of the appointments table *)

Module Invariants.

(** A row that takes part in conflict detection. *)
Definition active (r : Appointment) : Prop :=
  DeletedAt r = None /\ Status r <> StatusCancelled.

Definition sameResource (r1 r2 : Appointment) : Prop :=
  EmployeeID r1 = EmployeeID r2 \/ SupplierID r1 = SupplierID r2.

Definition overlap (r1 r2 : Appointment) : Prop :=
  instant (ScheduledStart r1) < instant (ScheduledEnd r2)
  /\ instant (ScheduledStart r2) < instant (ScheduledEnd r1).

(** No two active appointments with different ids, of the same employee or
    of the same supplier, overlap. *)
Definition noDoubleBooking (db : DB) : Prop :=
  forall r1 r2, In r1 db -> In r2 db -> ID r1 <> ID r2 ->
    active r1 -> active r2 -> sameResource r1 r2 -> ~ overlap r1 r2.

(** The columns of a booking which an insert leaves as they are. *)
Definition sameBooking (a a' : Appointment) : Prop :=
  SupplierID a' = SupplierID a /\ EmployeeID a' = EmployeeID a
  /\ OperationID a' = OperationID a /\ ProductID a' = ProductID a
  /\ ScheduledStart a' = ScheduledStart a
  /\ ScheduledEnd a' = ScheduledEnd a
  /\ DeletedAt a' = DeletedAt a
  /\ QuantityToDeliver a' = QuantityToDeliver a /\ Notes a' = Notes a.

(** The status an insert stores: the column's default when the model
    comes with none. *)
Definition storedStatus (a : Appointment) : AppointmentStatus :=
  if String.eqb (Status a) EmptyString then StatusPending else Status a.

(** The columns a status change leaves as they are. *)
Definition sameSlot (a a' : Appointment) : Prop :=
  ID a' = ID a /\ CreatedAt a' = CreatedAt a /\ DeletedAt a' = DeletedAt a
  /\ SupplierID a' = SupplierID a /\ EmployeeID a' = EmployeeID a
  /\ OperationID a' = OperationID a /\ ProductID a' = ProductID a
  /\ ScheduledStart a' = ScheduledStart a
  /\ ScheduledEnd a' = ScheduledEnd a
  /\ QuantityToDeliver a' = QuantityToDeliver a /\ Notes a' = Notes a.

(** Keys are the non-zero values a sequence hands out. *)
Definition keyed (db : DB) : Prop := forall r, In r db -> ID r <> 0.

(** The table without the rows of key [id]. *)
Definition without (id : Z) (db : DB) : DB :=
  filter (fun r => negb (ID r =? id)) db.

End Invariants.

Import Invariants.

(** ** What the stored exclusion list holds *)

Module CodecSpec.

(** A string of ASCII bytes without a double quote. *)
Definition quoteFree (s : string) : Prop :=
  Forall (fun b => b < 128 /\ b <> 34) (bytesOf s).

(** What reading back the text written for one date gives: the date
    parsed, or nothing when the text does not parse. *)
Definition reparsed (format : Time -> string)
    (parse : string -> option Time) (d : Time) : list Time :=
  match parse (format d) with
  | Some date => [date]
  | None => []
  end.

End CodecSpec.

Import CodecSpec.

(** ** More example data *)

Module MoreExamples.

(** The weekly example with a pattern the code does not know. *)
Definition yearlyTemplate : RecurringAppointment :=
  setPattern weeklyTemplate "yearly".

(** The weekly example with a duration of thirty minutes. *)
Definition shortTemplate : RecurringAppointment :=
  mkRecurringAppointment 4 1 2 1 1 5 "" RecurrenceWeekly
    (Date 2025 6 1 0 0 0 0 0) None (Some 4) 630 30 [Monday; Wednesday]
    "" None [] "".

(** A table with one confirmed appointment, 10:00 to 11:00. *)
Definition bookedTable : DB := [exampleRow 1 StatusConfirmed].

(** A request for the same supplier and employee from 12:00 to 13:00. *)
Definition lunchSlot : Appointment := exampleSlot 0 12 13.

(** An operation open from 08:00 to 18:00 UTC. *)
Definition dayOperation : service.Operation :=
  service.mkOperation 1 "main" true (Date 2020 1 1 8 0 0 0 0)
    (Date 2020 1 1 18 0 0 0 0).

(** Lookups of a system in which every reference exists. *)
Definition found (_ : Z) : option error := None.
Definition foundOperation (_ : Z) : error + service.Operation :=
  inr dayOperation.

(** A request without a status. *)
Definition bareSlot : Appointment :=
  mkAppointment 0 (exampleTime 8) (exampleTime 8) None 1 2 1 1
    (exampleTime 12) (exampleTime 13) "" "" 5 None None None "".

Definition mondayMorning : slots.AvailabilitySlot :=
  slots.mkAvailabilitySlot 1 2 1 1 (slots.clock 8 0) (slots.clock 12 0)
    true None true.

Definition mondayNoon : slots.AvailabilitySlot :=
  slots.mkAvailabilitySlot 2 2 1 1 (slots.clock 11 30) (slots.clock 13 15)
    true None true.

(** A stand-in for the layout functions of package [time]: the time of
    day as text, read back on the example day. *)
Definition formatClock (t : Time) : string :=
  slots.clock (HourOf t) (MinuteOf t).
Definition parseClock (s : string) : option Time :=
  if String.eqb s (slots.clock 10 0) then Some (exampleTime 10)
  else if String.eqb s (slots.clock 11 0) then Some (exampleTime 11)
  else None.

(** The weekly template with two excluded dates. *)
Definition excludingTemplate : RecurringAppointment :=
  setExclusionDates weeklyTemplate [exampleTime 10; exampleTime 11].

(** A request from 17:00 on the example day to 09:00 two days later. *)
Definition multiDaySlot : Appointment :=
  mkAppointment 0 (exampleTime 8) (exampleTime 8) None 1 2 1 1
    (exampleTime 17) (exampleTime (48 + 9)) StatusPending "" 5
    None None None "".

(** A supplier's user, with keys as two tables of their own hand them
    out: user 12 is supplier 1, and user 1, [supplierUser], is supplier 5. *)
Definition ownerUser : User := mkUser 12 "owner@example.com" "supplier" true.

Definition exampleDirectory : Directory :=
  mkDirectory [mkSupplier 1 12; mkSupplier 5 1] [mkEmployee 2 3].

End MoreExamples.

Import MoreExamples.

(** * Properties *)

(** ** Calendar facts *)

(** Linear arithmetic with division and remainder by constants. *)
Ltac divlia := Z.div_mod_to_equations; lia.

Section CalendarFacts.

(** The year and the day of the year of day number [d]. *)
Lemma absDate_spec (d : Z) :
  daysSinceEpoch (fst (absDate d)) + snd (absDate d) = d
  /\ 0 <= snd (absDate d) < (if isLeap (fst (absDate d)) then 366 else 365).
Proof.
  unfold absDate, daysSinceEpoch, isLeap. cbn [fst snd].
  set (q := d / 146097).
  set (r := d - 146097 * q).
  assert (Hr : 0 <= r < 146097 /\ d = r + 146097 * q)
    by (unfold r, q; divlia).
  clearbody r q.
  set (n100 := r / 36524 - r / 36524 / 4).
  assert (Hn100 : 0 <= n100 <= 3 /\ 36524 * n100 <= r
                  /\ (n100 < 3 -> r < 36524 * (n100 + 1)))
    by (unfold n100; divlia).
  set (r1 := r - 36524 * n100).
  assert (Hr1 : 0 <= r1 < 36525 /\ (n100 < 3 -> r1 < 36524)
                /\ r = r1 + 36524 * n100) by (unfold r1; lia).
  clearbody r1 n100.
  set (n4 := r1 / 1461).
  set (r2 := r1 - 1461 * n4).
  assert (Hr2 : 0 <= r2 < 1461 /\ 0 <= n4 <= 24
                /\ (n4 = 24 -> n100 < 3 -> r2 < 1460)
                /\ r1 = r2 + 1461 * n4) by (unfold r2, n4; divlia).
  clearbody r2 n4.
  set (n := r2 / 365 - r2 / 365 / 4).
  assert (Hn : 0 <= n <= 3 /\ 365 * n <= r2
               /\ (n < 3 -> r2 < 365 * (n + 1))) by (unfold n; divlia).
  set (yd := r2 - 365 * n).
  assert (Hyd : 0 <= yd < 366 /\ (n < 3 -> yd < 365)
                /\ (n = 3 -> n4 = 24 -> n100 < 3 -> yd < 365))
    by (unfold yd; lia).
  assert (E : r2 = yd + 365 * n) by (unfold yd; lia).
  clearbody yd n. subst r2.
  split.
  - divlia.
  - destruct (Z.eqb_spec ((400 * q + 100 * n100 + 4 * n4 + n + 1) mod 4) 0);
    destruct (Z.eqb_spec ((400 * q + 100 * n100 + 4 * n4 + n + 1) mod 100) 0);
    destruct (Z.eqb_spec ((400 * q + 100 * n100 + 4 * n4 + n + 1) mod 400) 0);
    cbn [andb orb negb]; divlia.
Qed.

Lemma monthDayOKFrom_spec (year : Z) (n : nat) :
  forall d, monthDayOKFrom year n d = true ->
  forall i, d <= i < d + Z.of_nat n -> monthDayOK year i = true.
Proof.
  induction n as [|n IH]; intros d H i Hi.
  - lia.
  - cbn [monthDayOKFrom] in H. apply andb_true_iff in H as [H0 H1].
    destruct (Z.eq_dec i d) as [->|Hne]; [assumption|].
    apply (IH (d + 1) H1). lia.
Qed.

(** Only whether the year is a leap year matters to [monthDay]. *)
Lemma monthDayOK_leap (year yd : Z) :
  monthDayOK year yd = monthDayOK (if isLeap year then 4 else 1) yd.
Proof.
  unfold monthDayOK, monthDay.
  destruct (isLeap year); reflexivity.
Qed.

Lemma monthDay_spec (year yd : Z) :
  0 <= yd < (if isLeap year then 366 else 365) ->
  monthDayOK year yd = true.
Proof.
  intros H. rewrite monthDayOK_leap.
  destruct (isLeap year).
  - apply (monthDayOKFrom_spec 4 366 0); [vm_compute; reflexivity | lia].
  - apply (monthDayOKFrom_spec 1 365 0); [vm_compute; reflexivity | lia].
Qed.

(** Every day number is named by exactly the date [civil] computes. *)
Lemma civil_roundtrip (d : Z) :
  civilDays (fst (fst (civil d))) (snd (fst (civil d))) (snd (civil d)) = d
  /\ 1 <= snd (fst (civil d)) <= 12
  /\ 1 <= snd (civil d) <= 31.
Proof.
  destruct (absDate_spec d) as [Hy Hyd].
  pose proof (monthDay_spec _ _ Hyd) as Hm.
  unfold civil, monthDayOK in *.
  destruct (absDate d) as [y yd]. cbn [fst snd] in *.
  destruct (monthDay y yd) as [m dd]. cbn [fst snd].
  rewrite !andb_true_iff in Hm.
  destruct Hm as [[[[H1 H2] H3] H4] H5].
  apply Z.eqb_eq in H5. apply Z.leb_le in H1, H2, H3, H4.
  unfold civilDays. repeat split; try assumption. lia.
Qed.

(** [Date] on fields that need no carrying. *)
Lemma Date_unfold (y m d h mi sec ns loc : Z) :
  1 <= m <= 12 -> 0 <= ns < 1000000000 -> 0 <= sec < 60 -> 0 <= mi < 60 ->
  0 <= h < 24 ->
  Date y m d h mi sec ns loc
  = mkTime ((civilDays y m d * 86400 + h * 3600 + mi * 60 + sec - loc)
            * 1000000000 + ns) loc.
Proof.
  intros Hm Hns Hs Hmi Hh.
  unfold Date, norm.
  replace ((m - 1) / 12) with 0 by divlia.
  replace ((m - 1) mod 12 + 1) with m by divlia.
  replace (ns / 1000000000) with 0 by divlia.
  replace (ns mod 1000000000) with ns by divlia.
  rewrite !Z.add_0_r.
  replace (sec / 60) with 0 by divlia.
  replace (sec mod 60) with sec by divlia.
  rewrite !Z.add_0_r.
  replace (mi / 60) with 0 by divlia.
  replace (mi mod 60) with mi by divlia.
  rewrite !Z.add_0_r.
  replace (h / 24) with 0 by divlia.
  replace (h mod 24) with h by divlia.
  rewrite !Z.add_0_r.
  reflexivity.
Qed.

Lemma Before_lt (t u : Time) : Before t u = true <-> instant t < instant u.
Proof. unfold Before. apply Z.ltb_lt. Qed.

Lemma civilDays_add (y m d k : Z) :
  civilDays y m (d + k) = civilDays y m d + k.
Proof. unfold civilDays. lia. Qed.

Lemma clock_recompose (i z k : Z) :
  let ls := i / 1000000000 + z in
  let sod := ls mod 86400 in
  ((ls / 86400 + k) * 86400 + sod / 3600 * 3600 + (sod mod 3600) / 60 * 60
   + sod mod 60 - z) * 1000000000 + i mod 1000000000
  = i + k * 86400000000000.
Proof. cbv zeta. divlia. Qed.

(** Rebuilding a time from its own fields, [k] days on. *)
Lemma Date_fields (t : Time) (k : Z) :
  Date (Year t) (Month t) (Day t + k) (HourOf t) (MinuteOf t) (SecondOf t)
    (nsecOf t) (zone t)
  = mkTime (instant t + k * nsPerDay) (zone t).
Proof.
  destruct (civil_roundtrip (localDays t)) as (Hd & Hm & _).
  rewrite Date_unfold.
  - rewrite civilDays_add. unfold Year, Month, Day. rewrite Hd.
    f_equal. apply (clock_recompose (instant t) (zone t) k).
  - exact Hm.
  - unfold nsecOf. divlia.
  - unfold SecondOf. divlia.
  - unfold MinuteOf. divlia.
  - unfold HourOf, secondOfDay, secondsPerDay. divlia.
Qed.

Lemma AddDate_days (t : Time) (k : Z) :
  AddDate t 0 0 k = mkTime (instant t + k * nsPerDay) (zone t).
Proof.
  unfold AddDate. rewrite !Z.add_0_r. apply Date_fields.
Qed.

End CalendarFacts.

(** ** Conflict detection *)

Section ConflictFacts.

(** C2. For intervals [[s1,e1)] and [[s2,e2)] with [s1 < e1] and [s2 < e2],
    the three OR'd range conditions of [HasConflict]'s query hold exactly
    when the half-open overlap test [s1 < e2 /\ s2 < e1] does. *)
Theorem rangeConditions_halfOpen (s1 e1 s2 e2 : Z) :
  s1 < e1 -> s2 < e2 ->
  rangeConditions s1 e1 s2 e2 = halfOpenOverlap s1 e1 s2 e2.
Proof.
  intros H1 H2. unfold rangeConditions, halfOpenOverlap.
  rewrite !Z.gtb_ltb, !Z.geb_leb.
  destruct (Z.ltb_spec s2 e1), (Z.ltb_spec s1 e2), (Z.leb_spec s1 s2),
    (Z.leb_spec e2 e1); cbn; try reflexivity; lia.
Qed.

Lemma rangeConditions_halfOpen_witness :
  rangeConditions 0 10 5 15 = halfOpenOverlap 0 10 5 15.
Proof. apply rangeConditions_halfOpen; lia. Defined.

(** Only the stored interval has to be well formed for the two tests to
    agree. *)
Lemma rangeConditions_stored (s1 e1 s2 e2 : Z) :
  s2 < e2 ->
  (rangeConditions s1 e1 s2 e2 = true <-> s1 < e2 /\ s2 < e1).
Proof.
  intros H2. unfold rangeConditions.
  rewrite !Z.gtb_ltb, !Z.geb_leb, !orb_true_iff, !andb_true_iff,
    !Z.ltb_lt, !Z.leb_le.
  lia.
Qed.

Lemma count_positive {A : Type} (p : A -> bool) (l : list A) :
  (Z.of_nat (List.length (filter p l)) >? 0) = true
  <-> exists x, In x l /\ p x = true.
Proof.
  rewrite Z.gtb_ltb, Z.ltb_lt. split.
  - destruct (filter p l) as [|x t] eqn:E; cbn [List.length]; [lia|].
    intros _. exists x. apply filter_In. rewrite E. left. reflexivity.
  - intros (x & Hx & Hp).
    assert (Hin : In x (filter p l)) by (apply filter_In; auto).
    destruct (filter p l); [contradiction|]. cbn [List.length]. lia.
Qed.

Lemma live_iff (r : Appointment) : live r = true <-> DeletedAt r = None.
Proof. unfold live. destruct (DeletedAt r); split; congruence. Qed.

Lemma status_neq_iff (s t : string) : negb (String.eqb s t) = true <-> s <> t.
Proof.
  rewrite negb_true_iff. destruct (String.eqb_spec s t); split; congruence.
Qed.

Lemma id_neq_iff (x y : Z) : negb (x =? y) = true <-> x <> y.
Proof. rewrite negb_true_iff. apply Z.eqb_neq. Qed.

(** C1. [HasConflict] answers true exactly when some stored (not
    soft-deleted) appointment with another id, not cancelled, of the same
    employee or of the same supplier, overlaps the candidate under the
    half-open test; the stored rows satisfy the model's [start < end]. *)
Theorem HasConflict_iff (a : Appointment) (db : DB) :
  validIntervals db ->
  (HasConflict a db = true <->
   exists r,
     In r db /\ DeletedAt r = None
     /\ ID r <> ID a
     /\ Status r <> StatusCancelled
     /\ (EmployeeID r = EmployeeID a \/ SupplierID r = SupplierID a)
     /\ instant (ScheduledStart a) < instant (ScheduledEnd r)
     /\ instant (ScheduledStart r) < instant (ScheduledEnd a)).
Proof.
  intros Hvalid.
  assert (Hrow : forall (col : Appointment -> Z) r, In r db ->
    (live r && ((col r =? col a) && negb (ID r =? ID a))
     && negb (String.eqb (Status r) StatusCancelled)
     && overlapWhere a r = true
     <-> DeletedAt r = None /\ ID r <> ID a /\ Status r <> StatusCancelled
         /\ col r = col a
         /\ instant (ScheduledStart a) < instant (ScheduledEnd r)
         /\ instant (ScheduledStart r) < instant (ScheduledEnd a))).
  { intros col r Hin. unfold overlapWhere.
    rewrite !andb_true_iff, live_iff, status_neq_iff, id_neq_iff, Z.eqb_eq,
      (rangeConditions_stored _ _ _ _ (Hvalid r Hin)).
    tauto. }
  unfold HasConflict, employeeConflicts, supplierConflicts.
  split.
  - intros H.
    destruct (Z.of_nat (List.length (filter _ db)) >? 0) eqn:E.
    + apply count_positive in E as (r & Hin & Hp).
      apply (Hrow EmployeeID r Hin) in Hp. exists r. tauto.
    + apply count_positive in H as (r & Hin & Hp).
      apply (Hrow SupplierID r Hin) in Hp. exists r. tauto.
  - intros (r & Hin & Hd & Hid & Hst & [He|Hs] & Ho1 & Ho2).
    + assert (E : (Z.of_nat (List.length (filter (fun r0 =>
          live r0 && ((EmployeeID r0 =? EmployeeID a) && negb (ID r0 =? ID a))
          && negb (String.eqb (Status r0) StatusCancelled)
          && overlapWhere a r0) db)) >? 0) = true).
      { apply count_positive. exists r. split; [assumption|].
        apply (Hrow EmployeeID r Hin). tauto. }
      rewrite E. reflexivity.
    + destruct (Z.of_nat (List.length (filter _ db)) >? 0); [reflexivity|].
      apply count_positive. exists r. split; [assumption|].
      apply (Hrow SupplierID r Hin). tauto.
Qed.

End ConflictFacts.

(** ** Validation and the repository's writes *)

Section RepositoryFacts.

Lemma HasConflict_iff_witness :
  HasConflict (exampleRow 0 StatusPending) [exampleRow 1 StatusConfirmed]
  = true <->
  exists r,
    In r [exampleRow 1 StatusConfirmed] /\ DeletedAt r = None
    /\ ID r <> ID (exampleRow 0 StatusPending)
    /\ Status r <> StatusCancelled
    /\ (EmployeeID r = EmployeeID (exampleRow 0 StatusPending)
        \/ SupplierID r = SupplierID (exampleRow 0 StatusPending))
    /\ instant (ScheduledStart (exampleRow 0 StatusPending))
       < instant (ScheduledEnd r)
    /\ instant (ScheduledStart r)
       < instant (ScheduledEnd (exampleRow 0 StatusPending)).
Proof.
  apply HasConflict_iff.
  intros r [<-|[]]. vm_compute. reflexivity.
Defined.

(** Saturation does not matter when a difference is compared with an
    hour. *)
Lemma Sub_lt_Hour (t u : Time) :
  (Sub t u <? Hour) = (instant t - instant u <? 3600000000000).
Proof.
  unfold Sub.
  change minDuration with (-9223372036854775808).
  change maxDuration with 9223372036854775807.
  change Hour with 3600000000000.
  destruct (Z.ltb_spec (instant t - instant u) (-9223372036854775808));
    [|destruct (Z.ltb_spec 9223372036854775807 (instant t - instant u))];
    destruct (Z.ltb_spec (instant t - instant u) 3600000000000);
    try reflexivity;
    match goal with
    | |- (?a <? ?b) = true => apply Z.ltb_lt; lia
    | |- (?a <? ?b) = false => apply Z.ltb_ge; lia
    end.
Qed.

(** What [Validate] lets through. *)
Lemma Validate_None (a : Appointment) :
  models.Validate a = None ->
  SupplierID a <> 0 /\ EmployeeID a <> 0 /\ OperationID a <> 0
  /\ ProductID a <> 0
  /\ instant (ScheduledStart a) <> 0 /\ instant (ScheduledEnd a) <> 0
  /\ 0 < QuantityToDeliver a
  /\ instant (ScheduledStart a) < instant (ScheduledEnd a)
  /\ 3600000000000 <= instant (ScheduledEnd a) - instant (ScheduledStart a).
Proof.
  unfold models.Validate, IsZero, After. rewrite Sub_lt_Hour.
  repeat match goal with
         | |- context [if ?a =? ?b then _ else _] =>
             destruct (Z.eqb_spec a b); [discriminate|]
         | |- context [if ?a <? ?b then _ else _] =>
             destruct (Z.ltb_spec a b); [discriminate|]
         | |- context [if ?a <=? ?b then _ else _] =>
             destruct (Z.leb_spec a b); [discriminate|]
         end.
  intros _. lia.
Qed.

Lemma gormSave_rows (now : Time) (a : Appointment) (db : DB) :
  forall r, In r (snd (gormSave now a db)) ->
    In r db \/ r = setUpdatedAt a now.
Proof.
  intros r. unfold gormSave.
  destruct (existsb _ db); cbn [snd].
  - rewrite in_map_iff. intros (r0 & E & Hin).
    destruct (ID r0 =? ID (setUpdatedAt a now)); subst; auto.
  - rewrite in_app_iff. cbn. intuition auto.
Qed.

Lemma gormCreate_rows (now : Time) (a : Appointment) (db : DB) :
  forall r, In r (snd (gormCreate now a db)) ->
    In r db \/ (ScheduledStart r = ScheduledStart a
                /\ ScheduledEnd r = ScheduledEnd a).
Proof.
  intros r. unfold gormCreate.
  destruct (existsb _ db); cbn [snd]; [auto|].
  rewrite in_app_iff. cbn. intros [H|[<-|[]]]; [auto|]. right.
  destruct (ID a =? 0);
    repeat match goal with
           | |- context [if ?c then _ else _] => destruct c
           end; split; reflexivity.
Qed.

Lemma FindByID_In (id : Z) (db : DB) (r : Appointment) :
  FindByID id db = inr r -> In r db /\ DeletedAt r = None /\ ID r = id.
Proof.
  unfold FindByID.
  destruct (find _ db) as [r0|] eqn:E; [|discriminate].
  intros [= <-]. apply find_some in E as [Hin Hp].
  apply andb_true_iff in Hp as [Hl Hid].
  apply live_iff in Hl. apply Z.eqb_eq in Hid. auto.
Qed.

(** Every write of the repository keeps [start < end] on all rows. *)
Lemma Create_validIntervals (now : Time) (a : Appointment) (db : DB) :
  validIntervals db -> validIntervals (snd (Create now a db)).
Proof.
  intros Hv. unfold Create.
  destruct (models.Validate a) eqn:V; [exact Hv|].
  destruct (HasConflict a db); [exact Hv|].
  intros r Hr. apply gormCreate_rows in Hr as [Hr|[-> ->]]; [auto|].
  apply Validate_None in V. tauto.
Qed.

Lemma Update_validIntervals (now : Time) (a : Appointment) (db : DB) :
  validIntervals db -> validIntervals (snd (Update now a db)).
Proof.
  intros Hv. unfold Update.
  destruct (models.Validate a) eqn:V; [exact Hv|].
  apply Validate_None in V.
  assert (Hs : validIntervals (snd (gormSave now a db))).
  { intros r Hr. apply gormSave_rows in Hr as [Hr| ->]; [auto|].
    cbn. tauto. }
  destruct (FindByID (ID a) db); [exact Hv|].
  destruct (_ || _); [|exact Hs].
  destruct (HasConflict a db); [exact Hv|exact Hs].
Qed.

Lemma UpdateStatus_validIntervals (now : Time) (id : Z)
    (status : AppointmentStatus) (reason : string) (db : DB) :
  validIntervals db ->
  validIntervals (snd (repository.UpdateStatus now id status reason db)).
Proof.
  intros Hv. unfold repository.UpdateStatus.
  destruct (FindByID id db) as [e|a] eqn:F; [exact Hv|].
  apply FindByID_In in F as (Hin & _).
  intros r Hr. apply gormSave_rows in Hr as [Hr| ->]; [auto|].
  specialize (Hv a Hin).
  destruct (String.eqb status StatusConfirmed); [exact Hv|].
  destruct (String.eqb status StatusCancelled); [exact Hv|].
  destruct (String.eqb status StatusCompleted); exact Hv.
Qed.

End RepositoryFacts.

(** ** Status transitions *)

Section StatusFacts.

Ltac tryRow n :=
  right; exists (nth n permissionMatrix (mkRow "" "" "" NoCondition));
  split; [cbn; tauto | repeat split; cbn; solve [auto]].

(** The permission check grants a status change exactly when the user is
    an admin or the change is covered by a row of the permission matrix
    (role, current status, new status), with the check's own test, the
    user's key against the appointment's supplier or employee key, for the
    row's condition; every other combination is refused. *)
Theorem hasStatusChangePermission_matrix (user : User) (a : Appointment)
    (newStatus : AppointmentStatus) :
  hasStatusChangePermission user a newStatus = true <->
  Role user = "admin"
  \/ exists row, In row permissionMatrix /\ rowGrants row user a newStatus.
Proof.
  split.
  - destruct user as [uid em role act].
    destruct a as
      [id ca ua da sid eid oid pid st en status notes q c1 c2 c3 cr].
    unfold hasStatusChangePermission, rowGrants, keyMatches.
    cbn [Role Status UserID SupplierID EmployeeID].
    intros H.
    repeat match type of H with
           | context [String.eqb ?x ?y] =>
               destruct (String.eqb_spec x y); try subst; cbn in H
           end;
      try discriminate; try (left; reflexivity);
      try apply Z.eqb_eq in H;
      first [tryRow 0%nat | tryRow 1%nat | tryRow 2%nat | tryRow 3%nat
            | tryRow 4%nat | tryRow 5%nat].
  - intros [Hadmin | (row & Hin & Hs & Hn & Hr & Ho)];
      unfold hasStatusChangePermission.
    + rewrite Hadmin. reflexivity.
    + cbn in Hin.
      repeat (destruct Hin as [<-|Hin]; [| ]); try contradiction;
        cbn in Hs, Hn, Hr, Ho; rewrite Hs, Hn, Hr; cbn;
        first [reflexivity | apply Z.eqb_eq; assumption].
Qed.

(** C3. The check's test is not the condition of the matrix.  A pending
    appointment refers to supplier 1, the supplier row of user 12: the
    matrix allows that user, as the appointment's supplier, to cancel it,
    and the check refuses; user 1, of the same role, is the user of
    supplier 5 and not the appointment's supplier: the matrix does not
    allow the change, and the check grants it. *)
Theorem hasStatusChangePermission_ownership :
  matrixAllows exampleDirectory ownerUser (exampleRow 1 StatusPending)
    StatusCancelled
  /\ hasStatusChangePermission ownerUser (exampleRow 1 StatusPending)
       StatusCancelled = false
  /\ ~ matrixAllows exampleDirectory supplierUser
        (exampleRow 1 StatusPending) StatusCancelled
  /\ hasStatusChangePermission supplierUser (exampleRow 1 StatusPending)
       StatusCancelled = true.
Proof.
  split; [|split; [reflexivity|split; [|reflexivity]]].
  - right. exists (mkRow StatusPending StatusCancelled "supplier"
                     ActorIsSupplier).
    split; [cbn; tauto|]. repeat split.
    exists (mkSupplier 1 12). cbn. tauto.
  - intros [Hadmin | (row & Hin & Hs & Hn & Hr & Ho)]; [discriminate|].
    cbn in Hin.
    repeat (destruct Hin as [<-|Hin]; [try discriminate|]);
      [|contradiction].
    destruct Ho as (s & Hin & Hid & Hu). cbn in Hin.
    destruct Hin as [<-|[<-|[]]]; discriminate.
Qed.





Lemma find_replaced (id : Z) (a' : Appointment) (db : DB) :
  live a' = true -> ID a' = id ->
  (exists r, In r db /\ ID r = id) ->
  find (fun r => live r && (ID r =? id))
    (map (fun r => if ID r =? id then a' else r) db) = Some a'.
Proof.
  intros Hl Hid.
  induction db as [|r db IH]; intros (r0 & Hin & Hr0); [contradiction|].
  cbn [map find].
  destruct (Z.eqb_spec (ID r) id) as [E|E].
  - rewrite Hl, Hid, Z.eqb_refl. reflexivity.
  - apply Z.eqb_neq in E. rewrite E, andb_false_r. apply IH.
    destruct Hin as [->|Hin]; [apply Z.eqb_neq in E; contradiction|].
    exists r0. auto.
Qed.

(** C5, as the code has it. After a successful [UpdateStatus] the
    appointment carries the new status; a change to confirmed, cancelled or
    completed stamps [ConfirmedAt], [CancelledAt] or [CompletedAt] with the
    current time; a change to cancelled stores the reason it was given,
    empty or not. *)
Theorem UpdateStatus_stamps (now : Time) (id : Z)
    (status : AppointmentStatus) (reason : string) (db db' : DB) :
  repository.UpdateStatus now id status reason db = (None, db') ->
  exists a',
    FindByID id db' = inr a' /\ Status a' = status
    /\ (status = StatusConfirmed -> ConfirmedAt a' = Some now)
    /\ (status = StatusCancelled ->
        CancelledAt a' = Some now /\ CancellationReason a' = reason)
    /\ (status = StatusCompleted -> CompletedAt a' = Some now).
Proof.
  unfold repository.UpdateStatus.
  destruct (FindByID id db) as [e|a] eqn:F; [discriminate|].
  apply FindByID_In in F as (Hin & Hdel & Hid).
  set (a1 := if String.eqb status StatusConfirmed then _ else _).
  assert (H1 : ID a1 = id /\ DeletedAt a1 = None /\ Status a1 = status).
  { unfold a1. destruct (String.eqb status StatusConfirmed);
      [|destruct (String.eqb status StatusCancelled);
        [|destruct (String.eqb status StatusCompleted)]]; cbn; auto. }
  destruct H1 as (Hid1 & Hdel1 & Hst1).
  unfold gormSave. cbv zeta.
  change (ID (setUpdatedAt a1 now)) with (ID a1). rewrite Hid1.
  assert (Hex : existsb (fun r => ID r =? id) db = true).
  { apply existsb_exists. exists a. split; [assumption|].
    rewrite Hid. apply Z.eqb_refl. }
  rewrite Hex. intros [= <-].
  exists (setUpdatedAt a1 now). split.
  { unfold FindByID.
    rewrite (find_replaced id (setUpdatedAt a1 now) db); [reflexivity| | |].
    - unfold live. cbn. rewrite Hdel1. reflexivity.
    - cbn. exact Hid1.
    - exists a. auto. }
  cbn [setUpdatedAt Status ConfirmedAt CancelledAt CompletedAt
       CancellationReason].
  split; [exact Hst1|].
  unfold a1.
  split; [intros ->; reflexivity|].
  split; [intros ->; split; reflexivity | intros ->; reflexivity].
Qed.

Lemma UpdateStatus_stamps_witness :
  exists a',
    FindByID 1 [setUpdatedAt
                  (setConfirmedAt (exampleRow 1 StatusConfirmed)
                     (Some exampleNow)) exampleNow] = inr a'
    /\ Status a' = StatusConfirmed
    /\ (StatusConfirmed = StatusConfirmed -> ConfirmedAt a' = Some exampleNow)
    /\ (StatusConfirmed = StatusCancelled ->
        CancelledAt a' = Some exampleNow /\ CancellationReason a' = "")
    /\ (StatusConfirmed = StatusCompleted -> CompletedAt a' = Some exampleNow).
Proof.
  apply (UpdateStatus_stamps exampleNow 1 StatusConfirmed ""
           [exampleRow 1 StatusPending]).
  reflexivity.
Defined.

(** The claim C5 fails: a change to cancelled with an empty reason
    succeeds, and the empty reason is what is stored. *)
Lemma UpdateStatus_reason_counterexample :
  repository.UpdateStatus exampleNow 1 StatusCancelled ""
    [exampleRow 1 StatusPending]
  = (None,
     [setUpdatedAt
        (setCancelledAt (exampleRow 1 StatusCancelled) (Some exampleNow))
        exampleNow])
  /\ CancellationReason
       (setUpdatedAt
          (setCancelledAt (exampleRow 1 StatusCancelled) (Some exampleNow))
          exampleNow) = "".
Proof. split; reflexivity. Qed.

End StatusFacts.

(** ** Time-range validation in [Create] and [Update] *)

Section ValidationFacts.

Lemma Create_invalid (now : Time) (a : Appointment) (db : DB) (e : error) :
  models.Validate a = Some e -> Create now a db = (Some e, db).
Proof. intros H. unfold Create. rewrite H. reflexivity. Qed.

Lemma Update_invalid (now : Time) (a : Appointment) (db : DB) (e : error) :
  models.Validate a = Some e -> Update now a db = (Some e, db).
Proof. intros H. unfold Update. rewrite H. reflexivity. Qed.

Lemma Validate_range (a : Appointment) :
  requiredFields a ->
  instant (ScheduledEnd a) < instant (ScheduledStart a) ->
  models.Validate a = Some errInvalidRange.
Proof.
  intros (H1 & H2 & H3 & H4 & H5 & H6) H.
  unfold models.Validate, IsZero, After.
  apply Z.eqb_neq in H1, H2, H3, H4, H5, H6. apply Z.ltb_lt in H.
  rewrite H1, H2, H3, H4, H5, H6, H. reflexivity.
Qed.

Lemma Validate_duration (a : Appointment) :
  requiredFields a -> 0 < QuantityToDeliver a ->
  instant (ScheduledStart a) <= instant (ScheduledEnd a) ->
  instant (ScheduledEnd a) - instant (ScheduledStart a) < 3600000000000 ->
  models.Validate a = Some errInvalidDuration.
Proof.
  intros (H1 & H2 & H3 & H4 & H5 & H6) Hq Hle Hd.
  unfold models.Validate, IsZero, After. rewrite Sub_lt_Hour.
  apply Z.eqb_neq in H1, H2, H3, H4, H5, H6.
  apply Z.ltb_ge in Hle. apply Z.ltb_lt in Hd. apply Z.leb_gt in Hq.
  rewrite H1, H2, H3, H4, H5, H6, Hle, Hq, Hd. reflexivity.
Qed.

(** C6, as the code has it. [Create] and [Update] fail, and leave the
    table as it was, unless [start < end] and [end - start] is at least an
    hour.  When the required fields are present, [start > end] fails with
    the invalid-range error; [start <= end] with less than an hour between
    them (and a positive quantity) fails with the invalid-duration error. *)
Theorem Create_Update_time_range (now : Time) (a : Appointment) (db : DB) :
  (~ validRange a ->
   exists e, Create now a db = (Some e, db) /\ Update now a db = (Some e, db))
  /\ (requiredFields a ->
      instant (ScheduledEnd a) < instant (ScheduledStart a) ->
      Create now a db = (Some errInvalidRange, db)
      /\ Update now a db = (Some errInvalidRange, db))
  /\ (requiredFields a -> 0 < QuantityToDeliver a ->
      instant (ScheduledStart a) <= instant (ScheduledEnd a) ->
      instant (ScheduledEnd a) - instant (ScheduledStart a) < 3600000000000 ->
      Create now a db = (Some errInvalidDuration, db)
      /\ Update now a db = (Some errInvalidDuration, db)).
Proof.
  split; [|split].
  - intros Hbad. destruct (models.Validate a) as [e|] eqn:V.
    + exists e. split; [apply Create_invalid | apply Update_invalid];
        assumption.
    + exfalso. apply Hbad. apply Validate_None in V. unfold validRange.
      tauto.
  - intros Hreq H. pose proof (Validate_range a Hreq H) as V.
    split; [apply Create_invalid | apply Update_invalid]; assumption.
  - intros Hreq Hq Hle Hd. pose proof (Validate_duration a Hreq Hq Hle Hd) as V.
    split; [apply Create_invalid | apply Update_invalid]; assumption.
Qed.

Lemma Create_Update_time_range_witness :
  (exists e,
      Create exampleNow (exampleSlot 0 11 10) [] = (Some e, [])
      /\ Update exampleNow (exampleSlot 0 11 10) [] = (Some e, []))
  /\ (Create exampleNow (exampleSlot 0 11 10) [] = (Some errInvalidRange, [])
      /\ Update exampleNow (exampleSlot 0 11 10) []
         = (Some errInvalidRange, []))
  /\ (Create exampleNow (exampleSlot 0 10 10) []
      = (Some errInvalidDuration, [])
      /\ Update exampleNow (exampleSlot 0 10 10) []
         = (Some errInvalidDuration, [])).
Proof.
  split; [|split].
  - apply (Create_Update_time_range exampleNow (exampleSlot 0 11 10) []).
    unfold validRange. vm_compute. intros [H _]. discriminate H.
  - apply (Create_Update_time_range exampleNow (exampleSlot 0 11 10) []).
    + unfold requiredFields. vm_compute. repeat split; discriminate.
    + vm_compute. reflexivity.
  - apply (Create_Update_time_range exampleNow (exampleSlot 0 10 10) []).
    + unfold requiredFields. vm_compute. repeat split; discriminate.
    + vm_compute. reflexivity.
    + vm_compute. discriminate.
    + vm_compute. reflexivity.
Defined.

(** The claim C6 fails where it names the error for [start >= end]: with
    [start = end] the operations fail with the invalid-duration error. *)
Lemma Create_equal_times_counterexample :
  instant (ScheduledStart (exampleSlot 0 10 10))
    >= instant (ScheduledEnd (exampleSlot 0 10 10))
  /\ Create exampleNow (exampleSlot 0 10 10) []
     = (Some errInvalidDuration, [])
  /\ Update exampleNow (exampleSlot 0 10 10) []
     = (Some errInvalidDuration, [])
  /\ errInvalidDuration <> errInvalidRange.
Proof.
  split; [vm_compute; discriminate|].
  split; [reflexivity|]. split; [reflexivity|]. discriminate.
Qed.

End ValidationFacts.

(** ** Recurrence expansion *)

Section LoopFacts.

Variable weeksOf : Duration -> Z.

(** Each iteration moves [currentDate] on by exactly one day. *)
Lemma loopBody_currentDate (ra : RecurringAppointment) (st : loopState) :
  currentDate (loopBody weeksOf ra st)
  = mkTime (instant (currentDate st) + nsPerDay) (zone (currentDate st)).
Proof.
  unfold loopBody.
  destruct (includeDate weeksOf ra (currentDate st));
    cbn [currentDate]; rewrite AddDate_days; f_equal; lia.
Qed.

Lemma nsPerDay_pos : 0 < nsPerDay.
Proof. reflexivity. Qed.

(** The loop ends by its own condition once the fuel covers the days up
    to [endDate]. *)
Lemma loop_total (ra : RecurringAppointment) (endDate : Time)
    (maxOccurrences : Z) (fuel : nat) :
  forall st,
    instant endDate - instant (currentDate st) < Z.of_nat fuel * nsPerDay ->
    exists l, loop weeksOf ra endDate maxOccurrences fuel st = Some l.
Proof.
  pose proof nsPerDay_pos as Hpos.
  induction fuel as [|fuel IH]; intros st H; cbn [loop];
    destruct (loopCond endDate maxOccurrences st) eqn:C; eauto.
  - unfold loopCond, Before in C. apply andb_true_iff in C as [C _].
    apply Z.ltb_lt in C. lia.
  - apply IH. rewrite loopBody_currentDate. cbn [instant]. lia.
Qed.

Lemma iterationBound_enough (start endDate : Time) :
  instant endDate - instant start
  < Z.of_nat (iterationBound start endDate) * nsPerDay.
Proof.
  unfold iterationBound.
  change nsPerDay with 86400000000000.
  set (d := instant endDate - instant start).
  set (q := d / 86400000000000 + 1).
  assert (E : Z.of_nat (Z.to_nat q) = Z.max 0 q) by lia.
  rewrite E. unfold q. divlia.
Qed.

(** [GenerateOccurrences] always returns: the iteration bound it is run
    with is never exhausted. *)
Theorem GenerateOccurrences_total (now : Time) (ra : RecurringAppointment) :
  exists l, GenerateOccurrences weeksOf now ra = Some l.
Proof.
  unfold GenerateOccurrences. apply loop_total. cbn [currentDate].
  apply iterationBound_enough.
Qed.

(** Occurrences found before the loop is entered stay in front. *)
Lemma loop_acc (ra : RecurringAppointment) (endDate : Time)
    (maxOccurrences : Z) (fuel : nat) :
  forall cur count acc occ,
    loop weeksOf ra endDate maxOccurrences fuel
      (mkLoopState cur count (acc ++ occ))
    = option_map (app acc)
        (loop weeksOf ra endDate maxOccurrences fuel
           (mkLoopState cur count occ)).
Proof.
  induction fuel as [|fuel IH]; intros cur count acc occ; cbn [loop];
    unfold loopCond; cbn [currentDate occurrenceCount occurrences];
    destruct (Before cur endDate && (count <? maxOccurrences));
    try reflexivity.
  unfold loopBody. cbn [currentDate occurrenceCount occurrences].
  destruct (includeDate weeksOf ra cur);
    cbn [currentDate occurrenceCount occurrences].
  - rewrite <- app_assoc. apply IH.
  - apply IH.
Qed.

(** One iteration, for a state whose list is empty. *)
Lemma loop_step (ra : RecurringAppointment) (endDate : Time)
    (maxOccurrences : Z) (fuel : nat) (cur : Time) (count : Z) :
  Before cur endDate && (count <? maxOccurrences) = true ->
  loop weeksOf ra endDate maxOccurrences (S fuel) (mkLoopState cur count [])
  = if includeDate weeksOf ra cur
    then option_map (cons cur)
           (loop weeksOf ra endDate maxOccurrences fuel
              (mkLoopState (AddDate cur 0 0 1) (count + 1) []))
    else loop weeksOf ra endDate maxOccurrences fuel
           (mkLoopState (AddDate cur 0 0 1) count []).
Proof.
  intros C. cbn [loop]. unfold loopCond at 1.
  cbn [currentDate occurrenceCount]. rewrite C.
  unfold loopBody. cbn [currentDate occurrenceCount occurrences].
  destruct (includeDate weeksOf ra cur);
    cbn [currentDate occurrenceCount occurrences]; [|reflexivity].
  apply (loop_acc ra endDate maxOccurrences fuel _ _ [cur] []).
Qed.

Lemma loop_stop (ra : RecurringAppointment) (endDate : Time)
    (maxOccurrences : Z) (fuel : nat) (st : loopState) :
  loopCond endDate maxOccurrences st = false ->
  loop weeksOf ra endDate maxOccurrences fuel st = Some (occurrences st).
Proof. intros C. destruct fuel; cbn [loop]; rewrite C; reflexivity. Qed.

(** Two templates whose inclusion tests differ by a filter [keep]: as long
    as the run of the first stays below the cap, the run of the second
    yields the kept occurrences of the first. *)
Lemma loop_filter (ra ra' : RecurringAppointment) (keep : Time -> bool)
    (endDate : Time) (maxOccurrences : Z) :
  (forall cur, includeDate weeksOf ra' cur
               = includeDate weeksOf ra cur && keep cur) ->
  forall fuel cur count count' l,
    loop weeksOf ra endDate maxOccurrences fuel (mkLoopState cur count [])
    = Some l ->
    count + Z.of_nat (List.length l) < maxOccurrences ->
    count' <= count ->
    loop weeksOf ra' endDate maxOccurrences fuel (mkLoopState cur count' [])
    = Some (filter keep l).
Proof.
  intros Hinc.
  induction fuel as [|fuel IH]; intros cur count count' l Hrun Hcap Hle.
  - cbn [loop] in *. unfold loopCond in *.
    cbn [currentDate occurrenceCount occurrences] in *.
    destruct (Before cur endDate); cbn [andb] in *.
    + destruct (Z.ltb_spec count maxOccurrences); [discriminate|].
      injection Hrun as <-. cbn [List.length] in Hcap. lia.
    + injection Hrun as <-. reflexivity.
  - destruct (Before cur endDate && (count <? maxOccurrences)) eqn:C.
    + assert (C' : Before cur endDate && (count' <? maxOccurrences) = true).
      { apply andb_true_iff in C as [C1 C2]. rewrite C1. cbn [andb].
        apply Z.ltb_lt in C2. apply Z.ltb_lt. lia. }
      rewrite (loop_step ra _ _ _ _ _ C) in Hrun.
      rewrite (loop_step ra' _ _ _ _ _ C'), Hinc.
      destruct (includeDate weeksOf ra cur); cbn [andb].
      * destruct (loop weeksOf ra endDate maxOccurrences fuel _)
          as [l1|] eqn:E; [|discriminate].
        cbn [option_map] in Hrun. injection Hrun as <-.
        cbn [List.length] in Hcap. cbn [filter].
        destruct (keep cur).
        -- rewrite (IH _ _ (count' + 1) _ E); [reflexivity|lia|lia].
        -- apply (IH _ _ count' _ E); lia.
      * apply (IH _ _ count' _ Hrun); lia.
    + rewrite loop_stop in Hrun by exact C. injection Hrun as <-.
      cbn [occurrences filter].
      apply andb_false_iff in C.
      destruct C as [C|C].
      * apply loop_stop. unfold loopCond. cbn [currentDate]. rewrite C.
        reflexivity.
      * apply Z.ltb_ge in C. cbn [List.length] in Hcap. lia.
Qed.

End LoopFacts.

Section ExclusionFacts.

Variable weeksOf : Duration -> Z.

Lemma existsb_added {A : Type} (f : A -> bool) (x : A) (l l' : list A) :
  (forall d, In d l' <-> d = x \/ In d l) ->
  existsb f l' = f x || existsb f l.
Proof.
  intros H. apply eq_iff_eq_true.
  rewrite orb_true_iff, !existsb_exists. split.
  - intros (d & Hin & Hf). apply H in Hin as [->|Hin]; eauto.
  - intros [Hf|(d & Hin & Hf)].
    + exists x. split; [apply H; auto | assumption].
    + exists d. split; [apply H; auto | assumption].
Qed.

Lemma includeDate_added (ra : RecurringAppointment) (x : Time)
    (E' : list Time) :
  (forall d, In d E' <-> d = x \/ In d (ExclusionDates ra)) ->
  forall cur,
    includeDate weeksOf (setExclusionDates ra E') cur
    = includeDate weeksOf ra cur && negb (sameCalendarDate cur x).
Proof.
  intros H cur. unfold includeDate, excluded.
  cbn [ExclusionDates setExclusionDates].
  rewrite (existsb_added _ x _ _ H).
  change (patternIncludes weeksOf (setExclusionDates ra E') cur)
    with (patternIncludes weeksOf ra cur).
  destruct (sameCalendarDate cur x), (existsb _ (ExclusionDates ra)),
    (patternIncludes weeksOf ra cur); reflexivity.
Qed.

Lemma filter_single (keep : Time -> bool) (l1 l2 : list Time) (o : Time) :
  keep o = false ->
  (forall t, In t (l1 ++ l2) -> keep t = true) ->
  filter keep (l1 ++ o :: l2) = l1 ++ l2.
Proof.
  intros Ho Hall. rewrite filter_app. cbn [filter]. rewrite Ho.
  rewrite <- filter_app. apply forallb_filter_id.
  apply forallb_forall. exact Hall.
Qed.

(** C8, as the code has it. When the sequence generated without the
    exclusion stays below the cap on occurrences, adding an exclusion date
    that falls on the calendar date of exactly one of its occurrences
    yields, at the same clock reading, the same sequence without that
    occurrence: nothing else is added, removed or changed. *)
Theorem exclusion_removes_occurrence (now : Time)
    (ra : RecurringAppointment) (x : Time) (E' : list Time)
    (l1 l2 : list Time) (o : Time) :
  (forall d, In d E' <-> d = x \/ In d (ExclusionDates ra)) ->
  GenerateOccurrences weeksOf now ra = Some (l1 ++ o :: l2) ->
  sameCalendarDate o x = true ->
  (forall t, In t (l1 ++ l2) -> sameCalendarDate t x = false) ->
  Z.of_nat (List.length (l1 ++ o :: l2)) < occurrenceCap ra ->
  GenerateOccurrences weeksOf now (setExclusionDates ra E')
  = Some (l1 ++ l2).
Proof.
  intros HE Hrun Ho Hothers Hcap.
  unfold GenerateOccurrences in *.
  cbn [EndDate StartTimeMinutes StartDate MaxOccurrences setExclusionDates].
  rewrite <- (filter_single (fun t => negb (sameCalendarDate t x)) l1 l2 o).
  - eapply loop_filter.
    + apply includeDate_added. exact HE.
    + exact Hrun.
    + unfold occurrenceCap in Hcap. lia.
    + lia.
  - rewrite Ho. reflexivity.
  - intros t Ht. rewrite (Hothers t Ht). reflexivity.
Qed.

(** C9, as the code has it. For a template with an end date the sequence
    does not depend on when [GenerateOccurrences] is called: any two calls
    return the same sequence. *)
Theorem GenerateOccurrences_clock_independent (ra : RecurringAppointment)
    (e : Time) (now1 now2 : Time) :
  EndDate ra = Some e ->
  exists l,
    GenerateOccurrences weeksOf now1 ra = Some l
    /\ GenerateOccurrences weeksOf now2 ra = Some l.
Proof.
  intros He.
  destruct (GenerateOccurrences_total weeksOf now1 ra) as [l Hl].
  exists l. split; [exact Hl|].
  rewrite <- Hl. unfold GenerateOccurrences. rewrite He. reflexivity.
Qed.

End ExclusionFacts.

Section RecurrenceExamples.

Lemma weeklyTemplate_occurrences :
  GenerateOccurrences exactWeeks exampleNow weeklyTemplate
  = Some [at1030 2; at1030 4; at1030 9; at1030 11].
Proof. vm_compute. reflexivity. Qed.

Lemma exclusion_removes_occurrence_witness :
  GenerateOccurrences exactWeeks exampleNow
    (setExclusionDates boundedTemplate [Date 2025 6 4 0 0 0 0 0])
  = Some ([at1030 2] ++ [at1030 9]).
Proof.
  apply (exclusion_removes_occurrence exactWeeks exampleNow boundedTemplate
           (Date 2025 6 4 0 0 0 0 0) [Date 2025 6 4 0 0 0 0 0]
           [at1030 2] [at1030 9] (at1030 4)).
  - intros d. change (ExclusionDates boundedTemplate) with (@nil Time).
    cbn [In]. intuition congruence.
  - vm_compute. reflexivity.
  - vm_compute. reflexivity.
  - intros t [<-|[<-|[]]]; vm_compute; reflexivity.
  - vm_compute. reflexivity.
Defined.

(** The claim C8 fails when the cap on occurrences is what ends the
    sequence: excluding 2025-06-04 from the weekly template removes that
    occurrence and brings in 2025-06-16. *)
Lemma exclusion_cap_counterexample :
  GenerateOccurrences exactWeeks exampleNow weeklyTemplate
  = Some [at1030 2; at1030 4; at1030 9; at1030 11]
  /\ sameCalendarDate (at1030 4) (Date 2025 6 4 0 0 0 0 0) = true
  /\ GenerateOccurrences exactWeeks exampleNow
       (setExclusionDates weeklyTemplate [Date 2025 6 4 0 0 0 0 0])
     = Some [at1030 2; at1030 9; at1030 11; at1030 16]
  /\ [at1030 2; at1030 9; at1030 11; at1030 16]
     <> [at1030 2; at1030 9; at1030 11].
Proof.
  split; [vm_compute; reflexivity|].
  split; [vm_compute; reflexivity|].
  split; [vm_compute; reflexivity|].
  intros H. apply (f_equal (@List.length Time)) in H. discriminate H.
Qed.

Lemma GenerateOccurrences_clock_independent_witness :
  exists l,
    GenerateOccurrences exactWeeks (Date 2015 1 1 0 0 0 0 0) boundedTemplate
    = Some l
    /\ GenerateOccurrences exactWeeks exampleNow boundedTemplate = Some l.
Proof.
  apply (GenerateOccurrences_clock_independent exactWeeks boundedTemplate
           (Date 2025 6 10 0 0 0 0 0)).
  reflexivity.
Defined.

(** The claim C9 fails for a template without an end date: the same
    template expanded on 2025-06-01 and again on 2025-06-03 gives two
    different sequences, because the default end of the expansion is ten
    years after the call. *)
Lemma GenerateOccurrences_clock_counterexample :
  GenerateOccurrences exactWeeks (Date 2025 6 1 9 0 0 0 0) horizonTemplate
  = Some [Date 2035 5 28 10 0 0 0 0; Date 2035 5 29 10 0 0 0 0;
          Date 2035 5 30 10 0 0 0 0; Date 2035 5 31 10 0 0 0 0]
  /\ GenerateOccurrences exactWeeks (Date 2025 6 3 9 0 0 0 0) horizonTemplate
     = Some [Date 2035 5 28 10 0 0 0 0; Date 2035 5 29 10 0 0 0 0;
             Date 2035 5 30 10 0 0 0 0; Date 2035 5 31 10 0 0 0 0;
             Date 2035 6 1 10 0 0 0 0; Date 2035 6 2 10 0 0 0 0]
  /\ GenerateOccurrences exactWeeks (Date 2025 6 1 9 0 0 0 0) horizonTemplate
     <> GenerateOccurrences exactWeeks (Date 2025 6 3 9 0 0 0 0)
          horizonTemplate.
Proof.
  split; [vm_compute; reflexivity|].
  split; [vm_compute; reflexivity|].
  vm_compute. discriminate.
Qed.

End RecurrenceExamples.

Section MondayWednesday.

Variable weeksOf : Duration -> Z.
Variable now : Time.
Variable ra : RecurringAppointment.

Hypothesis Hpattern : Pattern ra = RecurrenceWeekly.
Hypothesis Hdays :
  forall d, In d (WeekDays ra) <-> d = Monday \/ d = Wednesday.
Hypothesis Hstart :
  Year (StartDate ra) = 2025 /\ Month (StartDate ra) = 6
  /\ Day (StartDate ra) = 1.
Hypothesis Hend : EndDate ra = None.
Hypothesis Hmax : MaxOccurrences ra = Some 4.
Hypothesis Hexcl : ExclusionDates ra = [].
Hypothesis Hminutes : 0 <= StartTimeMinutes ra <= 1439.
Hypothesis Hclock : Before (juneDay ra 11) (AddDate now 10 0 0) = true.

Lemma civilDays_june (d : Z) : civilDays 2025 6 d = 739401 + d.
Proof.
  transitivity (civilDays 2025 6 (0 + d)); [f_equal; lia|].
  rewrite civilDays_add. reflexivity.
Qed.

Lemma juneDay_instant (d : Z) :
  juneDay ra d
  = mkTime (((739401 + d) * 86400
             + Z.quot (StartTimeMinutes ra) 60 * 3600
             + Z.rem (StartTimeMinutes ra) 60 * 60 + 0
             - zone (StartDate ra)) * 1000000000 + 0)
      (zone (StartDate ra)).
Proof.
  unfold juneDay.
  rewrite Z.quot_div_nonneg, Z.rem_mod_nonneg by lia.
  rewrite Date_unfold; try lia; try divlia.
  rewrite civilDays_june. reflexivity.
Qed.

Lemma juneDay_localDays (d : Z) : localDays (juneDay ra d) = 739401 + d.
Proof.
  rewrite juneDay_instant. unfold localDays, localSeconds, secondsPerDay.
  cbn [instant zone].
  rewrite Z.quot_div_nonneg, Z.rem_mod_nonneg by lia.
  divlia.
Qed.

Lemma juneDay_next (d : Z) : AddDate (juneDay ra d) 0 0 1 = juneDay ra (d + 1).
Proof.
  rewrite AddDate_days, !juneDay_instant. cbn [instant zone].
  f_equal. change nsPerDay with 86400000000000. lia.
Qed.

Lemma hasWeekDay_MondayWednesday (wd : Z) :
  hasWeekDay ra wd = (wd =? Monday) || (wd =? Wednesday).
Proof.
  unfold hasWeekDay. apply eq_iff_eq_true.
  rewrite existsb_exists, orb_true_iff, !Z.eqb_eq. split.
  - intros (d & Hin & E). apply Z.eqb_eq in E. subst d.
    apply Hdays. assumption.
  - intros H. exists wd. split; [apply Hdays; assumption | apply Z.eqb_refl].
Qed.

Lemma includeDate_juneDay (d : Z) :
  includeDate weeksOf ra (juneDay ra d)
  = (((739401 + d + 1) mod 7 =? Monday)
     || ((739401 + d + 1) mod 7 =? Wednesday)).
Proof.
  unfold includeDate, excluded, patternIncludes.
  rewrite Hexcl, Hpattern. cbn [existsb].
  change (String.eqb RecurrenceWeekly RecurrenceDaily) with false.
  change (String.eqb RecurrenceWeekly RecurrenceWeekly) with true.
  cbv iota. rewrite hasWeekDay_MondayWednesday.
  unfold Weekday. rewrite juneDay_localDays. reflexivity.
Qed.

Lemma juneDay_offset (d : Z) :
  instant (juneDay ra d)
  = instant (juneDay ra 1) + (d - 1) * 86400000000000.
Proof. rewrite !juneDay_instant. cbn [instant]. lia. Qed.

Lemma horizon_after_eleventh :
  instant (juneDay ra 1) + 10 * 86400000000000
  < instant (AddDate now 10 0 0).
Proof.
  pose proof (proj1 (Before_lt _ _) Hclock) as H.
  rewrite (juneDay_offset 11) in H. lia.
Qed.

Lemma juneDay_before_horizon (d : Z) :
  d <= 11 -> Before (juneDay ra d) (AddDate now 10 0 0) = true.
Proof.
  intros Hd. pose proof horizon_after_eleventh as H.
  apply Before_lt. rewrite (juneDay_offset d). lia.
Qed.

Lemma juneDay_skip (fuel : nat) (d d' count : Z) :
  d' = d + 1 -> d <= 11 -> count < 4 ->
  ((739401 + d + 1) mod 7 =? Monday)
  || ((739401 + d + 1) mod 7 =? Wednesday) = false ->
  loop weeksOf ra (AddDate now 10 0 0) 4 (S fuel)
    (mkLoopState (juneDay ra d) count [])
  = loop weeksOf ra (AddDate now 10 0 0) 4 fuel
      (mkLoopState (juneDay ra d') count []).
Proof.
  intros -> Hd Hc Hw. rewrite loop_step.
  - rewrite includeDate_juneDay, Hw, juneDay_next. reflexivity.
  - rewrite juneDay_before_horizon by assumption. apply Z.ltb_lt. assumption.
Qed.

Lemma juneDay_take (fuel : nat) (d d' count count' : Z) :
  d' = d + 1 -> count' = count + 1 -> d <= 11 -> count < 4 ->
  ((739401 + d + 1) mod 7 =? Monday)
  || ((739401 + d + 1) mod 7 =? Wednesday) = true ->
  loop weeksOf ra (AddDate now 10 0 0) 4 (S fuel)
    (mkLoopState (juneDay ra d) count [])
  = option_map (cons (juneDay ra d))
      (loop weeksOf ra (AddDate now 10 0 0) 4 fuel
         (mkLoopState (juneDay ra d') count' [])).
Proof.
  intros -> -> Hd Hc Hw. rewrite loop_step.
  - rewrite includeDate_juneDay, Hw, juneDay_next. reflexivity.
  - rewrite juneDay_before_horizon by assumption. apply Z.ltb_lt. assumption.
Qed.

Lemma iterationBound_eleven :
  exists fuel,
    iterationBound (juneDay ra 1) (AddDate now 10 0 0) = (11 + fuel)%nat.
Proof.
  pose proof horizon_after_eleventh as H.
  unfold iterationBound. change nsPerDay with 86400000000000.
  set (q := _ / 86400000000000 + 1).
  assert (Hq : 11 <= q) by (unfold q; divlia).
  exists (Z.to_nat q - 11)%nat. lia.
Qed.

(** C7. For a template with pattern weekly, weekdays
    Monday and Wednesday, a start date on 2025-06-01, no end date, no
    exclusion dates, a time of day [StartTimeMinutes] within the day and
    [MaxOccurrences] 4, a call made when the default end of the expansion
    (ten years after the call) lies after the last of them returns the
    four start-datetimes on 2025-06-02, 06-04, 06-09 and 06-11, in that
    order, each at the time of day given by [StartTimeMinutes]. *)
Theorem weekly_four_occurrences :
  GenerateOccurrences weeksOf now ra
  = Some [juneDay ra 2; juneDay ra 4; juneDay ra 9; juneDay ra 11].
Proof.
  unfold GenerateOccurrences. rewrite Hend, Hmax.
  destruct Hstart as (-> & -> & ->).
  change (Date 2025 6 1 (Z.quot (StartTimeMinutes ra) 60)
            (Z.rem (StartTimeMinutes ra) 60) 0 0 (zone (StartDate ra)))
    with (juneDay ra 1).
  destruct iterationBound_eleven as [fuel ->].
  cbn [Nat.add].
  rewrite (juneDay_skip _ 1 2 0) by (first [lia | reflexivity]).
  rewrite (juneDay_take _ 2 3 0 1) by (first [lia | reflexivity]).
  rewrite (juneDay_skip _ 3 4 1) by (first [lia | reflexivity]).
  rewrite (juneDay_take _ 4 5 1 2) by (first [lia | reflexivity]).
  rewrite (juneDay_skip _ 5 6 2) by (first [lia | reflexivity]).
  rewrite (juneDay_skip _ 6 7 2) by (first [lia | reflexivity]).
  rewrite (juneDay_skip _ 7 8 2) by (first [lia | reflexivity]).
  rewrite (juneDay_skip _ 8 9 2) by (first [lia | reflexivity]).
  rewrite (juneDay_take _ 9 10 2 3) by (first [lia | reflexivity]).
  rewrite (juneDay_skip _ 10 11 3) by (first [lia | reflexivity]).
  rewrite (juneDay_take _ 11 12 3 4) by (first [lia | reflexivity]).
  rewrite loop_stop; [reflexivity|].
  unfold loopCond. cbn [occurrenceCount]. apply andb_false_r.
Qed.

End MondayWednesday.

Section WeeklyExample.

Lemma weekly_four_occurrences_witness :
  GenerateOccurrences exactWeeks exampleNow weeklyTemplate
  = Some [juneDay weeklyTemplate 2; juneDay weeklyTemplate 4;
          juneDay weeklyTemplate 9; juneDay weeklyTemplate 11].
Proof.
  apply (weekly_four_occurrences exactWeeks exampleNow weeklyTemplate).
  - reflexivity.
  - intros d. change (WeekDays weeklyTemplate) with [Monday; Wednesday].
    cbn [In]. intuition congruence.
  - vm_compute. repeat split; reflexivity.
  - reflexivity.
  - reflexivity.
  - reflexivity.
  - vm_compute. split; discriminate.
  - vm_compute. reflexivity.
Defined.

(** The hypothesis on the clock is there for the default end of the
    expansion: were the clock to read a date before mid-June 2015, ten
    years after it would lie before the template's start, and nothing would
    be generated. *)
Lemma weeklyTemplate_early_clock :
  GenerateOccurrences exactWeeks (Date 2015 1 1 0 0 0 0 0) weeklyTemplate
  = Some []
  /\ GenerateOccurrences exactWeeks (Date 2015 1 1 0 0 0 0 0) weeklyTemplate
     <> Some [juneDay weeklyTemplate 2; juneDay weeklyTemplate 4;
              juneDay weeklyTemplate 9; juneDay weeklyTemplate 11].
Proof.
  assert (H : GenerateOccurrences exactWeeks (Date 2015 1 1 0 0 0 0 0)
                weeklyTemplate = Some [])
    by (vm_compute; reflexivity).
  split; [exact H|]. rewrite H. discriminate.
Qed.

End WeeklyExample.

(** ** The weekday encoding *)

Section CodecFacts.

Lemma bytesOf_app (s t : string) :
  bytesOf (String.append s t) = bytesOf s ++ bytesOf t.
Proof.
  unfold bytesOf. induction s as [|c s IH]; cbn; [reflexivity|].
  f_equal. exact IH.
Qed.

(** Bytes below 0x80 decode to themselves. *)
Lemma decodeRunes_ascii (l r : list Z) :
  Forall (fun b => b < 128) l ->
  decodeRunes (l ++ r) = l ++ decodeRunes r.
Proof.
  induction 1 as [|b l Hb Hl IH]; [reflexivity|].
  cbn [app decodeRunes].
  destruct (Z.ltb_spec b 128); [|lia].
  f_equal. exact IH.
Qed.

Lemma digit_bytes (d : Z) :
  0 <= d <= 6 -> bytesOf (stringOfRune (runeOfInt (48 + d))) = [48 + d].
Proof.
  intros H.
  assert (C : d = 0 \/ d = 1 \/ d = 2 \/ d = 3 \/ d = 4 \/ d = 5 \/ d = 6)
    by lia.
  repeat (destruct C as [->|C]; [reflexivity|]). subst d. reflexivity.
Qed.

Lemma fold_weekDaysOfRune_comma (l : list Z) (acc : list WeekDay) :
  fold_left weekDaysOfRune (l ++ [44]) acc = fold_left weekDaysOfRune l acc.
Proof. rewrite fold_left_app. reflexivity. Qed.

Lemma fold_weekDaysOfRune_digit (l : list Z) (acc : list WeekDay) (d : Z) :
  0 <= d ->
  fold_left weekDaysOfRune (l ++ [48 + d]) acc
  = fold_left weekDaysOfRune l acc ++ [d].
Proof.
  intros H. rewrite fold_left_app. cbn [fold_left]. unfold weekDaysOfRune at 1.
  destruct (Z.eqb_spec (48 + d) 44); [lia|]. cbn [negb].
  replace (48 + d - 48) with d by lia. reflexivity.
Qed.

(** The encoding loop keeps the string in ASCII, and decoding what it has
    written so far gives the weekdays seen so far. *)
Lemma weekDays_fold (days : list WeekDay) :
  (forall d, In d days -> 0 <= d <= 6) ->
  forall i s,
    Forall (fun b => b < 128) (bytesOf s) ->
    let s' := snd (fold_left weekDaysStep days (i, s)) in
    Forall (fun b => b < 128) (bytesOf s')
    /\ fold_left weekDaysOfRune (bytesOf s') []
       = fold_left weekDaysOfRune (bytesOf s) [] ++ days.
Proof.
  induction days as [|d days IH]; intros Hr i s Hs; cbn zeta.
  - cbn [fold_left snd]. rewrite app_nil_r. auto.
  - cbn [fold_left].
    change (weekDaysStep (i, s) d)
      with (i + 1,
            String.append (if 0 <? i then String.append s "," else s)
              (stringOfRune (runeOfInt (48 + d)))).
    assert (Hd : 0 <= d <= 6) by (apply Hr; left; reflexivity).
    set (s1 := if 0 <? i then String.append s "," else s).
    assert (H1 : Forall (fun b => b < 128) (bytesOf s1)
                 /\ fold_left weekDaysOfRune (bytesOf s1) []
                    = fold_left weekDaysOfRune (bytesOf s) []).
    { unfold s1. destruct (0 <? i); [|auto].
      rewrite bytesOf_app. change (bytesOf ",") with [44]. split.
      - apply Forall_app. split; [assumption|]. repeat constructor.
      - apply fold_weekDaysOfRune_comma. }
    destruct H1 as [Ha Hf].
    set (s2 := String.append s1 (stringOfRune (runeOfInt (48 + d)))).
    assert (H2 : Forall (fun b => b < 128) (bytesOf s2)
                 /\ fold_left weekDaysOfRune (bytesOf s2) []
                    = fold_left weekDaysOfRune (bytesOf s) [] ++ [d]).
    { unfold s2. rewrite bytesOf_app, digit_bytes by assumption. split.
      - apply Forall_app. split; [assumption|]. repeat constructor. lia.
      - rewrite fold_weekDaysOfRune_digit by lia. rewrite Hf. reflexivity. }
    destruct H2 as [Ha2 Hf2].
    destruct (IH (fun x Hx => Hr x (or_intror Hx)) (i + 1) s2 Ha2) as [Hb Hg].
    split; [exact Hb|].
    rewrite Hg, Hf2, <- app_assoc. reflexivity.
Qed.

(** Decoding an ASCII string reads its bytes one by one. *)
Lemma decodeWeekDays_ascii (s : string) :
  Forall (fun b => b < 128) (bytesOf s) ->
  decodeWeekDays [] s = fold_left weekDaysOfRune (bytesOf s) [].
Proof.
  intros Ha. unfold decodeWeekDays, runes.
  rewrite <- (app_nil_r (bytesOf s)) at 1.
  rewrite decodeRunes_ascii by exact Ha.
  cbn [decodeRunes]. rewrite app_nil_r. reflexivity.
Qed.

(** C10. Encoding a list of weekdays 0..6 as [BeforeSave] does and
    decoding the string as [AfterFind] does, from an empty list, gives the
    list back, in order. *)
Theorem weekDays_roundtrip (days : list WeekDay) :
  (forall d, In d days -> 0 <= d <= 6) ->
  decodeWeekDays [] (encodeWeekDays days) = days.
Proof.
  intros Hr.
  destruct (weekDays_fold days Hr 0 EmptyString (Forall_nil _)) as [Ha Hf].
  unfold encodeWeekDays.
  rewrite decodeWeekDays_ascii by exact Ha.
  exact Hf.
Qed.

Lemma weekDays_roundtrip_witness :
  decodeWeekDays [] (encodeWeekDays [Monday; Wednesday; Saturday])
  = [Monday; Wednesday; Saturday].
Proof.
  apply weekDays_roundtrip.
  intros d [<-|[<-|[<-|[]]]]; vm_compute; split; discriminate.
Defined.

Variable formatRFC3339 : Time -> string.
Variable parseRFC3339 : string -> option Time.

(** What the hooks do to the weekday fields. *)
Lemma BeforeSave_WeekDaysString (now : Time) (ra : RecurringAppointment) :
  WeekDaysString (snd (BeforeSave formatRFC3339 now ra))
  = match WeekDays ra with
    | [] => WeekDaysString ra
    | _ :: _ => encodeWeekDays (WeekDays ra)
    end.
Proof.
  unfold BeforeSave. cbn [snd].
  destruct (WeekDays ra);
    match goal with
    | |- context [match ExclusionDates ?r with _ => _ end] =>
        destruct (ExclusionDates r)
    end; reflexivity.
Qed.

Lemma AfterFind_WeekDays (ra : RecurringAppointment) :
  WeekDays (snd (AfterFind parseRFC3339 ra))
  = if negb (String.eqb (WeekDaysString ra) EmptyString)
    then decodeWeekDays (WeekDays ra) (WeekDaysString ra)
    else WeekDays ra.
Proof.
  unfold AfterFind. cbn [snd].
  destruct (negb (String.eqb (WeekDaysString ra) EmptyString));
    match goal with
    | |- context [if ?c then _ else _] => destruct c
    end; reflexivity.
Qed.

(** The hooks themselves: a template saved and then loaded into a record
    with no weekdays gets its weekdays back, when it has some or when its
    stored string is still empty. *)
Lemma BeforeSave_AfterFind_weekdays (now : Time) (ra : RecurringAppointment) :
  (forall d, In d (WeekDays ra) -> 0 <= d <= 6) ->
  WeekDays ra <> [] \/ WeekDaysString ra = EmptyString ->
  WeekDays (snd (AfterFind parseRFC3339
                   (setWeekDays (snd (BeforeSave formatRFC3339 now ra)) [])))
  = WeekDays ra.
Proof.
  intros Hr Hfresh.
  assert (Hrt : decodeWeekDays [] (encodeWeekDays (WeekDays ra)) = WeekDays ra).
  { destruct (weekDays_fold _ Hr 0 EmptyString (Forall_nil _)) as [Ha Hf].
    unfold encodeWeekDays. rewrite decodeWeekDays_ascii by exact Ha. exact Hf. }
  rewrite AfterFind_WeekDays.
  change (WeekDaysString (setWeekDays ?r [])) with (WeekDaysString r).
  change (WeekDays (setWeekDays ?r [])) with (@nil WeekDay).
  rewrite BeforeSave_WeekDaysString.
  destruct (WeekDays ra) as [|d days] eqn:E.
  - destruct Hfresh as [Hne|Hs]; [congruence|]. rewrite Hs. reflexivity.
  - destruct (String.eqb_spec (encodeWeekDays (d :: days)) EmptyString)
      as [Hs|Hs]; cbn [negb]; [|exact Hrt].
    rewrite Hs in Hrt. exact Hrt.
Qed.

(** [BeforeSave] leaves the stored string alone when the template has no
    weekdays: what was stored before is what a later load decodes. *)
Lemma BeforeSave_no_weekdays (now : Time) (ra : RecurringAppointment) :
  WeekDays ra = [] ->
  WeekDaysString (snd (BeforeSave formatRFC3339 now ra)) = WeekDaysString ra.
Proof.
  intros E. rewrite BeforeSave_WeekDaysString, E. reflexivity.
Qed.

End CodecFacts.


(** * Further properties of the code *)

(** ** What [GenerateOccurrences] returns *)

Section OccurrenceFacts.

Variable weeksOf : Duration -> Z.

Lemma GenerateOccurrences_loop (now : Time) (ra : RecurringAppointment) :
  GenerateOccurrences weeksOf now ra
  = loop weeksOf ra (expansionEnd now ra) (occurrenceCap ra)
      (iterationBound (firstCandidate ra) (expansionEnd now ra))
      (mkLoopState (firstCandidate ra) 0 []).
Proof. reflexivity. Qed.

(** Every date the loop emits lies before the end, passes the inclusion
    test and is a whole number of days after the date the loop began at. *)
Lemma loop_members (ra : RecurringAppointment) (endDate : Time)
    (maxOccurrences : Z) (fuel : nat) :
  forall cur count l,
    loop weeksOf ra endDate maxOccurrences fuel (mkLoopState cur count [])
    = Some l ->
    forall t, In t l ->
      Before t endDate = true /\ includeDate weeksOf ra t = true
      /\ exists k, 0 <= k /\ instant t = instant cur + k * nsPerDay
                   /\ zone t = zone cur.
Proof.
  induction fuel as [|fuel IH]; intros cur count l Hrun t Ht.
  - cbn [loop] in Hrun. destruct (loopCond _ _ _); [discriminate|].
    injection Hrun as <-. contradiction.
  - destruct (Before cur endDate && (count <? maxOccurrences)) eqn:C.
    + rewrite (loop_step weeksOf ra _ _ _ _ _ C) in Hrun.
      assert (Hnext : forall c l1,
        loop weeksOf ra endDate maxOccurrences fuel
          (mkLoopState (AddDate cur 0 0 1) c []) = Some l1 ->
        In t l1 ->
        Before t endDate = true /\ includeDate weeksOf ra t = true
        /\ exists k, 0 <= k /\ instant t = instant cur + k * nsPerDay
                     /\ zone t = zone cur).
      { intros c l1 H1 Hin.
        destruct (IH _ _ _ H1 t Hin) as (Hb & Hi & k & Hk & Hinst & Hz).
        rewrite AddDate_days in Hinst, Hz. cbn [instant zone] in Hinst, Hz.
        split; [exact Hb|]. split; [exact Hi|].
        exists (k + 1). repeat split; [lia | lia | exact Hz]. }
      destruct (includeDate weeksOf ra cur) eqn:I.
      * destruct (loop weeksOf ra endDate maxOccurrences fuel _)
          as [l1|] eqn:E; [|discriminate].
        cbn [option_map] in Hrun. injection Hrun as <-.
        destruct Ht as [<-|Ht]; [|exact (Hnext _ _ E Ht)].
        apply andb_true_iff in C as [C _].
        split; [exact C|]. split; [exact I|].
        exists 0. repeat split; lia.
      * exact (Hnext _ _ Hrun Ht).
    + rewrite loop_stop in Hrun by exact C. injection Hrun as <-.
      contradiction.
Qed.

(** The count never passes the cap. *)
Lemma loop_length (ra : RecurringAppointment) (endDate : Time)
    (maxOccurrences : Z) (fuel : nat) :
  forall cur count l,
    loop weeksOf ra endDate maxOccurrences fuel (mkLoopState cur count [])
    = Some l ->
    count + Z.of_nat (List.length l) <= Z.max count maxOccurrences.
Proof.
  induction fuel as [|fuel IH]; intros cur count l Hrun.
  - cbn [loop] in Hrun. destruct (loopCond _ _ _); [discriminate|].
    injection Hrun as <-. cbn [List.length]. lia.
  - destruct (Before cur endDate && (count <? maxOccurrences)) eqn:C.
    + rewrite (loop_step weeksOf ra _ _ _ _ _ C) in Hrun.
      apply andb_true_iff in C as [_ C]. apply Z.ltb_lt in C.
      destruct (includeDate weeksOf ra cur).
      * destruct (loop weeksOf ra endDate maxOccurrences fuel _)
          as [l1|] eqn:E; [|discriminate].
        cbn [option_map] in Hrun. injection Hrun as <-.
        apply IH in E. cbn [List.length]. lia.
      * apply IH in Hrun. lia.
    + rewrite loop_stop in Hrun by exact C. injection Hrun as <-.
      cbn [List.length]. lia.
Qed.

(** Emitted dates are at least a day apart, in ascending order. *)
Lemma loop_sorted (ra : RecurringAppointment) (endDate : Time)
    (maxOccurrences : Z) (fuel : nat) :
  forall cur count l,
    loop weeksOf ra endDate maxOccurrences fuel (mkLoopState cur count [])
    = Some l ->
    StronglySorted (fun a b => instant a + nsPerDay <= instant b) l.
Proof.
  pose proof nsPerDay_pos as Hpos.
  induction fuel as [|fuel IH]; intros cur count l Hrun.
  - cbn [loop] in Hrun. destruct (loopCond _ _ _); [discriminate|].
    injection Hrun as <-. constructor.
  - destruct (Before cur endDate && (count <? maxOccurrences)) eqn:C.
    + rewrite (loop_step weeksOf ra _ _ _ _ _ C) in Hrun.
      destruct (includeDate weeksOf ra cur).
      * destruct (loop weeksOf ra endDate maxOccurrences fuel _)
          as [l1|] eqn:E; [|discriminate].
        cbn [option_map] in Hrun. injection Hrun as <-.
        constructor; [exact (IH _ _ _ E)|].
        apply Forall_forall. intros t Ht.
        destruct (loop_members ra _ _ _ _ _ _ E t Ht)
          as (_ & _ & k & Hk & Hinst & _).
        rewrite AddDate_days in Hinst. cbn [instant] in Hinst. nia.
      * exact (IH _ _ _ Hrun).
    + rewrite loop_stop in Hrun by exact C. injection Hrun as <-.
      constructor.
Qed.

Lemma loop_more_fuel (ra : RecurringAppointment) (endDate : Time)
    (maxOccurrences : Z) (fuel : nat) :
  forall st l fuel',
    loop weeksOf ra endDate maxOccurrences fuel st = Some l ->
    (fuel <= fuel')%nat ->
    loop weeksOf ra endDate maxOccurrences fuel' st = Some l.
Proof.
  induction fuel as [|fuel IH]; intros st l fuel' H Hle.
  - cbn [loop] in H.
    destruct (loopCond endDate maxOccurrences st) eqn:C; [discriminate|].
    destruct fuel'; cbn [loop]; rewrite C; exact H.
  - destruct fuel' as [|fuel']; [lia|].
    cbn [loop] in *.
    destruct (loopCond endDate maxOccurrences st); [|exact H].
    apply IH; [exact H | lia].
Qed.

(** X1. [GenerateOccurrences] returns for every template and every clock
    reading: its loop leaves by its own condition within the number of days
    between the first date it looks at and the end of the expansion, so the
    result is that of the loop run under any larger bound on its
    iterations. *)
Theorem GenerateOccurrences_returns (now : Time) (ra : RecurringAppointment) :
  exists l,
    GenerateOccurrences weeksOf now ra = Some l
    /\ forall fuel,
         (iterationBound (firstCandidate ra) (expansionEnd now ra) <= fuel)%nat ->
         loop weeksOf ra (expansionEnd now ra) (occurrenceCap ra) fuel
           (mkLoopState (firstCandidate ra) 0 []) = Some l.
Proof.
  assert (Hfuel :
    instant (expansionEnd now ra) - instant (firstCandidate ra)
    < Z.of_nat (iterationBound (firstCandidate ra) (expansionEnd now ra))
      * nsPerDay) by apply (iterationBound_enough weeksOf).
  destruct (loop_total weeksOf ra (expansionEnd now ra) (occurrenceCap ra)
              (iterationBound (firstCandidate ra) (expansionEnd now ra))
              (mkLoopState (firstCandidate ra) 0 []) Hfuel) as [l Hl].
  exists l. split.
  - rewrite GenerateOccurrences_loop. exact Hl.
  - intros fuel Hle. apply (loop_more_fuel _ _ _ _ _ _ _ Hl Hle).
Qed.

(** X2. [GenerateOccurrences] never returns more occurrences than
    [MaxOccurrences] (1000 when unset), and none when that cap is zero or
    negative. *)
Theorem occurrences_count (now : Time) (ra : RecurringAppointment)
    (l : list Time) :
  GenerateOccurrences weeksOf now ra = Some l ->
  Z.of_nat (List.length l) <= Z.max 0 (occurrenceCap ra).
Proof.
  rewrite GenerateOccurrences_loop. intros H.
  apply loop_length in H. lia.
Qed.

(** X3. Every occurrence returned lies strictly before the end of the
    expansion ([EndDate], or ten years after the call), falls on no excluded
    calendar date, and is not earlier than the first date of the template. *)
Theorem occurrences_bounds (now : Time) (ra : RecurringAppointment)
    (l : list Time) (t : Time) :
  GenerateOccurrences weeksOf now ra = Some l -> In t l ->
  instant (firstCandidate ra) <= instant t
  /\ instant t < instant (expansionEnd now ra)
  /\ forall x, In x (ExclusionDates ra) -> sameCalendarDate t x = false.
Proof.
  rewrite GenerateOccurrences_loop. intros H Ht.
  pose proof nsPerDay_pos as Hpos.
  destruct (loop_members ra _ _ _ _ _ _ H t Ht)
    as (Hb & Hi & k & Hk & Hinst & _).
  split; [nia|]. split; [apply Before_lt; exact Hb|].
  intros x Hx. unfold includeDate in Hi.
  destruct (excluded ra t) eqn:E; [discriminate|].
  unfold excluded in E.
  destruct (sameCalendarDate t x) eqn:S; [|reflexivity].
  assert (existsb (sameCalendarDate t) (ExclusionDates ra) = true)
    by (apply existsb_exists; exists x; auto).
  congruence.
Qed.

Lemma StronglySorted_weaken (A : Type) (R R' : A -> A -> Prop)
    (l : list A) :
  (forall x y, R x y -> R' x y) ->
  StronglySorted R l -> StronglySorted R' l.
Proof.
  intros Himp. induction 1 as [|x l Hs IH Hall]; constructor; [exact IH|].
  revert Hall. apply Forall_impl. intros y. apply Himp.
Qed.

(** X4. The occurrences come in strictly ascending order: each is a later
    instant than all before it, and none is repeated. *)
Theorem occurrences_ascending (now : Time) (ra : RecurringAppointment)
    (l : list Time) :
  GenerateOccurrences weeksOf now ra = Some l ->
  StronglySorted (fun a b => instant a < instant b) l.
Proof.
  rewrite GenerateOccurrences_loop. intros H. apply loop_sorted in H.
  revert H. apply StronglySorted_weaken.
  intros x y Hxy. pose proof nsPerDay_pos. lia.
Qed.

Lemma firstCandidate_instant (ra : RecurringAppointment) :
  0 <= StartTimeMinutes ra <= 1439 ->
  firstCandidate ra
  = mkTime ((localDays (StartDate ra) * 86400
             + StartTimeMinutes ra / 60 * 3600
             + StartTimeMinutes ra mod 60 * 60 + 0 - zone (StartDate ra))
            * 1000000000 + 0) (zone (StartDate ra)).
Proof.
  intros H. unfold firstCandidate.
  destruct (civil_roundtrip (localDays (StartDate ra))) as (Hd & Hm & _).
  rewrite Z.quot_div_nonneg, Z.rem_mod_nonneg by lia.
  rewrite Date_unfold.
  - unfold Year, Month, Day. rewrite Hd. reflexivity.
  - exact Hm.
  - lia.
  - lia.
  - divlia.
  - divlia.
Qed.

(** X5. For a [StartDate] in a location of fixed offset, as every [Time]
    here is, and a time of day [StartTimeMinutes] within 0..1439, every
    occurrence is at that time of day (hour [StartTimeMinutes / 60], minute
    [StartTimeMinutes % 60], second 0) at the offset of [StartDate], on a
    calendar day that is [StartDate]'s or a later one. *)
Theorem occurrences_time_of_day (now : Time) (ra : RecurringAppointment)
    (l : list Time) (t : Time) :
  0 <= StartTimeMinutes ra <= 1439 ->
  GenerateOccurrences weeksOf now ra = Some l -> In t l ->
  HourOf t = StartTimeMinutes ra / 60
  /\ MinuteOf t = StartTimeMinutes ra mod 60
  /\ SecondOf t = 0 /\ nsecOf t = 0
  /\ zone t = zone (StartDate ra)
  /\ localDays (StartDate ra) <= localDays t.
Proof.
  intros Hm. rewrite GenerateOccurrences_loop. intros H Ht.
  destruct (loop_members ra _ _ _ _ _ _ H t Ht)
    as (_ & _ & k & Hk & Hinst & Hz).
  rewrite firstCandidate_instant in Hinst, Hz by exact Hm.
  cbn [instant zone] in Hinst, Hz.
  change nsPerDay with 86400000000000 in Hinst.
  unfold HourOf, MinuteOf, SecondOf, nsecOf, secondOfDay, localDays,
    localSeconds, secondsPerDay in *.
  rewrite Hinst, Hz.
  set (D := (instant (StartDate ra) / 1000000000 + zone (StartDate ra))
            / 86400) in *.
  set (z := zone (StartDate ra)) in *.
  set (m := StartTimeMinutes ra) in *.
  assert (E : ((D * 86400 + m / 60 * 3600 + m mod 60 * 60 + 0 - z)
               * 1000000000 + 0 + k * 86400000000000) / 1000000000 + z
              = (D + k) * 86400 + (m / 60 * 3600 + m mod 60 * 60))
    by divlia.
  assert (Em : ((D * 86400 + m / 60 * 3600 + m mod 60 * 60 + 0 - z)
                * 1000000000 + 0 + k * 86400000000000) mod 1000000000 = 0)
    by divlia.
  rewrite E, Em.
  assert (R : 0 <= m / 60 * 3600 + m mod 60 * 60 < 86400) by divlia.
  set (r := m / 60 * 3600 + m mod 60 * 60) in *.
  assert (E1 : ((D + k) * 86400 + r) mod 86400 = r) by divlia.
  assert (E2 : ((D + k) * 86400 + r) / 86400 = D + k) by divlia.
  rewrite E1, E2. unfold r.
  repeat split; try reflexivity; divlia.
Qed.

(** X6. Every occurrence conforms to the pattern: for a weekly template
    its weekday is one of [WeekDays]; for a biweekly one it is, and the week
    count since [StartDate] is even; for a monthly one its day of the month
    is [MonthDay]. *)
Theorem occurrences_pattern (now : Time) (ra : RecurringAppointment)
    (l : list Time) (t : Time) :
  GenerateOccurrences weeksOf now ra = Some l -> In t l ->
  (Pattern ra = RecurrenceWeekly -> In (Weekday t) (WeekDays ra))
  /\ (Pattern ra = RecurrenceBiweekly ->
      In (Weekday t) (WeekDays ra)
      /\ Z.rem (weeksOf (Sub t (StartDate ra))) 2 = 0)
  /\ (Pattern ra = RecurrenceMonthly -> MonthDay ra = Some (Day t)).
Proof.
  rewrite GenerateOccurrences_loop. intros H Ht.
  destruct (loop_members ra _ _ _ _ _ _ H t Ht) as (_ & Hi & _).
  unfold includeDate in Hi. destruct (excluded ra t); [discriminate|].
  unfold patternIncludes in Hi.
  assert (Hw : hasWeekDay ra (Weekday t) = true ->
               In (Weekday t) (WeekDays ra)).
  { unfold hasWeekDay. intros E. apply existsb_exists in E as (d & Hd & E).
    apply Z.eqb_eq in E. subst d. exact Hd. }
  split; [|split]; intros Hp; rewrite Hp in Hi; cbn in Hi.
  - exact (Hw Hi).
  - destruct (Z.eqb_spec (Z.rem (weeksOf (Sub t (StartDate ra))) 2) 0);
      [|discriminate]. auto.
  - destruct (MonthDay ra) as [d|]; [|discriminate].
    apply Z.eqb_eq in Hi. congruence.
Qed.

(** X7. A template whose pattern is none of daily, weekly, biweekly and
    monthly, a weekly or biweekly one without weekdays, and a monthly one
    without a month day all expand to the empty sequence. *)
Theorem occurrences_none (now : Time) (ra : RecurringAppointment) :
  (Pattern ra <> RecurrenceDaily /\ Pattern ra <> RecurrenceWeekly
   /\ Pattern ra <> RecurrenceBiweekly /\ Pattern ra <> RecurrenceMonthly)
  \/ ((Pattern ra = RecurrenceWeekly \/ Pattern ra = RecurrenceBiweekly)
      /\ WeekDays ra = [])
  \/ (Pattern ra = RecurrenceMonthly /\ MonthDay ra = None) ->
  GenerateOccurrences weeksOf now ra = Some [].
Proof.
  intros Hcase.
  assert (Hno : forall t, patternIncludes weeksOf ra t = false).
  { intros t. unfold patternIncludes, hasWeekDay.
    destruct Hcase as [(H1 & H2 & H3 & H4)|[([Hp|Hp] & Hw)|(Hp & Hm)]].
    - destruct (String.eqb_spec (Pattern ra) RecurrenceDaily);
        [contradiction|].
      destruct (String.eqb_spec (Pattern ra) RecurrenceWeekly);
        [contradiction|].
      destruct (String.eqb_spec (Pattern ra) RecurrenceBiweekly);
        [contradiction|].
      destruct (String.eqb_spec (Pattern ra) RecurrenceMonthly);
        [contradiction|reflexivity].
    - rewrite Hp, Hw. reflexivity.
    - rewrite Hp, Hw. cbn. destruct (_ =? 0); reflexivity.
    - rewrite Hp, Hm. reflexivity. }
  destruct (GenerateOccurrences_total weeksOf now ra) as [l Hl].
  destruct l as [|t l]; [exact Hl|]. exfalso.
  pose proof Hl as Hl'. rewrite GenerateOccurrences_loop in Hl'.
  destruct (loop_members ra _ _ _ _ _ _ Hl' t (or_introl eq_refl))
    as (_ & Hi & _).
  unfold includeDate in Hi. rewrite Hno in Hi.
  destruct (excluded ra t); discriminate.
Qed.

(** A run with a lower cap returns the first occurrences of a run with a
    higher one. *)
Lemma loop_prefix (ra ra' : RecurringAppointment) (endDate : Time)
    (m m' : Z) :
  (forall t, includeDate weeksOf ra t = includeDate weeksOf ra' t) ->
  forall fuel cur count count' l',
    loop weeksOf ra' endDate m' fuel (mkLoopState cur count' []) = Some l' ->
    m - count <= m' - count' ->
    loop weeksOf ra endDate m fuel (mkLoopState cur count [])
    = Some (firstn (Z.to_nat (m - count)) l').
Proof.
  intros Hinc.
  induction fuel as [|fuel IH]; intros cur count count' l' Hrun Hle.
  - cbn [loop] in *. unfold loopCond in *.
    cbn [currentDate occurrenceCount occurrences] in *.
    destruct (Before cur endDate); cbn [andb] in *.
    + destruct (Z.ltb_spec count' m'); [discriminate|].
      injection Hrun as <-.
      destruct (Z.ltb_spec count m); [lia|]. rewrite firstn_nil. reflexivity.
    + injection Hrun as <-. rewrite firstn_nil. reflexivity.
  - destruct (Before cur endDate) eqn:B.
    + destruct (Z.ltb_spec count m) as [C|C].
      * assert (C1 : Before cur endDate && (count <? m) = true)
          by (rewrite B; apply Z.ltb_lt; exact C).
        assert (C2 : Before cur endDate && (count' <? m') = true)
          by (rewrite B; apply Z.ltb_lt; lia).
        rewrite (loop_step weeksOf ra' _ _ _ _ _ C2) in Hrun.
        rewrite (loop_step weeksOf ra _ _ _ _ _ C1), Hinc.
        destruct (includeDate weeksOf ra' cur).
        -- destruct (loop weeksOf ra' endDate m' fuel _) as [l1|] eqn:E;
             [|discriminate].
           cbn [option_map] in Hrun. injection Hrun as <-.
           rewrite (IH _ (count + 1) _ _ E) by lia. cbn [option_map].
           replace (Z.to_nat (m - count))
             with (S (Z.to_nat (m - (count + 1)))) by lia.
           reflexivity.
        -- apply (IH _ _ _ _ Hrun). lia.
      * rewrite loop_stop.
        -- replace (Z.to_nat (m - count)) with 0%nat by lia. reflexivity.
        -- unfold loopCond. cbn [currentDate occurrenceCount].
           rewrite B. apply Z.ltb_ge. exact C.
    + rewrite loop_stop in Hrun
        by (unfold loopCond; cbn [currentDate]; rewrite B; reflexivity).
      injection Hrun as <-. rewrite firstn_nil.
      apply loop_stop. unfold loopCond. cbn [currentDate]. rewrite B.
      reflexivity.
Qed.

(** X8. Lowering [MaxOccurrences] truncates: with a cap [m] the template
    expands, at the same clock reading, to the first [m] occurrences of its
    expansion with any higher cap. *)
Theorem occurrences_prefix (now : Time) (ra : RecurringAppointment)
    (m m' : Z) (l' : list Time) :
  m <= m' ->
  GenerateOccurrences weeksOf now (setMaxOccurrences ra (Some m')) = Some l' ->
  GenerateOccurrences weeksOf now (setMaxOccurrences ra (Some m))
  = Some (firstn (Z.to_nat m) l').
Proof.
  intros Hle Hrun. rewrite GenerateOccurrences_loop in *.
  change (expansionEnd now (setMaxOccurrences ra ?v))
    with (expansionEnd now ra) in *.
  change (firstCandidate (setMaxOccurrences ra ?v))
    with (firstCandidate ra) in *.
  cbn [occurrenceCap setMaxOccurrences MaxOccurrences] in *.
  replace (Z.to_nat m) with (Z.to_nat (m - 0)) by (f_equal; lia).
  apply (loop_prefix (setMaxOccurrences ra (Some m))
           (setMaxOccurrences ra (Some m')) _ m m'
           (fun t => eq_refl) _ _ 0 0 l' Hrun).
  lia.
Qed.

(** X9. Below the cap, a biweekly template expands to the occurrences of
    the weekly template with the same fields that fall in an even week
    since [StartDate]. *)
Theorem biweekly_of_weekly (now : Time) (ra : RecurringAppointment)
    (l : list Time) :
  Pattern ra = RecurrenceWeekly ->
  GenerateOccurrences weeksOf now ra = Some l ->
  Z.of_nat (List.length l) < occurrenceCap ra ->
  GenerateOccurrences weeksOf now (setPattern ra RecurrenceBiweekly)
  = Some (filter
            (fun t => Z.rem (weeksOf (Sub t (StartDate ra))) 2 =? 0) l).
Proof.
  intros Hp Hrun Hcap. rewrite GenerateOccurrences_loop in *.
  change (expansionEnd now (setPattern ra ?v)) with (expansionEnd now ra).
  change (firstCandidate (setPattern ra ?v)) with (firstCandidate ra).
  change (occurrenceCap (setPattern ra ?v)) with (occurrenceCap ra).
  eapply loop_filter; [|exact Hrun|lia|lia].
  intros t. unfold includeDate.
  change (excluded (setPattern ra RecurrenceBiweekly) t) with (excluded ra t).
  destruct (excluded ra t); [reflexivity|].
  unfold patternIncludes. rewrite Hp.
  cbn [setPattern Pattern StartDate].
  change (hasWeekDay (setPattern ra RecurrenceBiweekly) (Weekday t))
    with (hasWeekDay ra (Weekday t)).
  cbn. destruct (_ =? 0), (hasWeekDay ra (Weekday t)); reflexivity.
Qed.

End OccurrenceFacts.

Section OccurrenceWitnesses.

Lemma occurrences_count_witness :
  Z.of_nat (List.length [at1030 2; at1030 4; at1030 9; at1030 11])
  <= Z.max 0 (occurrenceCap weeklyTemplate).
Proof.
  apply (occurrences_count exactWeeks exampleNow weeklyTemplate).
  vm_compute. reflexivity.
Defined.

Lemma occurrences_bounds_witness :
  instant (firstCandidate weeklyTemplate) <= instant (at1030 4)
  /\ instant (at1030 4) < instant (expansionEnd exampleNow weeklyTemplate)
  /\ forall x, In x (ExclusionDates weeklyTemplate) ->
               sameCalendarDate (at1030 4) x = false.
Proof.
  apply (occurrences_bounds exactWeeks exampleNow weeklyTemplate
           [at1030 2; at1030 4; at1030 9; at1030 11]).
  - vm_compute. reflexivity.
  - right. left. reflexivity.
Defined.

Lemma occurrences_ascending_witness :
  StronglySorted (fun a b => instant a < instant b)
    [at1030 2; at1030 4; at1030 9; at1030 11].
Proof.
  apply (occurrences_ascending exactWeeks exampleNow weeklyTemplate).
  vm_compute. reflexivity.
Defined.

Lemma occurrences_time_of_day_witness :
  HourOf (at1030 9) = StartTimeMinutes weeklyTemplate / 60
  /\ MinuteOf (at1030 9) = StartTimeMinutes weeklyTemplate mod 60
  /\ SecondOf (at1030 9) = 0 /\ nsecOf (at1030 9) = 0
  /\ zone (at1030 9) = zone (StartDate weeklyTemplate)
  /\ localDays (StartDate weeklyTemplate) <= localDays (at1030 9).
Proof.
  apply (occurrences_time_of_day exactWeeks exampleNow weeklyTemplate
           [at1030 2; at1030 4; at1030 9; at1030 11]).
  - vm_compute. split; discriminate.
  - vm_compute. reflexivity.
  - right. right. left. reflexivity.
Defined.

Lemma occurrences_pattern_witness :
  (Pattern weeklyTemplate = RecurrenceWeekly ->
   In (Weekday (at1030 2)) (WeekDays weeklyTemplate))
  /\ (Pattern weeklyTemplate = RecurrenceBiweekly ->
      In (Weekday (at1030 2)) (WeekDays weeklyTemplate)
      /\ Z.rem (exactWeeks (Sub (at1030 2) (StartDate weeklyTemplate))) 2 = 0)
  /\ (Pattern weeklyTemplate = RecurrenceMonthly ->
      MonthDay weeklyTemplate = Some (Day (at1030 2))).
Proof.
  apply (occurrences_pattern exactWeeks exampleNow weeklyTemplate
           [at1030 2; at1030 4; at1030 9; at1030 11]).
  - vm_compute. reflexivity.
  - left. reflexivity.
Defined.

Lemma occurrences_none_witness :
  GenerateOccurrences exactWeeks exampleNow yearlyTemplate = Some [].
Proof.
  apply occurrences_none. left.
  repeat split; discriminate.
Defined.

Lemma occurrences_prefix_witness :
  GenerateOccurrences exactWeeks exampleNow
    (setMaxOccurrences weeklyTemplate (Some 2))
  = Some (firstn (Z.to_nat 2) [at1030 2; at1030 4; at1030 9; at1030 11]).
Proof.
  apply (occurrences_prefix exactWeeks exampleNow weeklyTemplate 2 4).
  - lia.
  - vm_compute. reflexivity.
Defined.

Lemma biweekly_of_weekly_witness :
  GenerateOccurrences exactWeeks exampleNow
    (setPattern boundedTemplate RecurrenceBiweekly)
  = Some (filter
            (fun t =>
               Z.rem (exactWeeks (Sub t (StartDate boundedTemplate))) 2 =? 0)
            [at1030 2; at1030 4; at1030 9]).
Proof.
  apply (biweekly_of_weekly exactWeeks exampleNow boundedTemplate).
  - reflexivity.
  - vm_compute. reflexivity.
  - vm_compute. reflexivity.
Defined.

End OccurrenceWitnesses.

(** ** Appointments generated from a template *)

Section GeneratedFacts.

Variable weeksOf : Duration -> Z.

Lemma wrap64_small (n : Z) : - 2 ^ 63 <= n < 2 ^ 63 -> wrap64 n = n.
Proof.
  unfold wrap64. change (2 ^ 63) with 9223372036854775808.
  change (2 ^ 64) with 18446744073709551616. intros H. divlia.
Qed.

(** The generated appointment ends [DurationMinutes] after it starts. *)
Lemma appointmentAt_times (ra : RecurringAppointment) (t : Time) :
  - 1440 <= DurationMinutes ra <= 1440 ->
  ScheduledStart (fst (appointmentAt ra t)) = t
  /\ instant (ScheduledEnd (fst (appointmentAt ra t)))
     = instant t + DurationMinutes ra * 60000000000.
Proof.
  intros H. unfold appointmentAt, Add. cbn [fst ScheduledStart ScheduledEnd instant].
  split; [reflexivity|].
  change Minute with 60000000000.
  rewrite (wrap64_small (DurationMinutes ra))
    by (change (2 ^ 63) with 9223372036854775808; lia).
  rewrite wrap64_small by (change (2 ^ 63) with 9223372036854775808; lia).
  reflexivity.
Qed.

(** X10. No appointment generated from a template whose [DurationMinutes]
    is below 60 (the template validation accepts 30 and more) can be
    created: [Create] rejects it and leaves the table as it was. *)
Theorem generated_short_rejected (now : Time) (ra : RecurringAppointment)
    (apps : list (Appointment * Z)) (a : Appointment) (rid : Z)
    (now' : Time) (db : DB) :
  0 <= DurationMinutes ra < 60 ->
  GenerateAppointments weeksOf now ra = Some apps ->
  In (a, rid) apps ->
  exists e, repository.Create now' a db = (Some e, db).
Proof.
  intros Hd Hgen Hin. unfold GenerateAppointments in Hgen.
  destruct (GenerateOccurrences weeksOf now ra) as [l|]; [|discriminate].
  injection Hgen as <-. apply in_map_iff in Hin as (t & E & _).
  destruct (appointmentAt_times ra t) as [Hs He]; [lia|].
  rewrite E in Hs, He. cbn [fst] in Hs, He.
  destruct (models.Validate a) as [e|] eqn:V.
  - exists e. apply Create_invalid. exact V.
  - exfalso. apply Validate_None in V. rewrite Hs in V. lia.
Qed.

(** X11. For a duration within what the template validation allows (at
    most 480 minutes), the appointments generated from one template come in
    order and never overlap one another: each ends before the next
    begins. *)
Theorem generated_disjoint (now : Time) (ra : RecurringAppointment)
    (apps : list (Appointment * Z)) :
  0 <= DurationMinutes ra <= 480 ->
  GenerateAppointments weeksOf now ra = Some apps ->
  StronglySorted
    (fun p q => instant (ScheduledEnd (fst p))
                <= instant (ScheduledStart (fst q))) apps.
Proof.
  intros Hd Hgen. unfold GenerateAppointments in Hgen.
  destruct (GenerateOccurrences weeksOf now ra) as [l|] eqn:G;
    [|discriminate].
  injection Hgen as <-. rewrite GenerateOccurrences_loop in G.
  apply loop_sorted in G.
  induction G as [|t l Hs IH Hall]; cbn [map]; constructor; [exact IH|].
  apply Forall_forall. intros q Hq. apply in_map_iff in Hq as (u & <- & Hu).
  rewrite Forall_forall in Hall. specialize (Hall u Hu).
  destruct (appointmentAt_times ra t) as [_ He]; [lia|].
  destruct (appointmentAt_times ra u) as [Hsu _]; [lia|].
  rewrite He, Hsu. change nsPerDay with 86400000000000 in Hall. lia.
Qed.

End GeneratedFacts.

Section GeneratedWitnesses.

Lemma generated_short_rejected_witness :
  exists e,
    repository.Create exampleNow (fst (appointmentAt shortTemplate (at1030 2)))
      [] = (Some e, []).
Proof.
  apply (generated_short_rejected exactWeeks exampleNow shortTemplate
           (map (appointmentAt shortTemplate)
              [at1030 2; at1030 4; at1030 9; at1030 11])
           _ (RID shortTemplate)).
  - vm_compute. split; [discriminate|reflexivity].
  - vm_compute. reflexivity.
  - left. reflexivity.
Defined.

Lemma generated_disjoint_witness :
  StronglySorted
    (fun p q => instant (ScheduledEnd (fst p))
                <= instant (ScheduledStart (fst q)))
    (map (appointmentAt weeklyTemplate)
       [at1030 2; at1030 4; at1030 9; at1030 11]).
Proof.
  apply (generated_disjoint exactWeeks exampleNow weeklyTemplate).
  - vm_compute. split; discriminate.
  - vm_compute. reflexivity.
Defined.

End GeneratedWitnesses.

(** ** The repository's writes and the no-double-booking invariant *)

Section BookingFacts.

Lemma nextID_pos (db : DB) : 0 < nextID db.
Proof.
  unfold nextID.
  assert (0 <= fold_right (fun r m => Z.max (ID r) m) 0 db); [|lia].
  induction db as [|r db IH]; cbn [fold_right]; lia.
Qed.

(** What a row that [HasConflict] passed over cannot do. *)
Lemma HasConflict_false_rows (a : Appointment) (db : DB) :
  HasConflict a db = false ->
  forall r, In r db -> DeletedAt r = None -> ID r <> ID a ->
    Status r <> StatusCancelled ->
    EmployeeID r = EmployeeID a \/ SupplierID r = SupplierID a ->
    overlapWhere a r = false.
Proof.
  unfold HasConflict, employeeConflicts, supplierConflicts.
  destruct (Z.of_nat (List.length (filter _ db)) >? 0) eqn:E1;
    [discriminate|].
  intros E2 r Hin Hd Hid Hst Hres.
  destruct (overlapWhere a r) eqn:O; [exfalso|reflexivity].
  apply live_iff in Hd. apply id_neq_iff in Hid.
  apply status_neq_iff in Hst.
  destruct Hres as [He|Hs].
  - apply Z.eqb_eq in He.
    assert (E : (Z.of_nat (List.length (filter (fun r0 =>
        live r0 && ((EmployeeID r0 =? EmployeeID a) && negb (ID r0 =? ID a))
        && negb (String.eqb (Status r0) StatusCancelled)
        && overlapWhere a r0) db)) >? 0) = true).
    { apply count_positive. exists r. split; [exact Hin|].
      rewrite Hd, He, Hid, Hst, O. reflexivity. }
    congruence.
  - apply Z.eqb_eq in Hs.
    assert (E : (Z.of_nat (List.length (filter (fun r0 =>
        live r0 && ((SupplierID r0 =? SupplierID a) && negb (ID r0 =? ID a))
        && negb (String.eqb (Status r0) StatusCancelled)
        && overlapWhere a r0) db)) >? 0) = true).
    { apply count_positive. exists r. split; [exact Hin|].
      rewrite Hd, Hs, Hid, Hst, O. reflexivity. }
    congruence.
Qed.

Lemma overlapWhere_false (a r : Appointment) :
  overlapWhere a r = false ->
  ~ (instant (ScheduledStart r) < instant (ScheduledEnd a)
     /\ instant (ScheduledStart a) < instant (ScheduledEnd r)).
Proof.
  unfold overlapWhere, rangeConditions. intros H [H1 H2].
  apply Z.ltb_lt in H1. apply Z.ltb_lt in H2. rewrite <- Z.gtb_ltb in H2.
  rewrite H1, H2 in H. discriminate.
Qed.

(** A row the conflict check of [a] passed over does not overlap a booking
    with [a]'s columns. *)
Lemma passed_over (a a' : Appointment) (db : DB) (r : Appointment) :
  HasConflict a db = false -> sameBooking a a' ->
  In r db -> ID r <> ID a -> active r -> sameResource r a' ->
  ~ overlap r a' /\ ~ overlap a' r.
Proof.
  intros HC (Hs & He & _ & _ & Hst & Hen & _) Hin Hid [Hd Hc] Hres.
  assert (O : overlapWhere a r = false).
  { apply (HasConflict_false_rows a db HC r Hin Hd Hid Hc).
    unfold sameResource in Hres. rewrite He, Hs in Hres. exact Hres. }
  apply overlapWhere_false in O. unfold overlap. rewrite Hst, Hen.
  split; intros [H1 H2]; apply O; split; assumption.
Qed.

(** The row a successful insert adds. *)
Lemma gormCreate_success (now : Time) (a : Appointment) (db db' : DB) :
  gormCreate now a db = (None, db') ->
  exists a',
    db' = db ++ [a'] /\ sameBooking a a'
    /\ Status a' = storedStatus a
    /\ ID a' = (if ID a =? 0 then nextID db else ID a)
    /\ forall r, In r db -> ID r <> ID a'.
Proof.
  unfold gormCreate.
  set (a0 := if ID a =? 0 then setID a (nextID db) else a).
  assert (H0 : sameBooking a a0 /\ Status a0 = Status a
               /\ ID a0 = (if ID a =? 0 then nextID db else ID a)).
  { unfold a0, sameBooking. destruct (ID a =? 0); cbn; tauto. }
  destruct H0 as (Hb & Hst & Hid).
  destruct (existsb (fun r => ID r =? ID a0) db) eqn:EX; [discriminate|].
  intros [= <-].
  set (a1 := if String.eqb (Status a0) EmptyString
             then setStatus a0 StatusPending else a0).
  assert (H1 : sameBooking a0 a1 /\ Status a1 = storedStatus a
               /\ ID a1 = ID a0).
  { unfold a1, sameBooking, storedStatus. rewrite Hst.
    destruct (String.eqb (Status a) EmptyString); cbn; tauto. }
  destruct H1 as (Hb1 & Hst1 & Hid1).
  set (a2 := if IsZero (CreatedAt a1) then setCreatedAt a1 now else a1).
  set (a3 := if IsZero (UpdatedAt a2) then setUpdatedAt a2 now else a2).
  assert (H2 : sameBooking a1 a3 /\ Status a3 = Status a1
               /\ ID a3 = ID a1).
  { unfold a3, a2, sameBooking.
    destruct (IsZero (CreatedAt a1)); cbn;
      match goal with
      | |- context [if ?c then _ else _] => destruct c
      end; cbn; tauto. }
  destruct H2 as (Hb2 & Hst2 & Hid2).
  exists a3. split; [reflexivity|]. split.
  { unfold sameBooking in *.
    destruct Hb as (? & ? & ? & ? & ? & ? & ? & ? & ?).
    destruct Hb1 as (? & ? & ? & ? & ? & ? & ? & ? & ?).
    destruct Hb2 as (? & ? & ? & ? & ? & ? & ? & ? & ?).
    repeat split; congruence. }
  split; [congruence|]. split; [congruence|].
  intros r Hin E. rewrite Hid2, Hid1 in E.
  assert (existsb (fun r => ID r =? ID a0) db = true); [|congruence].
  apply existsb_exists. exists r. split; [exact Hin|]. apply Z.eqb_eq.
  exact E.
Qed.

Lemma Create_success (now : Time) (a : Appointment) (db db' : DB) :
  Create now a db = (None, db') ->
  models.Validate a = None /\ HasConflict a db = false
  /\ gormCreate now a db = (None, db').
Proof.
  unfold Create. destruct (models.Validate a); [discriminate|].
  destruct (HasConflict a db); [discriminate|]. auto.
Qed.

Lemma find_fresh (id : Z) (a' : Appointment) (db : DB) :
  (forall r, In r db -> ID r <> id) -> live a' = true -> ID a' = id ->
  find (fun r => live r && (ID r =? id)) (db ++ [a']) = Some a'.
Proof.
  intros Hfresh Hl Hid. induction db as [|r db IH]; cbn [app find].
  - rewrite Hl, Hid, Z.eqb_refl. reflexivity.
  - assert (E : (ID r =? id) = false)
      by (apply Z.eqb_neq; apply Hfresh; left; reflexivity).
    rewrite E, andb_false_r. apply IH. intros r0 Hr0. apply Hfresh.
    right. exact Hr0.
Qed.

(** X12. A successful [Create] means the appointment passed validation
    and the conflict check, and appends one row with the appointment's
    columns, its status pending when it came with none, under a non-zero
    key no other row has, its own when it came with one; [FindByID] of that
    key then returns the row. *)
Theorem Create_stores (now : Time) (a : Appointment) (db db' : DB) :
  Create now a db = (None, db') -> DeletedAt a = None ->
  models.Validate a = None /\ HasConflict a db = false
  /\ exists a',
       db' = db ++ [a'] /\ sameBooking a a'
       /\ Status a' = storedStatus a
       /\ ID a' <> 0 /\ (ID a <> 0 -> ID a' = ID a)
       /\ (forall r, In r db -> ID r <> ID a')
       /\ FindByID (ID a') db' = inr a'.
Proof.
  intros H Hlive. apply Create_success in H as (V & HC & G).
  split; [exact V|]. split; [exact HC|].
  apply gormCreate_success in G as (a' & -> & Hb & Hst & Hid & Hfresh).
  exists a'. split; [reflexivity|]. split; [exact Hb|].
  split; [exact Hst|].
  split.
  { rewrite Hid. destruct (Z.eqb_spec (ID a) 0) as [E|E]; [|exact E].
    pose proof (nextID_pos db). lia. }
  split.
  { intros Hne. rewrite Hid.
    destruct (Z.eqb_spec (ID a) 0); [contradiction|reflexivity]. }
  split; [exact Hfresh|].
  unfold FindByID. rewrite (find_fresh (ID a') a' db Hfresh);
    [reflexivity| |reflexivity].
  unfold live. destruct Hb as (_ & _ & _ & _ & _ & _ & Hd & _).
  rewrite Hd, Hlive. reflexivity.
Qed.

(** X13. [Create] keeps the table free of double bookings: if no two
    active appointments of the same employee or supplier overlap before a
    successful [Create], none do after it; keys stay non-zero. *)
Theorem Create_noDoubleBooking (now : Time) (a : Appointment)
    (db db' : DB) :
  keyed db -> noDoubleBooking db ->
  Create now a db = (None, db') ->
  noDoubleBooking db' /\ keyed db'.
Proof.
  intros Hk Hinv H. apply Create_success in H as (V & HC & G).
  apply gormCreate_success in G as (a' & -> & Hb & _ & Hid & Hfresh).
  assert (Hold : forall r, In r db -> ID r <> ID a).
  { intros r Hr. destruct (Z.eqb_spec (ID a) 0) as [E|E].
    - rewrite E. apply Hk. exact Hr.
    - rewrite <- Hid. apply Hfresh. exact Hr. }
  split.
  - intros r1 r2 H1 H2 Hne A1 A2 SR.
    apply in_app_iff in H1, H2. cbn [In] in H1, H2.
    destruct H1 as [H1|[<-|[]]], H2 as [H2|[<-|[]]].
    + apply (Hinv r1 r2); assumption.
    + apply (passed_over a a' db r1 HC Hb H1 (Hold r1 H1) A1 SR).
    + apply (passed_over a a' db r2 HC Hb H2 (Hold r2 H2) A2).
      unfold sameResource in *. intuition congruence.
    + congruence.
  - intros r Hr. apply in_app_iff in Hr. cbn [In] in Hr.
    destruct Hr as [Hr|[<-|[]]]; [apply Hk; exact Hr|].
    rewrite Hid. pose proof (nextID_pos db).
    destruct (Z.eqb_spec (ID a) 0); lia.
Qed.




End BookingFacts.

Section BookingWitnesses.

Lemma Create_stores_witness :
  models.Validate bareSlot = None /\ HasConflict bareSlot bookedTable = false
  /\ exists a',
       bookedTable ++ [setStatus (setID bareSlot 2) StatusPending]
       = bookedTable ++ [a']
       /\ sameBooking bareSlot a'
       /\ Status a' = storedStatus bareSlot
       /\ ID a' <> 0 /\ (ID bareSlot <> 0 -> ID a' = ID bareSlot)
       /\ (forall r, In r bookedTable -> ID r <> ID a')
       /\ FindByID (ID a')
            (bookedTable ++ [setStatus (setID bareSlot 2) StatusPending])
          = inr a'.
Proof.
  apply (Create_stores exampleNow bareSlot bookedTable).
  - vm_compute. reflexivity.
  - reflexivity.
Defined.

Lemma bookedTable_invariant : keyed bookedTable /\ noDoubleBooking bookedTable.
Proof.
  split.
  - intros r [<-|[]]. discriminate.
  - intros r1 r2 [<-|[]] [<-|[]] Hne. congruence.
Qed.

Lemma Create_noDoubleBooking_witness :
  noDoubleBooking (bookedTable ++ [setID lunchSlot 2])
  /\ keyed (bookedTable ++ [setID lunchSlot 2]).
Proof.
  apply (Create_noDoubleBooking exampleNow lunchSlot bookedTable).
  - apply bookedTable_invariant.
  - apply bookedTable_invariant.
  - vm_compute. reflexivity.
Defined.



End BookingWitnesses.

(** ** Status changes, deletion and what they leave alone *)

Section FrameFacts.

Lemma find_map_other (id id' : Z) (a' : Appointment) (db : DB) :
  id' <> id -> ID a' = id ->
  find (fun r => live r && (ID r =? id'))
    (map (fun r => if ID r =? id then a' else r) db)
  = find (fun r => live r && (ID r =? id')) db.
Proof.
  intros Hne Hid. induction db as [|r db IH]; [reflexivity|].
  cbn [map find]. destruct (Z.eqb_spec (ID r) id) as [E|E].
  - assert (E1 : (ID a' =? id') = false) by (apply Z.eqb_neq; lia).
    assert (E2 : (ID r =? id') = false) by (apply Z.eqb_neq; lia).
    rewrite E1, E2, !andb_false_r. exact IH.
  - destruct (live r && (ID r =? id')); [reflexivity|exact IH].
Qed.

(** The table after a successful [UpdateStatus], and the row put in. *)
Lemma UpdateStatus_rows (now : Time) (id : Z) (status : AppointmentStatus)
    (reason : string) (db db' : DB) :
  repository.UpdateStatus now id status reason db = (None, db') ->
  exists a a',
    FindByID id db = inr a
    /\ db' = map (fun r => if ID r =? id then a' else r) db
    /\ sameSlot a a' /\ Status a' = status
    /\ (status <> StatusConfirmed -> ConfirmedAt a' = ConfirmedAt a)
    /\ (status <> StatusCancelled ->
        CancelledAt a' = CancelledAt a
        /\ CancellationReason a' = CancellationReason a)
    /\ (status <> StatusCompleted -> CompletedAt a' = CompletedAt a).
Proof.
  unfold repository.UpdateStatus.
  destruct (FindByID id db) as [e|a] eqn:F; [discriminate|].
  pose proof (FindByID_In _ _ _ F) as (Hin & Hdel & Hid).
  set (a1 := if String.eqb status StatusConfirmed then _ else _).
  unfold gormSave. cbv zeta.
  change (ID (setUpdatedAt a1 now)) with (ID a1).
  assert (Hid1 : ID a1 = id).
  { unfold a1. destruct (String.eqb status StatusConfirmed);
      [|destruct (String.eqb status StatusCancelled);
        [|destruct (String.eqb status StatusCompleted)]]; exact Hid. }
  rewrite Hid1.
  assert (Hex : existsb (fun r => ID r =? id) db = true).
  { apply existsb_exists. exists a. split; [assumption|].
    rewrite Hid. apply Z.eqb_refl. }
  rewrite Hex. intros [= <-].
  exists a, (setUpdatedAt a1 now). split; [reflexivity|].
  split; [reflexivity|].
  unfold a1, sameSlot.
  destruct (String.eqb_spec status StatusConfirmed) as [E1|E1];
    [|destruct (String.eqb_spec status StatusCancelled) as [E2|E2];
      [|destruct (String.eqb_spec status StatusCompleted) as [E3|E3]]];
    cbn; subst; repeat split; intros; try reflexivity;
    try discriminate; congruence.
Qed.

(** X16. A successful [UpdateStatus] touches one appointment only: every
    other id reads as before; of the appointment itself the key, the
    references, the times, quantity and notes stay, and so do the
    timestamps and the cancellation reason that do not belong to the new
    status (confirming keeps [CancelledAt], cancelling keeps
    [ConfirmedAt]). *)
Theorem UpdateStatus_frame (now : Time) (id : Z)
    (status : AppointmentStatus) (reason : string) (db db' : DB) :
  repository.UpdateStatus now id status reason db = (None, db') ->
  (forall id', id' <> id -> FindByID id' db' = FindByID id' db)
  /\ exists a a',
       FindByID id db = inr a /\ FindByID id db' = inr a'
       /\ sameSlot a a'
       /\ (status <> StatusConfirmed -> ConfirmedAt a' = ConfirmedAt a)
       /\ (status <> StatusCancelled ->
           CancelledAt a' = CancelledAt a
           /\ CancellationReason a' = CancellationReason a)
       /\ (status <> StatusCompleted -> CompletedAt a' = CompletedAt a).
Proof.
  intros H.
  apply UpdateStatus_rows in H
    as (a & a' & F & -> & Hs & Hst & H1 & H2 & H3).
  pose proof (FindByID_In _ _ _ F) as (Hin & Hdel & Hid).
  destruct Hs as (Hi & Hc & Hd & Hrest).
  split.
  - intros id' Hne. unfold FindByID.
    rewrite find_map_other; [reflexivity|exact Hne|congruence].
  - exists a, a'. split; [exact F|]. split.
    + unfold FindByID. rewrite find_replaced; [reflexivity| | |].
      * unfold live. rewrite Hd, Hdel. reflexivity.
      * congruence.
      * exists a. auto.
    + unfold sameSlot. tauto.
Qed.

(** Conflict counts see a table whose rows of key [id] were turned
    inactive as the table without those rows. *)
Lemma filter_without (p : Appointment -> bool) (f : Appointment -> Appointment)
    (id : Z) (db : DB) :
  (forall r, ID r = id -> p (f r) = false) ->
  (forall r, ID r <> id -> f r = r) ->
  List.length (filter p (map f db))
  = List.length (filter p (without id db)).
Proof.
  intros H1 H2. unfold without.
  induction db as [|r db IH]; [reflexivity|].
  cbn [map filter]. destruct (Z.eqb_spec (ID r) id) as [E|E]; cbn [negb].
  - rewrite (H1 r E). exact IH.
  - rewrite (H2 r E). cbn [filter].
    destruct (p r); cbn [List.length]; rewrite IH; reflexivity.
Qed.

Lemma HasConflict_without (a : Appointment)
    (f : Appointment -> Appointment) (id : Z) (db : DB) :
  (forall r, ID r = id ->
     live (f r) && negb (String.eqb (Status (f r)) StatusCancelled) = false) ->
  (forall r, ID r <> id -> f r = r) ->
  HasConflict a (map f db) = HasConflict a (without id db).
Proof.
  intros H1 H2. unfold HasConflict, employeeConflicts, supplierConflicts.
  rewrite !(filter_without _ f id db); try assumption; try reflexivity;
    intros r Hr; specialize (H1 r Hr);
    destruct (live (f r)), (String.eqb (Status (f r)) StatusCancelled);
    try discriminate; cbn; rewrite ?andb_false_r; reflexivity.
Qed.

Lemma Delete_find_same (now : Time) (id : Z) (db : DB) :
  find (fun r => live r && (ID r =? id)) (snd (Delete now id db)) = None.
Proof.
  unfold Delete. cbn [snd].
  induction db as [|r db IH]; [reflexivity|]. cbn [map find].
  destruct (live r && (ID r =? id)) eqn:C.
  - change (live (setDeletedAt r (Some now))) with false. exact IH.
  - rewrite C. exact IH.
Qed.

Lemma Delete_find_other (now : Time) (id id' : Z) (db : DB) :
  id' <> id ->
  find (fun r => live r && (ID r =? id')) (snd (Delete now id db))
  = find (fun r => live r && (ID r =? id')) db.
Proof.
  intros Hne. unfold Delete. cbn [snd].
  induction db as [|r db IH]; [reflexivity|]. cbn [map find].
  destruct (live r && (ID r =? id)) eqn:C.
  - apply andb_true_iff in C as [L E]. apply Z.eqb_eq in E.
    change (live (setDeletedAt r (Some now))) with false. cbn [andb].
    assert (E2 : (ID r =? id') = false) by (apply Z.eqb_neq; lia).
    rewrite E2, andb_false_r. exact IH.
  - destruct (live r && (ID r =? id')); [reflexivity|exact IH].
Qed.

(** X17. After [Delete] the appointment is gone for the repository:
    [FindByID] and [UpdateStatus] of its id answer not found, every other id
    reads as before, and deleting it a second time changes nothing. *)
Theorem Delete_removes (now now' : Time) (id : Z) (db : DB) :
  FindByID id (snd (Delete now id db)) = inl errNotFound
  /\ (forall status reason,
        repository.UpdateStatus now' id status reason (snd (Delete now id db))
        = (Some errNotFound, snd (Delete now id db)))
  /\ (forall id', id' <> id ->
        FindByID id' (snd (Delete now id db)) = FindByID id' db)
  /\ snd (Delete now' id (snd (Delete now id db))) = snd (Delete now id db).
Proof.
  assert (F : FindByID id (snd (Delete now id db)) = inl errNotFound)
    by (unfold FindByID; rewrite Delete_find_same; reflexivity).
  split; [exact F|]. split; [|split].
  - intros status reason. unfold repository.UpdateStatus. rewrite F.
    reflexivity.
  - intros id' Hne. unfold FindByID.
    rewrite Delete_find_other by exact Hne. reflexivity.
  - unfold Delete. cbn [snd]. rewrite map_map.
    apply map_ext. intros r.
    destruct (live r && (ID r =? id)) eqn:E; [reflexivity|].
    rewrite E. reflexivity.
Qed.

(** X18. Deleting an appointment frees its slot: after [Delete],
    [HasConflict] answers for every candidate as it would on the table
    without the rows of that id. *)
Theorem Delete_frees_slot (now : Time) (id : Z) (db : DB)
    (a : Appointment) :
  HasConflict a (snd (Delete now id db)) = HasConflict a (without id db).
Proof.
  unfold Delete. cbn [snd]. apply HasConflict_without.
  - intros r Hr. destruct (live r) eqn:L; cbn [andb].
    + apply Z.eqb_eq in Hr. rewrite Hr. reflexivity.
    + rewrite L. reflexivity.
  - intros r Hr. apply Z.eqb_neq in Hr. rewrite Hr, andb_false_r.
    reflexivity.
Qed.

(** X19. Cancelling an appointment frees its slot: after a successful
    [UpdateStatus] to cancelled, [HasConflict] answers for every candidate
    as it would on the table without the rows of that id. *)
Theorem cancel_frees_slot (now : Time) (id : Z) (reason : string)
    (db db' : DB) (a : Appointment) :
  repository.UpdateStatus now id StatusCancelled reason db = (None, db') ->
  HasConflict a db' = HasConflict a (without id db).
Proof.
  intros H.
  apply UpdateStatus_rows in H as (a0 & a' & F & -> & Hs & Hst & _).
  apply HasConflict_without.
  - intros r Hr. apply Z.eqb_eq in Hr. rewrite Hr, Hst.
    apply andb_false_r.
  - intros r Hr. apply Z.eqb_neq in Hr. rewrite Hr. reflexivity.
Qed.

(** X20. A write that fails persists nothing: when [Create], [Update] or
    [UpdateStatus] returns an error, the table is as it was. *)
Theorem failed_write_keeps_table (now : Time) (a : Appointment) (id : Z)
    (status : AppointmentStatus) (reason : string) (db db' : DB)
    (e : error) :
  (Create now a db = (Some e, db') -> db' = db)
  /\ (Update now a db = (Some e, db') -> db' = db)
  /\ (repository.UpdateStatus now id status reason db = (Some e, db') ->
      db' = db).
Proof.
  split; [|split].
  - unfold Create, gormCreate.
    destruct (models.Validate a); [intros [= _ <-]; reflexivity|].
    destruct (HasConflict a db); [intros [= _ <-]; reflexivity|].
    cbv zeta. destruct (existsb _ db); [intros [= _ <-]; reflexivity|].
    discriminate.
  - unfold Update, gormSave.
    destruct (models.Validate a); [intros [= _ <-]; reflexivity|].
    destruct (FindByID (ID a) db); [intros [= _ <-]; reflexivity|].
    cbv zeta.
    destruct (_ || _); [destruct (HasConflict a db);
                        [intros [= _ <-]; reflexivity|]|];
      destruct (existsb _ db); discriminate.
  - unfold repository.UpdateStatus, gormSave.
    destruct (FindByID id db); [intros [= _ <-]; reflexivity|].
    cbv zeta. destruct (existsb _ db); discriminate.
Qed.

End FrameFacts.

Section FrameWitnesses.

Lemma UpdateStatus_frame_witness :
  (forall id', id' <> 1 ->
     FindByID id' [setUpdatedAt
                     (setConfirmedAt (exampleRow 1 StatusConfirmed)
                        (Some exampleNow)) exampleNow]
     = FindByID id' [exampleRow 1 StatusPending])
  /\ exists a a',
       FindByID 1 [exampleRow 1 StatusPending] = inr a
       /\ FindByID 1 [setUpdatedAt
                        (setConfirmedAt (exampleRow 1 StatusConfirmed)
                           (Some exampleNow)) exampleNow] = inr a'
       /\ sameSlot a a'
       /\ (StatusConfirmed <> StatusConfirmed ->
           ConfirmedAt a' = ConfirmedAt a)
       /\ (StatusConfirmed <> StatusCancelled ->
           CancelledAt a' = CancelledAt a
           /\ CancellationReason a' = CancellationReason a)
       /\ (StatusConfirmed <> StatusCompleted ->
           CompletedAt a' = CompletedAt a).
Proof.
  apply (UpdateStatus_frame exampleNow 1 StatusConfirmed "").
  reflexivity.
Defined.

Lemma cancel_frees_slot_witness :
  HasConflict (exampleSlot 0 10 11)
    [setUpdatedAt
       (setCancellationReason
          (setCancelledAt (exampleRow 1 StatusCancelled) (Some exampleNow))
          "late") exampleNow]
  = HasConflict (exampleSlot 0 10 11) (without 1 bookedTable).
Proof.
  apply (cancel_frees_slot exampleNow 1 "late" bookedTable).
  reflexivity.
Defined.

Lemma failed_write_keeps_table_witness :
  Create exampleNow (exampleSlot 0 10 11) bookedTable
  = (Some errConflict, bookedTable)
  /\ bookedTable = bookedTable.
Proof.
  split; [reflexivity|].
  apply (proj1 (failed_write_keeps_table exampleNow (exampleSlot 0 10 11) 1
                  StatusPending "" bookedTable bookedTable errConflict)).
  reflexivity.
Defined.

End FrameWitnesses.

(** ** The status-change endpoint and the service *)

Section EndpointFacts.

(** X21. The status-change endpoint changes the table only for a user the
    permission check grants the change to: whatever the service does, a
    table that differs after the call means the appointment was found and
    the change was permitted. *)
Theorem UpdateStatus_needs_permission
    (svc : Z -> AppointmentStatus -> string -> DB -> option error * DB)
    (user : User) (id : Z) (req : UpdateStatusRequest) (db db' : DB)
    (code : Z) :
  handlers.UpdateStatus svc user id req db = (code, db') ->
  db' <> db ->
  exists a,
    FindByID id db = inr a
    /\ hasStatusChangePermission user a (ReqStatus req) = true.
Proof.
  unfold handlers.UpdateStatus.
  destruct (FindByID id db) as [e|a]; [intros [= _ <-] H; contradiction|].
  destruct (hasStatusChangePermission user a (ReqStatus req)) eqn:P;
    cbn [negb]; [|intros [= _ <-] H; contradiction].
  intros _ _. exists a. auto.
Qed.

Lemma UpdateStatus_needs_permission_witness :
  exists a,
    FindByID 1 [exampleRow 1 StatusCancelled] = inr a
    /\ hasStatusChangePermission adminUser a
         (ReqStatus (mkUpdateStatusRequest StatusPending "")) = true.
Proof.
  apply (UpdateStatus_needs_permission (repository.UpdateStatus exampleNow)
           adminUser 1 (mkUpdateStatusRequest StatusPending "")
           [exampleRow 1 StatusCancelled]
           [setUpdatedAt (exampleRow 1 StatusPending) exampleNow]
           StatusOK).
  - reflexivity.
  - intros H. apply (f_equal (map Status)) in H. vm_compute in H.
    discriminate H.
Defined.

Lemma timeOfDay_instant (t : Time) :
  instant (service.timeOfDay t)
  = (730119 * 86400 + service.clockOffset t) * 1000000000.
Proof.
  unfold service.timeOfDay, service.clockOffset.
  rewrite Date_unfold.
  - cbn [instant]. change (civilDays 2000 1 1) with 730119. lia.
  - lia.
  - lia.
  - lia.
  - unfold MinuteOf. divlia.
  - unfold HourOf, secondOfDay, secondsPerDay. divlia.
Qed.

Lemma clockOffset_minuteOfDay (t u : Time) :
  zone t = zone u ->
  (service.clockOffset t <? service.clockOffset u)
  = (service.minuteOfDay t <? service.minuteOfDay u).
Proof.
  intros Hz. unfold service.clockOffset, service.minuteOfDay. rewrite Hz.
  destruct (Z.ltb_spec (HourOf t * 60 + MinuteOf t)
              (HourOf u * 60 + MinuteOf u));
    [apply Z.ltb_lt | apply Z.ltb_ge]; lia.
Qed.

(** X22. For an appointment whose start and end are in the location of
    the operation's opening and closing hours, the operation-hours check of
    the service compares the hour and the minute of the wall clock only: it
    rejects exactly when the start's hour and minute lie before the
    opening's or the end's lie after the closing's.  The date and the
    seconds play no part. *)
Theorem outsideHours_clock (operation : service.Operation)
    (a : Appointment) :
  zone (ScheduledStart a) = zone (service.OpeningHour operation) ->
  zone (ScheduledEnd a) = zone (service.ClosingHour operation) ->
  service.outsideHours operation a
  = (service.minuteOfDay (ScheduledStart a)
       <? service.minuteOfDay (service.OpeningHour operation))
    || (service.minuteOfDay (service.ClosingHour operation)
          <? service.minuteOfDay (ScheduledEnd a)).
Proof.
  intros Hs He.
  rewrite <- (clockOffset_minuteOfDay _ _ Hs).
  rewrite <- (clockOffset_minuteOfDay _ _ (eq_sym He)).
  unfold service.outsideHours, Before, After. cbv zeta.
  rewrite !timeOfDay_instant.
  f_equal.
  - destruct (Z.ltb_spec (service.clockOffset (ScheduledStart a))
                (service.clockOffset (service.OpeningHour operation)));
      [apply Z.ltb_lt | apply Z.ltb_ge]; lia.
  - destruct (Z.ltb_spec (service.clockOffset (service.ClosingHour operation))
                (service.clockOffset (ScheduledEnd a)));
      [apply Z.ltb_lt | apply Z.ltb_ge]; lia.
Qed.

Variable supplierFindByID : Z -> option error.
Variable employeeFindByID : Z -> option error.
Variable operationFindByID : Z -> error + service.Operation.
Variable productFindByID : Z -> option error.

(** X23. A successful [Create] of the service means that supplier,
    employee, operation and product were all found, that the times of day
    lie within the operation's hours, and that the repository stored the
    appointment, as one new row, with status pending when it came with
    none. *)
Theorem service_Create_success (now : Time) (a : Appointment)
    (db db' : DB) :
  service.Create supplierFindByID employeeFindByID operationFindByID
    productFindByID now a db = (None, db') ->
  supplierFindByID (SupplierID a) = None
  /\ employeeFindByID (EmployeeID a) = None
  /\ productFindByID (ProductID a) = None
  /\ (exists operation,
        operationFindByID (OperationID a) = inr operation
        /\ service.outsideHours operation a = false)
  /\ exists a',
       db' = db ++ [a']
       /\ Status a' = (if String.eqb (Status a) EmptyString
                       then StatusPending else Status a)
       /\ ScheduledStart a' = ScheduledStart a
       /\ ScheduledEnd a' = ScheduledEnd a
       /\ EmployeeID a' = EmployeeID a /\ SupplierID a' = SupplierID a.
Proof.
  unfold service.Create.
  destruct (supplierFindByID (SupplierID a)); [discriminate|].
  destruct (employeeFindByID (EmployeeID a)); [discriminate|].
  destruct (operationFindByID (OperationID a)) as [e|operation];
    [discriminate|].
  destruct (productFindByID (ProductID a)); [discriminate|].
  destruct (service.outsideHours operation a) eqn:O; [discriminate|].
  intros H. apply Create_success in H as (_ & _ & G).
  apply gormCreate_success in G as (a' & -> & Hb & Hstatus & _).
  repeat split; try reflexivity.
  - exists operation. auto.
  - exists a'. split; [reflexivity|].
    destruct Hb as (Hs & He & _ & _ & Hst & Hen & _).
    unfold storedStatus, service.setStatusIfEmpty in *.
    destruct (String.eqb (Status a) EmptyString) eqn:E; cbn in *;
      [|rewrite E in Hstatus]; auto.
Qed.

End EndpointFacts.

Section ServiceWitness.

Lemma outsideHours_clock_witness :
  service.outsideHours dayOperation multiDaySlot
  = (service.minuteOfDay (ScheduledStart multiDaySlot)
       <? service.minuteOfDay (service.OpeningHour dayOperation))
    || (service.minuteOfDay (service.ClosingHour dayOperation)
          <? service.minuteOfDay (ScheduledEnd multiDaySlot)).
Proof.
  apply (outsideHours_clock dayOperation multiDaySlot); reflexivity.
Defined.

Lemma service_Create_success_witness :
  found (SupplierID bareSlot) = None
  /\ found (EmployeeID bareSlot) = None
  /\ found (ProductID bareSlot) = None
  /\ (exists operation,
        foundOperation (OperationID bareSlot) = inr operation
        /\ service.outsideHours operation bareSlot = false)
  /\ exists a',
       bookedTable ++ [setID (setStatus bareSlot StatusPending) 2]
       = bookedTable ++ [a']
       /\ Status a' = (if String.eqb (Status bareSlot) EmptyString
                       then StatusPending else Status bareSlot)
       /\ ScheduledStart a' = ScheduledStart bareSlot
       /\ ScheduledEnd a' = ScheduledEnd bareSlot
       /\ EmployeeID a' = EmployeeID bareSlot
       /\ SupplierID a' = SupplierID bareSlot.
Proof.
  apply (service_Create_success found found foundOperation found exampleNow
           bareSlot bookedTable).
  vm_compute. reflexivity.
Defined.

End ServiceWitness.

(** ** Availability slots *)

Section SlotFacts.

Lemma stringGe_stringLe (s t : string) :
  slots.stringGe s t = slots.stringLe t s.
Proof.
  unfold slots.stringGe, slots.stringLe.
  rewrite (String.compare_antisym t s).
  destruct (String.compare s t); reflexivity.
Qed.

(** X24. Overlap of availability slots is symmetric. *)
Theorem OverlapsWith_sym (a b : slots.AvailabilitySlot) :
  slots.OverlapsWith a b = slots.OverlapsWith b a.
Proof.
  unfold slots.OverlapsWith.
  rewrite (Z.eqb_sym (slots.DayOfWeek b) (slots.DayOfWeek a)).
  destruct (slots.DayOfWeek a =? slots.DayOfWeek b); cbn [negb];
    [|reflexivity].
  rewrite !stringGe_stringLe.
  rewrite (orb_comm (slots.stringLe (slots.EndTime b) (slots.StartTime a))).
  destruct (slots.IsRecurring a), (slots.IsRecurring b); cbn [negb andb];
    try reflexivity.
  destruct (slots.SpecificDate a) as [d|], (slots.SpecificDate b) as [d'|];
    try reflexivity.
  unfold Equal. rewrite (Z.eqb_sym (instant d') (instant d)). reflexivity.
Qed.

Lemma digit_compare (x y : Z) :
  0 <= x <= 9 -> 0 <= y <= 9 ->
  Ascii.compare (slots.digit x) (slots.digit y) = Z.compare x y.
Proof.
  intros Hx Hy. unfold Ascii.compare, slots.digit.
  rewrite !N_ascii_embedding by lia.
  rewrite Z2N.inj_compare by lia.
  apply Z.add_compare_mono_l.
Qed.

Lemma clock_compare (h m h' m' : Z) :
  0 <= h <= 99 -> 0 <= m <= 59 -> 0 <= h' <= 99 -> 0 <= m' <= 59 ->
  String.compare (slots.clock h m) (slots.clock h' m')
  = Z.compare (h * 60 + m) (h' * 60 + m').
Proof.
  intros Hh Hm Hh' Hm'. unfold slots.clock. cbn [String.compare].
  rewrite !digit_compare by divlia.
  change (Ascii.compare ":" ":") with Eq.
  symmetry.
  destruct (Z.compare_spec (h / 10) (h' / 10));
    [destruct (Z.compare_spec (h mod 10) (h' mod 10));
     [destruct (Z.compare_spec (m / 10) (m' / 10));
      [destruct (Z.compare_spec (m mod 10) (m' mod 10))|..]|..]|..];
    first [apply Z.compare_eq_iff | apply Z.compare_lt_iff
          | apply Z.compare_gt_iff]; divlia.
Qed.

(** X25. On zero-padded ["HH:MM"] strings the string comparison of
    [OverlapsWith] is the comparison of the times of day: two recurring
    slots of one weekday overlap exactly when each starts before the other
    ends, so slots that only touch do not overlap. *)
Theorem OverlapsWith_clock (a b : slots.AvailabilitySlot)
    (sh sm eh em sh' sm' eh' em' : Z) :
  0 <= sh <= 99 -> 0 <= sm <= 59 -> 0 <= eh <= 99 -> 0 <= em <= 59 ->
  0 <= sh' <= 99 -> 0 <= sm' <= 59 -> 0 <= eh' <= 99 -> 0 <= em' <= 59 ->
  slots.StartTime a = slots.clock sh sm ->
  slots.EndTime a = slots.clock eh em ->
  slots.StartTime b = slots.clock sh' sm' ->
  slots.EndTime b = slots.clock eh' em' ->
  slots.DayOfWeek a = slots.DayOfWeek b ->
  slots.IsRecurring a = true ->
  slots.OverlapsWith a b
  = (sh * 60 + sm <? eh' * 60 + em') && (sh' * 60 + sm' <? eh * 60 + em).
Proof.
  intros H1 H2 H3 H4 H5 H6 H7 H8 Sa Ea Sb Eb D R.
  unfold slots.OverlapsWith.
  rewrite D, Z.eqb_refl, R, Sa, Ea, Sb, Eb. cbn [negb andb].
  unfold slots.stringLe, slots.stringGe.
  rewrite !clock_compare by assumption.
  rewrite negb_orb, andb_comm. unfold Z.ltb.
  rewrite (Z.compare_antisym (sh' * 60 + sm') (eh * 60 + em)).
  destruct (Z.compare (sh * 60 + sm) (eh' * 60 + em'));
    destruct (Z.compare (sh' * 60 + sm') (eh * 60 + em)); reflexivity.
Qed.

End SlotFacts.

Section SlotWitnesses.

Lemma OverlapsWith_clock_witness :
  slots.OverlapsWith mondayMorning mondayNoon
  = (8 * 60 + 0 <? 13 * 60 + 15) && (11 * 60 + 30 <? 12 * 60 + 0).
Proof.
  apply (OverlapsWith_clock mondayMorning mondayNoon 8 0 12 0 11 30 13 15);
    first [lia | reflexivity].
Defined.

End SlotWitnesses.

(** ** The stored form of weekdays and exclusion dates *)

Section StoredFormFacts.

Variable formatRFC3339 : Time -> string.
Variable parseRFC3339 : string -> option Time.

Lemma weekDaysOfRune_acc (l : list Z) (acc : list WeekDay) :
  fold_left weekDaysOfRune l acc = acc ++ fold_left weekDaysOfRune l [].
Proof.
  revert acc. induction l as [|c l IH]; intros acc; cbn [fold_left].
  - rewrite app_nil_r. reflexivity.
  - rewrite (IH (weekDaysOfRune acc c)), (IH (weekDaysOfRune [] c)).
    unfold weekDaysOfRune. destruct (negb (c =? 44)).
    + rewrite <- app_assoc. reflexivity.
    + rewrite app_nil_l. reflexivity.
Qed.

(** X26. [AfterFind] appends: the weekdays of the record after the hook
    are those it held before, followed by those the stored string decodes
    to.  Loading into a record that already holds weekdays doubles them. *)
Theorem AfterFind_appends_weekdays (ra : RecurringAppointment) :
  WeekDays (snd (AfterFind parseRFC3339 ra))
  = WeekDays ra ++ decodeWeekDays [] (WeekDaysString ra).
Proof.
  rewrite AfterFind_WeekDays.
  destruct (String.eqb_spec (WeekDaysString ra) EmptyString) as [E|E];
    cbn [negb].
  - rewrite E. cbn. rewrite app_nil_r. reflexivity.
  - unfold decodeWeekDays. apply weekDaysOfRune_acc.
Qed.

(** X27. Saving a template and loading it into a record without weekdays
    gives the weekdays back when there are some; a template saved without
    weekdays comes back with whatever the string stored before decodes to:
    [BeforeSave] does not clear the column. *)
Theorem save_load_weekdays (now : Time) (ra : RecurringAppointment) :
  (forall d, In d (WeekDays ra) -> 0 <= d <= 6) ->
  WeekDays (snd (AfterFind parseRFC3339
                   (setWeekDays (snd (BeforeSave formatRFC3339 now ra)) [])))
  = match WeekDays ra with
    | [] => decodeWeekDays [] (WeekDaysString ra)
    | _ :: _ => WeekDays ra
    end.
Proof.
  intros Hr.
  assert (Hrt : decodeWeekDays [] (encodeWeekDays (WeekDays ra)) = WeekDays ra).
  { destruct (weekDays_fold _ Hr 0 EmptyString (Forall_nil _)) as [Ha Hf].
    unfold encodeWeekDays. rewrite decodeWeekDays_ascii by exact Ha. exact Hf. }
  rewrite AfterFind_WeekDays.
  change (WeekDaysString (setWeekDays ?r [])) with (WeekDaysString r).
  change (WeekDays (setWeekDays ?r [])) with (@nil WeekDay).
  rewrite BeforeSave_WeekDaysString.
  destruct (WeekDays ra) as [|d days] eqn:E.
  - destruct (String.eqb_spec (WeekDaysString ra) EmptyString) as [Hs|Hs];
      cbn [negb]; [rewrite Hs|]; reflexivity.
  - destruct (String.eqb_spec (encodeWeekDays (d :: days)) EmptyString)
      as [Hs|Hs]; cbn [negb]; [|exact Hrt].
    rewrite Hs in Hrt. exact Hrt.
Qed.

Lemma append_assoc (s t u : string) :
  String.append (String.append s t) u = String.append s (String.append t u).
Proof.
  induction s as [|c s IH]; cbn; [reflexivity|]. f_equal. exact IH.
Qed.

Lemma stringOfRune_byte (c : ascii) :
  Z.of_N (N_of_ascii c) < 128 ->
  stringOfRune (Z.of_N (N_of_ascii c)) = String c EmptyString.
Proof.
  intros H. unfold stringOfRune, encodeRune.
  assert (H0 : 0 <= Z.of_N (N_of_ascii c)) by lia.
  destruct (Z.ltb_spec (Z.of_N (N_of_ascii c)) 0); [lia|].
  destruct (Z.ltb_spec 0x10FFFF (Z.of_N (N_of_ascii c))); [lia|].
  destruct (Z.leb_spec 0xD800 (Z.of_N (N_of_ascii c))); [lia|].
  cbn [orb andb].
  destruct (Z.ltb_spec (Z.of_N (N_of_ascii c)) 0x80); [|lia].
  unfold stringOfBytes, byte. cbn [map string_of_list_ascii].
  rewrite N2Z.id, ascii_N_embedding. reflexivity.
Qed.

(** Inside quotes the scan collects text without quotes as it stands. *)
Lemma scan_text (w acc : string) (dates : list Time) :
  quoteFree w ->
  fold_left (exclusionScan parseRFC3339) (bytesOf w) (acc, true, dates)
  = (String.append acc w, true, dates).
Proof.
  revert acc. induction w as [|c w IH]; intros acc Hw.
  - cbn. replace (String.append acc EmptyString) with acc; [reflexivity|].
    clear. induction acc as [|c acc IH]; cbn; [reflexivity|].
    f_equal. exact IH.
  - unfold quoteFree in Hw.
    change (bytesOf (String c w))
      with (Z.of_N (N_of_ascii c) :: bytesOf w) in *.
    apply Forall_cons_iff in Hw as [[Hlt Hq] Hw].
    cbn [fold_left]. unfold exclusionScan at 2.
    destruct (Z.eqb_spec (Z.of_N (N_of_ascii c)) 34); [contradiction|].
    rewrite stringOfRune_byte by exact Hlt.
    rewrite (IH _ Hw), append_assoc. reflexivity.
Qed.

Lemma quoteFree_ascii (s : string) :
  quoteFree s -> Forall (fun b => b < 128) (bytesOf s).
Proof.
  unfold quoteFree. apply Forall_impl. intros b [H _]. exact H.
Qed.

(** The encoding loop keeps the text in ASCII, and scanning what it has
    written so far, outside quotes, gives the dates read back so far. *)
Lemma exclusions_fold (ds : list Time) :
  (forall d, In d ds -> quoteFree (formatRFC3339 d)) ->
  forall i s x dates,
    Forall (fun b => b < 128) (bytesOf s) ->
    fold_left (exclusionScan parseRFC3339) (bytesOf s)
      (EmptyString, false, []) = (x, false, dates) ->
    let s' := snd (fold_left (exclusionStep formatRFC3339) ds (i, s)) in
    Forall (fun b => b < 128) (bytesOf s')
    /\ exists x',
         fold_left (exclusionScan parseRFC3339) (bytesOf s')
           (EmptyString, false, [])
         = (x', false,
            dates ++ flat_map (reparsed formatRFC3339 parseRFC3339) ds).
Proof.
  induction ds as [|d ds IH]; intros Hq i s x dates Ha Hs; cbn zeta.
  - cbn [fold_left snd flat_map]. rewrite app_nil_r. eauto.
  - cbn [fold_left].
    change (exclusionStep formatRFC3339 (i, s) d)
      with (i + 1,
            String.append (if 0 <? i then String.append s "," else s)
              (String (ascii_of_nat 34)
                 (String.append (formatRFC3339 d)
                    (String (ascii_of_nat 34) EmptyString)))).
    set (s1 := if 0 <? i then String.append s "," else s).
    assert (H1 : Forall (fun b => b < 128) (bytesOf s1)
                 /\ fold_left (exclusionScan parseRFC3339) (bytesOf s1)
                      (EmptyString, false, []) = (x, false, dates)).
    { unfold s1. destruct (0 <? i); [|auto].
      rewrite bytesOf_app. change (bytesOf ",") with [44]. split.
      - apply Forall_app. split; [assumption|]. repeat constructor.
      - rewrite fold_left_app, Hs. reflexivity. }
    destruct H1 as [Ha1 Hs1].
    assert (Hd : quoteFree (formatRFC3339 d)) by (apply Hq; left; reflexivity).
    set (s2 := String.append s1 _).
    assert (H2 : Forall (fun b => b < 128) (bytesOf s2)
                 /\ fold_left (exclusionScan parseRFC3339) (bytesOf s2)
                      (EmptyString, false, [])
                    = (EmptyString, false,
                       dates ++ reparsed formatRFC3339 parseRFC3339 d)).
    { unfold s2. rewrite bytesOf_app.
      change (bytesOf (String (ascii_of_nat 34) ?t)) with (34 :: bytesOf t).
      rewrite bytesOf_app.
      change (bytesOf (String (ascii_of_nat 34) EmptyString)) with [34].
      split.
      - apply Forall_app. split; [assumption|]. constructor; [lia|].
        apply Forall_app. split; [apply quoteFree_ascii; exact Hd|].
        repeat constructor.
      - rewrite fold_left_app, Hs1. cbn [fold_left].
        change (exclusionScan parseRFC3339 (x, false, dates) 34)
          with (EmptyString, true, dates).
        rewrite fold_left_app, (scan_text _ _ _ Hd). cbn [fold_left].
        unfold exclusionScan, reparsed. cbn [Z.eqb Pos.eqb String.append].
        destruct (parseRFC3339 (formatRFC3339 d));
          [reflexivity | rewrite app_nil_r; reflexivity]. }
    destruct H2 as [Ha2 Hs2].
    destruct (IH (fun y Hy => Hq y (or_intror Hy)) (i + 1) s2 _ _ Ha2 Hs2)
      as [Hb [x' Hg]].
    split; [exact Hb|]. exists x'.
    rewrite Hg. cbn [flat_map]. rewrite <- app_assoc. reflexivity.
Qed.

Lemma decodeExclusions_encode (ds : list Time) :
  (forall d, In d ds -> quoteFree (formatRFC3339 d)) ->
  decodeExclusions parseRFC3339 (encodeExclusions formatRFC3339 ds)
  = flat_map (reparsed formatRFC3339 parseRFC3339) ds.
Proof.
  intros Hq.
  destruct (exclusions_fold ds Hq 0 "[" EmptyString [])
    as [Ha [x' Hs]].
  - repeat constructor.
  - reflexivity.
  - cbn zeta in Ha, Hs. unfold decodeExclusions, encodeExclusions, runes.
    rewrite bytesOf_app. change (bytesOf "]") with [93].
    rewrite <- (app_nil_r (_ ++ [93])).
    rewrite decodeRunes_ascii.
    + cbn [decodeRunes]. rewrite app_nil_r, fold_left_app, Hs. reflexivity.
    + apply Forall_app. split; [exact Ha|]. repeat constructor.
Qed.

(** X28. The hand-written JSON of the exclusion dates survives a save and
    a load: when the text written for each date is ASCII and holds no
    double quote, [AfterFind] after [BeforeSave] sets the exclusion dates
    to what parsing each written text gives, in order, leaving out the
    texts that do not parse. *)
Theorem save_load_exclusions (now : Time) (ra : RecurringAppointment) :
  (forall d, In d (ExclusionDates ra) -> quoteFree (formatRFC3339 d)) ->
  ExclusionDates ra <> [] ->
  ExclusionDates (snd (AfterFind parseRFC3339
                         (snd (BeforeSave formatRFC3339 now ra))))
  = flat_map (reparsed formatRFC3339 parseRFC3339) (ExclusionDates ra).
Proof.
  intros Hq Hne.
  pose proof (decodeExclusions_encode _ Hq) as Hrt.
  destruct (ExclusionDates ra) as [|d ds] eqn:E; [congruence|].
  assert (Hj : ExclusionJSON (snd (BeforeSave formatRFC3339 now ra))
               = encodeExclusions formatRFC3339 (d :: ds)).
  { unfold BeforeSave. cbn [snd].
    destruct (WeekDays ra); cbn [ExclusionDates setWeekDaysString];
      rewrite E; reflexivity. }
  assert (Hn : String.eqb (encodeExclusions formatRFC3339 (d :: ds))
                 EmptyString = false).
  { apply String.eqb_neq. intros H.
    apply (f_equal bytesOf) in H. unfold encodeExclusions in H.
    rewrite bytesOf_app in H. change (bytesOf "]") with [93] in H.
    change (bytesOf EmptyString) with (@nil Z) in H.
    destruct (bytesOf (snd (fold_left (exclusionStep formatRFC3339)
                              (d :: ds) (0, "["))));
      discriminate H. }
  unfold AfterFind. cbn [snd].
  match goal with
  | |- context [if ?c then setWeekDays ?r ?v else ?r] =>
      destruct c
  end;
    cbn [ExclusionJSON setWeekDays]; rewrite Hj, Hn; cbn [negb];
    cbn [ExclusionDates setExclusionDates]; exact Hrt.
Qed.

End StoredFormFacts.

Section StoredFormWitnesses.

Lemma save_load_weekdays_witness :
  WeekDays (snd (AfterFind parseClock
                   (setWeekDays (snd (BeforeSave formatClock exampleNow
                                        weeklyTemplate)) [])))
  = match WeekDays weeklyTemplate with
    | [] => decodeWeekDays [] (WeekDaysString weeklyTemplate)
    | _ :: _ => WeekDays weeklyTemplate
    end.
Proof.
  apply (save_load_weekdays formatClock parseClock exampleNow weeklyTemplate).
  intros d Hd. vm_compute in Hd.
  repeat (destruct Hd as [<-|Hd]; [lia|]). destruct Hd.
Defined.

Lemma save_load_exclusions_witness :
  ExclusionDates (snd (AfterFind parseClock
                         (snd (BeforeSave formatClock exampleNow
                                 excludingTemplate))))
  = flat_map (reparsed formatClock parseClock)
      (ExclusionDates excludingTemplate).
Proof.
  apply (save_load_exclusions formatClock parseClock exampleNow
           excludingTemplate).
  - intros d Hd. cbn in Hd.
    destruct Hd as [<-|[<-|[]]]; vm_compute; repeat constructor;
      discriminate.
  - discriminate.
Defined.

End StoredFormWitnesses.
